(** * VA surface abstraction (gst-libs/gst/vaapi/gstvaapisurface.c)

    A shallow embedding of the surface object of gstreamer-vaapi: the three
    creation strategies, teardown, the parent-context accessors, image
    derivation and transfer, subpicture (overlay) association and the status
    query, together with the properties of the surface specification.

    Conventions of the embedding.
    - C integers ([guint], [gint], VA identifiers) are [Z]; where the source
      converts a value to a 32-bit type that may not hold it (a [gint] or a
      [gsize] stored in a [uint32_t] or a [guint], an unsigned value stored
      in an [int32_t]) the wrap-around is written out ([as_guint32],
      [as_gint32]).
    - A C function that mutates the surface takes the surface record and
      returns the updated one; everything outside the surface (the VA driver
      behind the display, the display lock, reference counts of other
      objects) lives in a [World] that is threaded through a small state and
      failure monad [M].  Failure ([None]) stands for a dereference of a NULL
      display, which the source does not guard against in some functions.
    - The [World] keeps a chronological [trace] of display lock and unlock
      operations, VA driver calls and reference-count operations.
    - Diagnostic output (GST_DEBUG, GST_ERROR, GST_WARNING, g_warning) is
      not modelled. *)

From Stdlib Require Import ZArith List Bool Lia Permutation.
Import ListNotations.
Open Scope Z_scope.

(** ** Identifiers and constants of the VA API *)

Definition VAStatus := Z.
Definition VASurfaceID := Z.
Definition VAImageID := Z.
Definition VASubpictureID := Z.

Definition VA_INVALID_ID : Z := 0xffffffff.
Definition VA_INVALID_SURFACE : Z := VA_INVALID_ID.
Definition VA_SURFACE_ATTRIB_SETTABLE : Z := 0x00000002.
Definition VA_SURFACE_ATTRIB_MEM_TYPE_VA : Z := 0x00000001.
Definition VA_SURFACE_EXTBUF_DESC_ENABLE_TILING : Z := 0x80000000.

Definition GstVideoFormat := Z.
Definition GST_VIDEO_FORMAT_UNKNOWN : GstVideoFormat := 0.
Definition GST_VIDEO_FORMAT_ENCODED : GstVideoFormat := 1.

(** Conversion to a 32-bit unsigned type ([guint], [guint32], [uint32_t]):
    the value modulo 2^32. *)
Definition as_guint32 (v : Z) : Z := v mod 2 ^ 32.

(** Conversion to a 32-bit signed type ([int32_t]): the value congruent
    modulo 2^32 in the signed range. *)
Definition as_gint32 (v : Z) : Z := (v + 2 ^ 31) mod 2 ^ 32 - 2 ^ 31.

(** Object pointers.  Subpictures and buffer proxies are compared by
    address in the source, so they are addresses here; their fields are read
    through the accessors of the environment below. *)
Definition GstVaapiDisplay := N.
Definition GstVaapiContext := N.
Definition GstVaapiSubpicture := N.
Definition GstVaapiBufferProxy := N.

(** ** Plain data *)

Record GstVaapiRectangle := {
  rect_x : Z;        (* guint32 x *)
  rect_y : Z;        (* guint32 y *)
  rect_width : Z;    (* guint32 width *)
  rect_height : Z    (* guint32 height *)
}.

(** The render geometry of a [GstVideoOverlayRectangle], as returned by
    gst_video_overlay_rectangle_get_render_rectangle: signed origin,
    unsigned extents. *)
Record GstVideoOverlayRectangle := {
  overlay_addr : N;
  render_x : Z;       (* gint *)
  render_y : Z;       (* gint *)
  render_width : Z;   (* guint *)
  render_height : Z   (* guint *)
}.

(** What the source reads of a [GstVaapiImage]. *)
Record GstVaapiImage := {
  image_addr : N;
  image_object_id : VAImageID;    (* GST_VAAPI_OBJECT_ID (image) *)
  image_width : Z;                (* GST_VAAPI_IMAGE_WIDTH (image) *)
  image_height : Z;               (* GST_VAAPI_IMAGE_HEIGHT (image) *)
  image_format : GstVideoFormat   (* GST_VAAPI_IMAGE_FORMAT (image) *)
}.

(** The fields of a [VAImage] the source touches, and the rest of the
    descriptor as one opaque payload. *)
Record VAImage := {
  image_id : VAImageID;
  buf : Z;
  va_image_rest : Z
}.

Record VAImageFormat := { fourcc : Z }.

Record GstVideoInfo := {
  vi_format : GstVideoFormat;    (* GST_VIDEO_INFO_FORMAT *)
  vi_width : Z;                  (* GST_VIDEO_INFO_WIDTH, a gint *)
  vi_height : Z;                 (* GST_VIDEO_INFO_HEIGHT, a gint *)
  vi_n_planes : nat;             (* GST_VIDEO_INFO_N_PLANES *)
  vi_stride : nat -> Z;          (* GST_VIDEO_INFO_PLANE_STRIDE, a gint *)
  vi_offset : nat -> Z           (* GST_VIDEO_INFO_PLANE_OFFSET, a gsize *)
}.

Record VASurfaceAttribExternalBuffers := {
  pixel_format : Z;          (* uint32_t *)
  eb_width : Z;              (* uint32_t width *)
  eb_height : Z;             (* uint32_t height *)
  data_size : Z;             (* uint32_t *)
  num_planes : nat;
  pitches : list Z;          (* uint32_t pitches[4] *)
  offsets : list Z;          (* uint32_t offsets[4] *)
  buffers : list Z;          (* the array [buffers] points to *)
  num_buffers : Z;
  eb_flags : Z;
  private_data : Z
}.

Inductive VASurfaceAttribType :=
| VASurfaceAttribPixelFormat
| VASurfaceAttribMemoryType
| VASurfaceAttribExternalBufferDescriptor.

(** A generic attribute value; a pointer value carries the descriptor it
    points to, as it is when the call is made. *)
Inductive VAGenericValue :=
| VAGenericValueTypeInteger (i : Z)     (* int32_t value.i *)
| VAGenericValueTypePointer (p : VASurfaceAttribExternalBuffers).

Record VASurfaceAttrib := {
  attrib_type : VASurfaceAttribType;
  attrib_flags : Z;
  attrib_value : VAGenericValue
}.

(** ** The surface object *)

Record GstVaapiSurface := {
  display : option GstVaapiDisplay;            (* GST_VAAPI_OBJECT_DISPLAY *)
  object_id : VASurfaceID;                     (* GST_VAAPI_OBJECT_ID *)
  extbuf_proxy : option GstVaapiBufferProxy;
  format : GstVideoFormat;
  width : Z;
  height : Z;
  subpictures : option (list GstVaapiSubpicture);   (* GPtrArray *, NULL = None *)
  parent_context : option GstVaapiContext;
  chroma_type : Z
}.

Definition set_object_id (s : GstVaapiSurface) (id : VASurfaceID) :=
  {| display := display s; object_id := id; extbuf_proxy := extbuf_proxy s;
     format := format s; width := width s; height := height s;
     subpictures := subpictures s; parent_context := parent_context s;
     chroma_type := chroma_type s |}.

Definition set_extbuf_proxy (s : GstVaapiSurface) (p : option GstVaapiBufferProxy) :=
  {| display := display s; object_id := object_id s; extbuf_proxy := p;
     format := format s; width := width s; height := height s;
     subpictures := subpictures s; parent_context := parent_context s;
     chroma_type := chroma_type s |}.

Definition set_format (s : GstVaapiSurface) (f : GstVideoFormat) :=
  {| display := display s; object_id := object_id s; extbuf_proxy := extbuf_proxy s;
     format := f; width := width s; height := height s;
     subpictures := subpictures s; parent_context := parent_context s;
     chroma_type := chroma_type s |}.

Definition set_chroma_type (s : GstVaapiSurface) (c : Z) :=
  {| display := display s; object_id := object_id s; extbuf_proxy := extbuf_proxy s;
     format := format s; width := width s; height := height s;
     subpictures := subpictures s; parent_context := parent_context s;
     chroma_type := c |}.

Definition set_width (s : GstVaapiSurface) (v : Z) :=
  {| display := display s; object_id := object_id s; extbuf_proxy := extbuf_proxy s;
     format := format s; width := v; height := height s;
     subpictures := subpictures s; parent_context := parent_context s;
     chroma_type := chroma_type s |}.

Definition set_height (s : GstVaapiSurface) (v : Z) :=
  {| display := display s; object_id := object_id s; extbuf_proxy := extbuf_proxy s;
     format := format s; width := width s; height := v;
     subpictures := subpictures s; parent_context := parent_context s;
     chroma_type := chroma_type s |}.

Definition set_subpictures (s : GstVaapiSurface) (a : option (list GstVaapiSubpicture)) :=
  {| display := display s; object_id := object_id s; extbuf_proxy := extbuf_proxy s;
     format := format s; width := width s; height := height s;
     subpictures := a; parent_context := parent_context s;
     chroma_type := chroma_type s |}.

Definition set_parent_context (s : GstVaapiSurface) (c : option GstVaapiContext) :=
  {| display := display s; object_id := object_id s; extbuf_proxy := extbuf_proxy s;
     format := format s; width := width s; height := height s;
     subpictures := subpictures s; parent_context := c;
     chroma_type := chroma_type s |}.

(** The members of the overlay set, none when the array was never made. *)
Definition overlays (s : GstVaapiSurface) : list GstVaapiSubpicture :=
  match subpictures s with Some a => a | None => [] end.

(** ** VA driver calls and the trace *)

Inductive VACall :=
| VaCreateSurfaces (va_format va_width va_height : Z) (attribs : list VASurfaceAttrib)
| VaDestroySurfaces (surface : VASurfaceID)
| VaDeriveImage (surface : VASurfaceID) (image : VAImage)
| VaDestroyImage (image : VAImageID)
| VaGetImage (surface : VASurfaceID) (gx gy gwidth gheight : Z) (image : VAImageID)
| VaPutImage (surface : VASurfaceID) (image : VAImageID)
             (src_x src_y src_width src_height : Z)
             (dest_x dest_y dest_width dest_height : Z)
| VaAssociateSubpicture (subpicture : VASubpictureID) (surface : VASurfaceID)
                        (src dst : GstVaapiRectangle) (flags : Z)
| VaDeassociateSubpicture (subpicture : VASubpictureID) (surface : VASurfaceID)
| VaSyncSurface (surface : VASurfaceID)
| VaQuerySurfaceStatus (surface : VASurfaceID).

(** What a driver call hands back: its status and its out-parameters.  Each
    call site reads only the out-parameters of its own call. *)
Record VAReply := {
  reply_status : VAStatus;
  reply_surface : VASurfaceID;        (* vaCreateSurfaces: the new surface id *)
  reply_extbuf : option VASurfaceAttribExternalBuffers;
      (* vaCreateSurfaces: what the driver wrote into the external-buffer
         descriptor reachable from the attribute list; None when it left the
         descriptor alone *)
  reply_image : VAImage;              (* vaDeriveImage: the descriptor after the call *)
  reply_surface_status : Z            (* vaQuerySurfaceStatus *)
}.

Inductive Event :=
| EvLock (d : GstVaapiDisplay)
| EvUnlock (d : GstVaapiDisplay)
| EvCall (c : VACall)
| EvRef (o : N)                        (* gst_vaapi_object_ref *)
| EvUnref (o : N)                      (* gst_vaapi_object_unref *)
| EvProxyRef (p : GstVaapiBufferProxy)     (* a reference to a buffer proxy taken *)
| EvProxyUnref (p : GstVaapiBufferProxy).  (* a reference to a buffer proxy given up *)

(** Observations on a trace. *)

Definition is_deassociation (e : Event) : bool :=
  match e with EvCall (VaDeassociateSubpicture _ _) => true | _ => false end.

Definition is_destroy_surfaces (e : Event) : bool :=
  match e with EvCall (VaDestroySurfaces _) => true | _ => false end.

Definition is_unref (e : Event) : bool :=
  match e with EvUnref _ => true | _ => false end.

Definition is_call (e : Event) : bool :=
  match e with EvCall _ => true | _ => false end.

Definition is_proxy_event (e : Event) : bool :=
  match e with EvProxyRef _ | EvProxyUnref _ => true | _ => false end.

Definition count_events (f : Event -> bool) (t : list Event) : nat :=
  length (filter f t).

(** The references to the buffer proxy [p] taken and not given up along a
    trace. *)
Fixpoint proxy_refs (p : GstVaapiBufferProxy) (t : list Event) : Z :=
  match t with
  | [] => 0
  | EvProxyRef q :: t' => (if N.eqb q p then 1 else 0) + proxy_refs p t'
  | EvProxyUnref q :: t' => (if N.eqb q p then -1 else 0) + proxy_refs p t'
  | _ :: t' => proxy_refs p t'
  end.

(** ** The environment: the driver and the collaborators of the surface *)

Class VAEnv : Type := {
  va_state : Type;
  (* the VA driver behind the display *)
  va_call : va_state -> VACall -> va_state * VAReply;
  vaapi_check_status : VAStatus -> bool;
  (* gstvaapiutils: translation tables *)
  from_GstVaapiChromaType : Z -> Z;
  from_GstVaapiBufferMemoryType : Z -> Z;
  from_GstVaapiSubpictureFlags : Z -> Z;
  to_GstVaapiSurfaceStatus : Z -> Z;
  gst_vaapi_video_format_to_va_format : GstVideoFormat -> option VAImageFormat;
  gst_vaapi_video_format_get_chroma_type : GstVideoFormat -> Z;
  (* gstvaapisurface.h: allocation flags *)
  GST_VAAPI_SURFACE_ALLOC_FLAG_LINEAR_STORAGE : Z;
  GST_VAAPI_SURFACE_ALLOC_FLAG_FIXED_STRIDES : Z;
  GST_VAAPI_SURFACE_ALLOC_FLAG_FIXED_OFFSETS : Z;
  (* subpicture collaborator *)
  subpicture_object_id : GstVaapiSubpicture -> VASubpictureID;
  gst_vaapi_subpicture_get_image : GstVaapiSubpicture -> option GstVaapiImage;
  gst_vaapi_subpicture_get_flags : GstVaapiSubpicture -> Z;
  gst_vaapi_subpicture_new_from_overlay_rectangle :
    va_state -> GstVaapiDisplay -> GstVideoOverlayRectangle ->
    va_state * option GstVaapiSubpicture;
  (* buffer-memory collaborator *)
  GST_VAAPI_BUFFER_PROXY_HANDLE : GstVaapiBufferProxy -> Z;
  GST_VAAPI_BUFFER_PROXY_SIZE : GstVaapiBufferProxy -> Z;
  GST_VAAPI_BUFFER_PROXY_TYPE : GstVaapiBufferProxy -> Z;
  (* image collaborator *)
  gst_vaapi_image_new_with_image :
    va_state -> GstVaapiDisplay -> VAImage -> va_state * option GstVaapiImage;
  (* context collaborator *)
  gst_vaapi_context_apply_composition :
    va_state -> GstVaapiContext -> option (list GstVideoOverlayRectangle) ->
    va_state * bool;
  (* object framework: allocation of a surface object for a display *)
  gst_vaapi_object_new :
    va_state -> option GstVaapiDisplay -> va_state * option GstVaapiSurface;
  (* VA_CHECK_VERSION (major, minor, micro) of the build *)
  VA_CHECK_VERSION : Z -> Z -> Z -> bool;
  (* contents of automatic variables before their first assignment *)
  uninitialized_extbuf : VASurfaceAttribExternalBuffers;
  uninitialized_va_image : VAImage
}.

Section Surface.

Context {E : VAEnv}.

Record World := {
  va : va_state;
  trace : list Event
}.

(** ** The state and failure monad *)

Definition M (A : Type) : Type := World -> option (A * World).

Definition ret {A} (a : A) : M A := fun w => Some (a, w).

Definition bind {A B} (m : M A) (k : A -> M B) : M B :=
  fun w => match m w with
           | Some (a, w') => k a w'
           | None => None
           end.

Notation "x <-- m ;; k" := (bind m (fun x => k))
  (at level 61, m at next level, right associativity).
Notation "' pat <-- m ;; k" := (bind m (fun x => match x with pat => k end))
  (at level 61, pat pattern, m at next level, right associativity).
Notation "m ;;; k" := (bind m (fun _ => k))
  (at level 61, right associativity).

Definition emit (e : Event) : M unit :=
  fun w => Some (tt, {| va := va w; trace := trace w ++ [e] |}).

(** GST_VAAPI_DISPLAY_LOCK, GST_VAAPI_DISPLAY_UNLOCK: they need a display. *)
Definition GST_VAAPI_DISPLAY_LOCK (d : option GstVaapiDisplay) : M unit :=
  match d with
  | Some d => emit (EvLock d)
  | None => fun _ => None
  end.

Definition GST_VAAPI_DISPLAY_UNLOCK (d : option GstVaapiDisplay) : M unit :=
  match d with
  | Some d => emit (EvUnlock d)
  | None => fun _ => None
  end.

(** A driver entry point called on GST_VAAPI_DISPLAY_VADISPLAY (display). *)
Definition va_invoke (d : option GstVaapiDisplay) (c : VACall) : M VAReply :=
  fun w =>
    match d with
    | Some _ =>
        let (st, r) := va_call (va w) c in
        Some (r, {| va := st; trace := trace w ++ [EvCall c] |})
    | None => None
    end.

(** A collaborator that may change the state behind the display. *)
Definition collaborate {A} (f : va_state -> va_state * A) : M A :=
  fun w => let (st, a) := f (va w) in Some (a, {| va := st; trace := trace w |}).

Definition gst_vaapi_object_ref (o : N) : M unit := emit (EvRef o).
Definition gst_vaapi_object_unref (o : N) : M unit := emit (EvUnref o).

(** ** GPtrArray *)

(** g_ptr_array_remove_fast: removes the first occurrence of [p]; the last
    element of the array takes its place.  [None] when [p] is absent (the C
    function returns FALSE and leaves the array alone). *)
Fixpoint g_ptr_array_remove_fast (a : list N) (p : N) : option (list N) :=
  match a with
  | [] => None
  | q :: t =>
      if N.eqb q p then
        Some (match t with
              | [] => []
              | _ :: _ => last t q :: removelast t
              end)
      else
        match g_ptr_array_remove_fast t p with
        | Some t' => Some (q :: t')
        | None => None
        end
  end.

(** g_ptr_array_foreach: the callback on every element, in array order. *)
Fixpoint g_ptr_array_foreach (a : list N) (f : N -> M unit) : M unit :=
  match a with
  | [] => ret tt
  | p :: t => f p ;;; g_ptr_array_foreach t f
  end.

(** g_ptr_array_add: appends at the end. *)
Definition g_ptr_array_add (a : list N) (p : N) : list N := a ++ [p].

(** ** Subpicture deassociation and teardown *)

Definition _gst_vaapi_surface_deassociate_subpicture
    (surface : GstVaapiSurface) (subpicture : GstVaapiSubpicture) : M bool :=
  let display := display surface in
  match display with
  | None => ret false
  | Some _ =>
      let surface_id := object_id surface in
      if surface_id =? VA_INVALID_SURFACE then ret false
      else
        GST_VAAPI_DISPLAY_LOCK display ;;;
        r <-- va_invoke display
                (VaDeassociateSubpicture (subpicture_object_id subpicture) surface_id) ;;
        GST_VAAPI_DISPLAY_UNLOCK display ;;;
        if negb (vaapi_check_status (reply_status r)) then ret false
        else ret true
  end.

Definition destroy_subpicture_cb (subpicture : GstVaapiSubpicture)
    (surface : GstVaapiSurface) : M unit :=
  _gst_vaapi_surface_deassociate_subpicture surface subpicture ;;;
  gst_vaapi_object_unref subpicture.

Definition gst_vaapi_surface_destroy_subpictures (surface : GstVaapiSurface)
    : M GstVaapiSurface :=
  match subpictures surface with
  | Some a =>
      g_ptr_array_foreach a (fun p => destroy_subpicture_cb p surface) ;;;
      ret (set_subpictures surface None)
  | None => ret surface
  end.

(** Modelled from the spec: gst_vaapi_buffer_proxy_replace, of the
    buffer-memory collaborator ("reference replace/release semantics",
    "takes (or replaces) an owned reference"): the slot takes a reference to
    the new proxy and gives up the one to the proxy it held; nothing happens
    when the slot already holds the new proxy. *)
Definition gst_vaapi_buffer_proxy_replace
    (old_proxy new_proxy : option GstVaapiBufferProxy)
    : M (option GstVaapiBufferProxy) :=
  let same := match old_proxy, new_proxy with
              | Some o, Some n => N.eqb o n
              | None, None => true
              | _, _ => false
              end in
  if same then ret old_proxy
  else
    match new_proxy with Some n => emit (EvProxyRef n) | None => ret tt end ;;;
    match old_proxy with Some o => emit (EvProxyUnref o) | None => ret tt end ;;;
    ret new_proxy.

Definition gst_vaapi_surface_set_parent_context (surface : GstVaapiSurface)
    (context : option GstVaapiContext) : GstVaapiSurface :=
  set_parent_context surface None.

Definition gst_vaapi_surface_get_parent_context (surface : GstVaapiSurface)
    : option GstVaapiContext :=
  parent_context surface.

Definition gst_vaapi_surface_destroy (surface : GstVaapiSurface)
    : M GstVaapiSurface :=
  let display := display surface in
  let surface_id := object_id surface in
  surface <-- gst_vaapi_surface_destroy_subpictures surface ;;
  let surface := gst_vaapi_surface_set_parent_context surface None in
  surface <--
    (if negb (surface_id =? VA_INVALID_SURFACE) then
       GST_VAAPI_DISPLAY_LOCK display ;;;
       _ <-- va_invoke display (VaDestroySurfaces surface_id) ;;
       GST_VAAPI_DISPLAY_UNLOCK display ;;;
       ret (set_object_id surface VA_INVALID_SURFACE)
     else ret surface) ;;
  p <-- gst_vaapi_buffer_proxy_replace (extbuf_proxy surface) None ;;
  ret (set_extbuf_proxy surface p).

(** ** Creation *)

(** [arr[i] = v] on a C array held as a list. *)
Fixpoint store (arr : list Z) (i : nat) (v : Z) : list Z :=
  match arr, i with
  | [], _ => []
  | _ :: t, O => v :: t
  | a :: t, S j => a :: store t j v
  end.

(** [for (i = 0; i < n; i++) arr[i] = f (i);] *)
Definition store_planes (n : nat) (f : nat -> Z) (arr : list Z) : list Z :=
  fold_left (fun acc i => store acc i (f i)) (seq 0 n) arr.

Definition flag_set (flags mask : Z) : bool := negb (Z.land flags mask =? 0).

Definition commit (surface : GstVaapiSurface) (f : GstVideoFormat)
    (chroma w h : Z) (id : VASurfaceID) : GstVaapiSurface :=
  set_object_id
    (set_height (set_width (set_chroma_type (set_format surface f) chroma) w) h)
    id.

Definition gst_vaapi_surface_create (surface : GstVaapiSurface)
    (chroma_type width height : Z) : M (bool * GstVaapiSurface) :=
  let display := display surface in
  let va_chroma_format := from_GstVaapiChromaType chroma_type in
  if va_chroma_format =? 0 then ret (false, surface)
  else
    GST_VAAPI_DISPLAY_LOCK display ;;;
    r <-- va_invoke display (VaCreateSurfaces va_chroma_format width height []) ;;
    GST_VAAPI_DISPLAY_UNLOCK display ;;;
    if negb (vaapi_check_status (reply_status r)) then ret (false, surface)
    else
      ret (true,
           commit surface GST_VIDEO_FORMAT_UNKNOWN chroma_type width height
             (reply_surface r)).

(** The descriptor after [memset (&extbuf, 0, sizeof (extbuf))]. *)
Definition zeroed_extbuf : VASurfaceAttribExternalBuffers :=
  {| pixel_format := 0; eb_width := 0; eb_height := 0; data_size := 0;
     num_planes := 0%nat; pitches := [0; 0; 0; 0]; offsets := [0; 0; 0; 0];
     buffers := []; num_buffers := 0; eb_flags := 0; private_data := 0 |}.

(** The descriptor as the driver leaves it: the driver can write to it only
    when the attribute list points to it. *)
Definition descriptor_after (attached : bool)
    (extbuf : VASurfaceAttribExternalBuffers) (r : VAReply)
    : VASurfaceAttribExternalBuffers :=
  if attached then
    match reply_extbuf r with Some e => e | None => extbuf end
  else extbuf.

Definition gst_vaapi_surface_create_full (surface : GstVaapiSurface)
    (vip : GstVideoInfo) (flags : Z) : M (bool * GstVaapiSurface) :=
  if VA_CHECK_VERSION 0 34 0 then
    let display := display surface in
    let format := vi_format vip in
    match gst_vaapi_video_format_to_va_format format with
    | None => ret (false, surface)
    | Some va_format =>
        let chroma_type := gst_vaapi_video_format_get_chroma_type format in
        if chroma_type =? 0 then ret (false, surface)
        else
          let va_chroma_format := from_GstVaapiChromaType chroma_type in
          if va_chroma_format =? 0 then ret (false, surface)
          else
            let linear := flag_set flags GST_VAAPI_SURFACE_ALLOC_FLAG_LINEAR_STORAGE in
            let strides := flag_set flags GST_VAAPI_SURFACE_ALLOC_FLAG_FIXED_STRIDES in
            let offs := flag_set flags GST_VAAPI_SURFACE_ALLOC_FLAG_FIXED_OFFSETS in
            let n := vi_n_planes vip in
            let extbuf :=
              {| pixel_format := fourcc va_format;
                 eb_width := as_guint32 (vi_width vip);
                 eb_height := as_guint32 (vi_height vip);
                 data_size := data_size zeroed_extbuf;
                 num_planes := n;
                 pitches := if strides
                            then store_planes n
                                   (fun i => as_guint32 (vi_stride vip i))
                                   (pitches zeroed_extbuf)
                            else pitches zeroed_extbuf;
                 offsets := if offs
                            then store_planes n
                                   (fun i => as_guint32 (vi_offset vip i))
                                   (offsets zeroed_extbuf)
                            else offsets zeroed_extbuf;
                 buffers := buffers zeroed_extbuf;
                 num_buffers := num_buffers zeroed_extbuf;
                 eb_flags := if linear
                             then Z.land (eb_flags zeroed_extbuf)
                                    (Z.lnot VA_SURFACE_EXTBUF_DESC_ENABLE_TILING)
                             else eb_flags zeroed_extbuf;
                 private_data := private_data zeroed_extbuf |} in
            let extbuf_needed := linear || strides || offs in
            let attribs :=
              {| attrib_type := VASurfaceAttribPixelFormat;
                 attrib_flags := VA_SURFACE_ATTRIB_SETTABLE;
                 attrib_value :=
                   VAGenericValueTypeInteger (as_gint32 (fourcc va_format)) |}
              :: (if extbuf_needed then
                    [ {| attrib_type := VASurfaceAttribMemoryType;
                         attrib_flags := VA_SURFACE_ATTRIB_SETTABLE;
                         attrib_value :=
                           VAGenericValueTypeInteger VA_SURFACE_ATTRIB_MEM_TYPE_VA |};
                      {| attrib_type := VASurfaceAttribExternalBufferDescriptor;
                         attrib_flags := VA_SURFACE_ATTRIB_SETTABLE;
                         attrib_value := VAGenericValueTypePointer extbuf |} ]
                  else []) in
            GST_VAAPI_DISPLAY_LOCK display ;;;
            r <-- va_invoke display
                    (VaCreateSurfaces va_chroma_format (eb_width extbuf)
                       (eb_height extbuf) attribs) ;;
            GST_VAAPI_DISPLAY_UNLOCK display ;;;
            let extbuf := descriptor_after extbuf_needed extbuf r in
            if negb (vaapi_check_status (reply_status r)) then ret (false, surface)
            else
              ret (true,
                   commit surface format chroma_type (eb_width extbuf)
                     (eb_height extbuf) (reply_surface r))
    end
  else ret (false, surface).

Definition gst_vaapi_surface_create_from_buffer_proxy (surface : GstVaapiSurface)
    (proxy : GstVaapiBufferProxy) (vip : GstVideoInfo)
    : M (bool * GstVaapiSurface) :=
  if VA_CHECK_VERSION 0 36 0 then
    let display := display surface in
    let format := vi_format vip in
    let width := as_guint32 (vi_width vip) in
    let height := as_guint32 (vi_height vip) in
    p <-- gst_vaapi_buffer_proxy_replace (extbuf_proxy surface) (Some proxy) ;;
    let surface := set_extbuf_proxy surface p in
    match gst_vaapi_video_format_to_va_format format with
    | None => ret (false, surface)
    | Some va_format =>
        let chroma_type := gst_vaapi_video_format_get_chroma_type format in
        if chroma_type =? 0 then ret (false, surface)
        else
          let va_chroma_format := from_GstVaapiChromaType chroma_type in
          if va_chroma_format =? 0 then ret (false, surface)
          else
            let extbuf_handle := GST_VAAPI_BUFFER_PROXY_HANDLE proxy in
            let n := vi_n_planes vip in
            let extbuf :=
              {| pixel_format := fourcc va_format;
                 eb_width := width;
                 eb_height := height;
                 data_size := as_guint32 (GST_VAAPI_BUFFER_PROXY_SIZE proxy);
                 num_planes := n;
                 pitches := store_planes n
                              (fun i => as_guint32 (vi_stride vip i))
                              (pitches uninitialized_extbuf);
                 offsets := store_planes n
                              (fun i => as_guint32 (vi_offset vip i))
                              (offsets uninitialized_extbuf);
                 buffers := [extbuf_handle];
                 num_buffers := 1;
                 eb_flags := 0;
                 private_data := 0 |} in
            let attribs :=
              [ {| attrib_type := VASurfaceAttribExternalBufferDescriptor;
                   attrib_flags := VA_SURFACE_ATTRIB_SETTABLE;
                   attrib_value := VAGenericValueTypePointer extbuf |};
                {| attrib_type := VASurfaceAttribMemoryType;
                   attrib_flags := VA_SURFACE_ATTRIB_SETTABLE;
                   attrib_value :=
                     VAGenericValueTypeInteger
                       (as_gint32
                          (from_GstVaapiBufferMemoryType
                             (GST_VAAPI_BUFFER_PROXY_TYPE proxy))) |} ] in
            GST_VAAPI_DISPLAY_LOCK display ;;;
            r <-- va_invoke display
                    (VaCreateSurfaces va_chroma_format width height attribs) ;;
            GST_VAAPI_DISPLAY_UNLOCK display ;;;
            if negb (vaapi_check_status (reply_status r)) then ret (false, surface)
            else
              ret (true,
                   commit surface format chroma_type width height (reply_surface r))
    end
  else ret (false, surface).

(** Modelled from the spec: gst_vaapi_object_unref on a surface that has a
    single reference, of the object framework ("destroy (implicit via
    reference release to zero)"): the release of the last reference runs the
    finalizer, which is gst_vaapi_surface_destroy. *)
Definition gst_vaapi_surface_unref_last (surface : GstVaapiSurface) : M unit :=
  gst_vaapi_surface_destroy surface ;;; ret tt.

(** The three constructors share one shape: allocate the object, run the
    creation strategy, drop the object when the strategy fails. *)
Definition new_surface (d : option GstVaapiDisplay)
    (create : GstVaapiSurface -> M (bool * GstVaapiSurface))
    : M (option GstVaapiSurface) :=
  o <-- collaborate (fun st => gst_vaapi_object_new st d) ;;
  match o with
  | None => ret None
  | Some surface =>
      '(ok, surface) <-- create surface ;;
      if negb ok then gst_vaapi_surface_unref_last surface ;;; ret None
      else ret (Some surface)
  end.

Definition gst_vaapi_surface_new (d : option GstVaapiDisplay)
    (chroma_type width height : Z) : M (option GstVaapiSurface) :=
  new_surface d (fun s => gst_vaapi_surface_create s chroma_type width height).

Definition gst_vaapi_surface_new_full (d : option GstVaapiDisplay)
    (vip : GstVideoInfo) (flags : Z) : M (option GstVaapiSurface) :=
  new_surface d (fun s => gst_vaapi_surface_create_full s vip flags).

Definition gst_vaapi_surface_new_from_buffer_proxy (d : option GstVaapiDisplay)
    (proxy : option GstVaapiBufferProxy) (info : option GstVideoInfo)
    : M (option GstVaapiSurface) :=
  match proxy, info with
  | Some proxy, Some info =>
      new_surface d
        (fun s => gst_vaapi_surface_create_from_buffer_proxy s proxy info)
  | _, _ => ret None
  end.

(** ** Snapshot access *)

(** A collaborator that is handed the display. *)
Definition with_display {A} (d : option GstVaapiDisplay)
    (f : va_state -> GstVaapiDisplay -> va_state * A) : M A :=
  match d with
  | Some d => collaborate (fun st => f st d)
  | None => fun _ => None
  end.

Definition gst_vaapi_surface_derive_image (surface : GstVaapiSurface)
    : M (option GstVaapiImage) :=
  let display := display surface in
  let va_image :=
    {| image_id := VA_INVALID_ID; buf := VA_INVALID_ID;
       va_image_rest := va_image_rest uninitialized_va_image |} in
  GST_VAAPI_DISPLAY_LOCK display ;;;
  r <-- va_invoke display (VaDeriveImage (object_id surface) va_image) ;;
  GST_VAAPI_DISPLAY_UNLOCK display ;;;
  let va_image := reply_image r in
  if negb (vaapi_check_status (reply_status r)) then ret None
  else if (image_id va_image =? VA_INVALID_ID) || (buf va_image =? VA_INVALID_ID)
  then ret None
  else
    image <-- with_display display
                (fun st d => gst_vaapi_image_new_with_image st d va_image) ;;
    match image with
    | None =>
        va_invoke display (VaDestroyImage (image_id va_image)) ;;;
        ret None
    | Some i => ret (Some i)
    end.

Definition gst_vaapi_surface_get_format (surface : GstVaapiSurface)
    : M (GstVideoFormat * GstVaapiSurface) :=
  if format surface =? GST_VIDEO_FORMAT_UNKNOWN then
    image <-- gst_vaapi_surface_derive_image surface ;;
    surface <-- match image with
                | Some i =>
                    let surface := set_format surface (image_format i) in
                    gst_vaapi_object_unref (image_addr i) ;;;
                    ret surface
                | None => ret surface
                end ;;
    let surface :=
      if format surface =? GST_VIDEO_FORMAT_UNKNOWN
      then set_format surface GST_VIDEO_FORMAT_ENCODED
      else surface in
    ret (format surface, surface)
  else ret (format surface, surface).

Definition gst_vaapi_surface_get_image (surface : GstVaapiSurface)
    (image : GstVaapiImage) : M bool :=
  let display := display surface in
  match display with
  | None => ret false
  | Some _ =>
      let width_ := image_width image in
      let height_ := image_height image in
      if negb (width_ =? width surface) || negb (height_ =? height surface)
      then ret false
      else
        let image_id := image_object_id image in
        if image_id =? VA_INVALID_ID then ret false
        else
          GST_VAAPI_DISPLAY_LOCK display ;;;
          r <-- va_invoke display
                  (VaGetImage (object_id surface) 0 0 width_ height_ image_id) ;;
          GST_VAAPI_DISPLAY_UNLOCK display ;;;
          if negb (vaapi_check_status (reply_status r)) then ret false
          else ret true
  end.

Definition gst_vaapi_surface_put_image (surface : GstVaapiSurface)
    (image : GstVaapiImage) : M bool :=
  let display := display surface in
  match display with
  | None => ret false
  | Some _ =>
      let width_ := image_width image in
      let height_ := image_height image in
      if negb (width_ =? width surface) || negb (height_ =? height surface)
      then ret false
      else
        let image_id := image_object_id image in
        if image_id =? VA_INVALID_ID then ret false
        else
          GST_VAAPI_DISPLAY_LOCK display ;;;
          r <-- va_invoke display
                  (VaPutImage (object_id surface) image_id
                     0 0 width_ height_ 0 0 width_ height_) ;;
          GST_VAAPI_DISPLAY_UNLOCK display ;;;
          if negb (vaapi_check_status (reply_status r)) then ret false
          else ret true
  end.

(** ** Overlay manager *)

Definition _gst_vaapi_surface_associate_subpicture (surface : GstVaapiSurface)
    (subpicture : GstVaapiSubpicture)
    (src_rect dst_rect : option GstVaapiRectangle) : M bool :=
  let display := display surface in
  match display with
  | None => ret false
  | Some _ =>
      let surface_id := object_id surface in
      if surface_id =? VA_INVALID_SURFACE then ret false
      else
        let src_rect :=
          match src_rect with
          | Some r => Some r
          | None =>
              match gst_vaapi_subpicture_get_image subpicture with
              | None => None
              | Some image =>
                  Some {| rect_x := 0; rect_y := 0;
                          rect_width := image_width image;
                          rect_height := image_height image |}
              end
          end in
        match src_rect with
        | None => ret false
        | Some src_rect =>
            let dst_rect :=
              match dst_rect with
              | Some r => r
              | None =>
                  {| rect_x := 0; rect_y := 0;
                     rect_width := width surface;
                     rect_height := height surface |}
              end in
            GST_VAAPI_DISPLAY_LOCK display ;;;
            r <-- va_invoke display
                    (VaAssociateSubpicture (subpicture_object_id subpicture)
                       surface_id src_rect dst_rect
                       (from_GstVaapiSubpictureFlags
                          (gst_vaapi_subpicture_get_flags subpicture))) ;;
            GST_VAAPI_DISPLAY_UNLOCK display ;;;
            if negb (vaapi_check_status (reply_status r)) then ret false
            else ret true
        end
  end.

(** The tail of gst_vaapi_surface_associate_subpicture, after a prior
    binding, if any, has been dealt with. *)
Definition associate_new (surface : GstVaapiSurface)
    (subpicture : GstVaapiSubpicture)
    (src_rect dst_rect : option GstVaapiRectangle) : M (bool * GstVaapiSurface) :=
  success <-- _gst_vaapi_surface_associate_subpicture surface subpicture
                src_rect dst_rect ;;
  if negb success then ret (false, surface)
  else
    gst_vaapi_object_ref subpicture ;;;
    ret (true,
         set_subpictures surface
           (Some (g_ptr_array_add (overlays surface) subpicture))).

(** [subpicture] is [None] for a NULL pointer.  g_ptr_array_new does not
    return NULL (GLib aborts when it cannot allocate). *)
Definition gst_vaapi_surface_associate_subpicture (surface : GstVaapiSurface)
    (subpicture : option GstVaapiSubpicture)
    (src_rect dst_rect : option GstVaapiRectangle) : M (bool * GstVaapiSurface) :=
  match subpicture with
  | None => ret (false, surface)
  | Some subpicture =>
      let surface :=
        match subpictures surface with
        | None => set_subpictures surface (Some [])
        | Some _ => surface
        end in
      match g_ptr_array_remove_fast (overlays surface) subpicture with
      | Some a =>
          let surface := set_subpictures surface (Some a) in
          success <-- _gst_vaapi_surface_deassociate_subpicture surface subpicture ;;
          gst_vaapi_object_unref subpicture ;;;
          if negb success then ret (false, surface)
          else associate_new surface subpicture src_rect dst_rect
      | None => associate_new surface subpicture src_rect dst_rect
      end
  end.

Definition gst_vaapi_surface_deassociate_subpicture (surface : GstVaapiSurface)
    (subpicture : GstVaapiSubpicture) : M (bool * GstVaapiSurface) :=
  match subpictures surface with
  | None => ret (true, surface)
  | Some a =>
      match g_ptr_array_remove_fast a subpicture with
      | None => ret (true, surface)
      | Some a' =>
          let surface := set_subpictures surface (Some a') in
          success <-- _gst_vaapi_surface_deassociate_subpicture surface subpicture ;;
          gst_vaapi_object_unref subpicture ;;;
          ret (success, surface)
      end
  end.

(** ** Synchronization and status *)

Definition gst_vaapi_surface_sync (surface : GstVaapiSurface) : M bool :=
  let display := display surface in
  match display with
  | None => ret false
  | Some _ =>
      GST_VAAPI_DISPLAY_LOCK display ;;;
      r <-- va_invoke display (VaSyncSurface (object_id surface)) ;;
      GST_VAAPI_DISPLAY_UNLOCK display ;;;
      if negb (vaapi_check_status (reply_status r)) then ret false
      else ret true
  end.

(** [pstatus] is the out-pointer: [None] for NULL, otherwise the current
    content of the location.  The result carries the content afterwards. *)
Definition gst_vaapi_surface_query_status (surface : GstVaapiSurface)
    (pstatus : option Z) : M (bool * option Z) :=
  GST_VAAPI_DISPLAY_LOCK (display surface) ;;;
  r <-- va_invoke (display surface) (VaQuerySurfaceStatus (object_id surface)) ;;
  GST_VAAPI_DISPLAY_UNLOCK (display surface) ;;;
  if negb (vaapi_check_status (reply_status r)) then ret (false, pstatus)
  else
    match pstatus with
    | Some _ => ret (true, Some (to_GstVaapiSurfaceStatus (reply_surface_status r)))
    | None => ret (true, None)
    end.

(** ** Bulk rebuild of the overlay set *)

(** MIN (a, b) of GLib: [((a) < (b)) ? (a) : (b)]. *)
Definition MIN (a b : Z) : Z := if a <? b then a else b.

(** The destination rectangle the loop of
    gst_vaapi_surface_set_subpictures_from_composition computes for one
    overlay rectangle. *)
Definition sub_rect_of (surface : GstVaapiSurface)
    (rect : GstVideoOverlayRectangle) : GstVaapiRectangle :=
  let sub_rect :=
    {| rect_x := as_guint32 (render_x rect);
       rect_y := as_guint32 (render_y rect);
       rect_width := render_width rect;
       rect_height := render_height rect |} in
  let sub_rect :=
    {| rect_x := rect_x sub_rect;
       rect_y := MIN (rect_y sub_rect) (height surface);
       rect_width := rect_width sub_rect;
       rect_height := rect_height sub_rect |} in
  {| rect_x := rect_x sub_rect;
     rect_y := rect_y sub_rect;
     rect_width := MIN (rect_width sub_rect) (width surface);
     rect_height := rect_height sub_rect |}.

(** gst_vaapi_object_unref on a pointer that may be NULL (a NULL pointer is
    rejected by the callee). *)
Definition gst_vaapi_object_unref_ptr (o : option N) : M unit :=
  match o with
  | Some p => gst_vaapi_object_unref p
  | None => ret tt
  end.

(** The body of the [for] loop over the rectangles of the composition. *)
Fixpoint overlay_rectangles (surface : GstVaapiSurface) (d : GstVaapiDisplay)
    (rects : list GstVideoOverlayRectangle) : M (bool * GstVaapiSurface) :=
  match rects with
  | [] => ret (true, surface)
  | rect :: rest =>
      subpicture <-- collaborate
                       (fun st =>
                          gst_vaapi_subpicture_new_from_overlay_rectangle st d rect) ;;
      let sub_rect := sub_rect_of surface rect in
      '(ok, surface) <-- gst_vaapi_surface_associate_subpicture surface subpicture
                           None (Some sub_rect) ;;
      if negb ok then
        gst_vaapi_object_unref_ptr subpicture ;;;
        ret (false, surface)
      else
        gst_vaapi_object_unref_ptr subpicture ;;;
        overlay_rectangles surface d rest
  end.

Definition gst_vaapi_surface_set_subpictures_from_composition
    (surface : GstVaapiSurface)
    (composition : option (list GstVideoOverlayRectangle))
    (propagate_context : bool) : M (bool * GstVaapiSurface) :=
  match (if propagate_context then parent_context surface else None) with
  | Some ctx =>
      ok <-- collaborate
               (fun st => gst_vaapi_context_apply_composition st ctx composition) ;;
      ret (ok, surface)
  | None =>
      match display surface with
      | None => ret (false, surface)
      | Some d =>
          surface <-- gst_vaapi_surface_destroy_subpictures surface ;;
          match composition with
          | None => ret (true, surface)
          | Some rects => overlay_rectangles surface d rects
          end
      end
  end.

(** ** Expected traces *)

(** What the teardown of one overlay member leaves on the trace of a live
    surface: the deassociation under the display lock, then the release of
    the reference. *)
Definition member_teardown (d : GstVaapiDisplay) (s : GstVaapiSurface)
    (p : GstVaapiSubpicture) : list Event :=
  [EvLock d;
   EvCall (VaDeassociateSubpicture (subpicture_object_id p) (object_id s));
   EvUnlock d;
   EvUnref p].

Definition overlay_teardown (d : GstVaapiDisplay) (s : GstVaapiSurface)
    : list Event :=
  flat_map (member_teardown d s) (overlays s).

Definition handle_teardown (d : GstVaapiDisplay) (s : GstVaapiSurface)
    : list Event :=
  if object_id s =? VA_INVALID_SURFACE then []
  else [EvLock d; EvCall (VaDestroySurfaces (object_id s)); EvUnlock d].

(** The source rectangle an association uses: the one given, or the whole
    image of the subpicture. *)
Definition source_rectangle (p : GstVaapiSubpicture)
    (src_rect : option GstVaapiRectangle) : option GstVaapiRectangle :=
  match src_rect with
  | Some r => Some r
  | None =>
      match gst_vaapi_subpicture_get_image p with
      | None => None
      | Some image =>
          Some {| rect_x := 0; rect_y := 0;
                  rect_width := image_width image;
                  rect_height := image_height image |}
      end
  end.

(** The destination rectangle an association uses: the one given, or the
    whole surface. *)
Definition destination_rectangle (s : GstVaapiSurface)
    (dst_rect : option GstVaapiRectangle) : GstVaapiRectangle :=
  match dst_rect with
  | Some r => r
  | None =>
      {| rect_x := 0; rect_y := 0;
         rect_width := width s; rect_height := height s |}
  end.

Definition association_call (s : GstVaapiSurface) (p : GstVaapiSubpicture)
    (src dst : GstVaapiRectangle) : VACall :=
  VaAssociateSubpicture (subpicture_object_id p) (object_id s) src dst
    (from_GstVaapiSubpictureFlags (gst_vaapi_subpicture_get_flags p)).

(** What a successful association of a new member leaves on the trace: the
    driver call under the display lock, then the reference taken for the
    overlay set. *)
Definition member_association (d : GstVaapiDisplay) (s : GstVaapiSurface)
    (p : GstVaapiSubpicture) (src dst : GstVaapiRectangle) : list Event :=
  [EvLock d; EvCall (association_call s p src dst); EvUnlock d; EvRef p].

(** What gst_vaapi_buffer_proxy_replace leaves on the trace when a slot
    holding [old] is given the proxy [new]. *)
Definition replacement (old : option GstVaapiBufferProxy)
    (new : GstVaapiBufferProxy) : list Event :=
  match old with
  | Some o => if N.eqb o new then [] else [EvProxyRef new; EvProxyUnref o]
  | None => [EvProxyRef new]
  end.

(** Two surface records with the same display, handle and size. *)
Definition same_handle (s s' : GstVaapiSurface) : Prop :=
  display s' = display s /\ object_id s' = object_id s /\
  width s' = width s /\ height s' = height s.

Definition proxy_teardown (s : GstVaapiSurface) : list Event :=
  match extbuf_proxy s with
  | Some p => [EvProxyUnref p]
  | None => []
  end.

(** ** Accessors

    The surface argument is a record, hence never NULL. *)

Definition gst_vaapi_surface_get_id (surface : GstVaapiSurface) : VASurfaceID :=
  object_id surface.

Definition gst_vaapi_surface_get_chroma_type (surface : GstVaapiSurface) : Z :=
  chroma_type surface.

Definition gst_vaapi_surface_get_width (surface : GstVaapiSurface) : Z :=
  width surface.

Definition gst_vaapi_surface_get_height (surface : GstVaapiSurface) : Z :=
  height surface.

(** [width_ptr] and [height_ptr] are out-pointers: [None] for NULL,
    otherwise the current content; the result is the content afterwards. *)
Definition gst_vaapi_surface_get_size (surface : GstVaapiSurface)
    (width_ptr height_ptr : option Z) : option Z * option Z :=
  (match width_ptr with
   | Some _ => Some (width surface)
   | None => None
   end,
   match height_ptr with
   | Some _ => Some (height surface)
   | None => None
   end).

(** gst_vaapi_surface_new_with_format.  gst_video_info_set_format belongs
    to the video library; it is taken as the function from format and size
    to the video description it fills in. *)
Definition gst_vaapi_surface_new_with_format
    (gst_video_info_set_format : GstVideoFormat -> Z -> Z -> GstVideoInfo)
    (d : option GstVaapiDisplay) (format : GstVideoFormat) (width height : Z)
    : M (option GstVaapiSurface) :=
  let vi := gst_video_info_set_format format width height in
  gst_vaapi_surface_new_full d vi 0.

(** ** Further observations *)

(** The references to the object [o] taken through gst_vaapi_object_ref
    and not given up through gst_vaapi_object_unref along a trace. *)
Fixpoint object_refs (o : N) (t : list Event) : Z :=
  match t with
  | [] => 0
  | EvRef q :: t' => (if N.eqb q o then 1 else 0) + object_refs o t'
  | EvUnref q :: t' => (if N.eqb q o then -1 else 0) + object_refs o t'
  | _ :: t' => object_refs o t'
  end.

(** Two surface records that agree on everything but the overlay array. *)
Definition same_but_overlays (s s' : GstVaapiSurface) : Prop :=
  display s' = display s /\ object_id s' = object_id s /\
  extbuf_proxy s' = extbuf_proxy s /\ format s' = format s /\
  width s' = width s /\ height s' = height s /\
  parent_context s' = parent_context s /\ chroma_type s' = chroma_type s.

(** The state of a surface object as it comes from the allocator, before
    a creation strategy has run: no handle, no overlay array, no buffer
    proxy. *)
Definition unborn (s : GstVaapiSurface) : Prop :=
  object_id s = VA_INVALID_SURFACE /\ subpictures s = None /\
  extbuf_proxy s = None.

End Surface.

(** ** Test doubles

    Stateless environments for concrete runs: the driver answers every call
    through [reply], and the image collaborator wraps a descriptor through
    [wrap]. *)

Definition fresh_surface (d : option GstVaapiDisplay) : GstVaapiSurface :=
  {| display := d; object_id := VA_INVALID_ID; extbuf_proxy := None;
     format := 0; width := 0; height := 0; subpictures := None;
     parent_context := None; chroma_type := 0 |}.

Definition double_env (reply : VACall -> VAReply)
    (wrap : VAImage -> option GstVaapiImage) : VAEnv :=
  {| va_state := unit;
     va_call := fun st c => (st, reply c);
     vaapi_check_status := fun status => status =? 0;
     from_GstVaapiChromaType := fun c => c;
     from_GstVaapiBufferMemoryType := fun t => t;
     from_GstVaapiSubpictureFlags := fun f => f;
     to_GstVaapiSurfaceStatus := fun f => f;
     gst_vaapi_video_format_to_va_format :=
       fun f => if f <=? 1 then None else Some {| fourcc := f |};
     gst_vaapi_video_format_get_chroma_type := fun f => 1;
     GST_VAAPI_SURFACE_ALLOC_FLAG_LINEAR_STORAGE := 1;
     GST_VAAPI_SURFACE_ALLOC_FLAG_FIXED_STRIDES := 2;
     GST_VAAPI_SURFACE_ALLOC_FLAG_FIXED_OFFSETS := 4;
     subpicture_object_id := fun p => Z.of_N p;
     gst_vaapi_subpicture_get_image :=
       fun p => Some {| image_addr := (p + 1000)%N; image_object_id := Z.of_N p;
                        image_width := 16; image_height := 16; image_format := 2 |};
     gst_vaapi_subpicture_get_flags := fun _ => 0;
     gst_vaapi_subpicture_new_from_overlay_rectangle :=
       fun st _ rect => (st, Some (overlay_addr rect));
     GST_VAAPI_BUFFER_PROXY_HANDLE := fun p => Z.of_N p;
     GST_VAAPI_BUFFER_PROXY_SIZE := fun _ => 4096;
     GST_VAAPI_BUFFER_PROXY_TYPE := fun _ => 1;
     gst_vaapi_image_new_with_image := fun st _ img => (st, wrap img);
     gst_vaapi_context_apply_composition := fun st _ _ => (st, true);
     gst_vaapi_object_new := fun st d => (st, Some (fresh_surface d));
     VA_CHECK_VERSION := fun _ _ _ => true;
     uninitialized_extbuf :=
       {| pixel_format := 0; eb_width := 0; eb_height := 0; data_size := 0;
          num_planes := 0%nat; pitches := [0; 0; 0; 0]; offsets := [0; 0; 0; 0];
          buffers := []; num_buffers := 0; eb_flags := 0; private_data := 0 |};
     uninitialized_va_image := {| image_id := 0; buf := 0; va_image_rest := 0 |} |}.

(** A reply with the given status, surface id, descriptor write-back and
    image descriptor. *)
Definition reply_of (status : VAStatus) (id : VASurfaceID)
    (written : option VASurfaceAttribExternalBuffers) (img : VAImage) : VAReply :=
  {| reply_status := status; reply_surface := id; reply_extbuf := written;
     reply_image := img; reply_surface_status := 4 |}.

Definition good_image : VAImage := {| image_id := 5; buf := 6; va_image_rest := 0 |}.

(** Every call succeeds; surfaces get the id 7. *)
Definition ok_env : VAEnv :=
  double_env (fun _ => reply_of 0 7 None good_image)
    (fun img => Some {| image_addr := 900; image_object_id := image_id img;
                        image_width := 64; image_height := 64; image_format := 2 |}).

(** Every call fails with status 1. *)
Definition failing_env : VAEnv :=
  double_env (fun _ => reply_of 1 7 None good_image) (fun _ => None).

Definition world_at (E : VAEnv) (st : @va_state E) (t : list Event)
    : @World E :=
  {| va := st; trace := t |}.

Definition world0 (E : VAEnv) (st : @va_state E) : @World E :=
  world_at E st [].

(** A live 64x64 surface on display 1 with the given overlay array. *)
Definition surface64 (a : option (list GstVaapiSubpicture)) : GstVaapiSurface :=
  {| display := Some 1%N; object_id := 7; extbuf_proxy := None;
     format := 2; width := 64; height := 64; subpictures := a;
     parent_context := None; chroma_type := 1 |}.

(** A 64x64 two-plane video description in format 2. *)
Definition video64 (f : GstVideoFormat) : GstVideoInfo :=
  {| vi_format := f; vi_width := 64; vi_height := 64; vi_n_planes := 2%nat;
     vi_stride := fun _ => 64; vi_offset := fun i => Z.of_nat i * 4096 |}.

(** The first external-buffer descriptor an attribute list points to. *)
Fixpoint find_descriptor (attribs : list VASurfaceAttrib)
    : option VASurfaceAttribExternalBuffers :=
  match attribs with
  | [] => None
  | a :: rest =>
      match attrib_value a with
      | VAGenericValueTypePointer e => Some e
      | VAGenericValueTypeInteger _ => find_descriptor rest
      end
  end.

(** A driver that grants surfaces of at most 32x32 and records what it
    granted in the descriptor it is handed. *)
Definition grant32 (e : VASurfaceAttribExternalBuffers)
    : VASurfaceAttribExternalBuffers :=
  {| pixel_format := pixel_format e;
     eb_width := Z.min (eb_width e) 32;
     eb_height := Z.min (eb_height e) 32;
     data_size := data_size e; num_planes := num_planes e;
     pitches := pitches e; offsets := offsets e; buffers := buffers e;
     num_buffers := num_buffers e; eb_flags := eb_flags e;
     private_data := private_data e |}.

Definition granting_reply (c : VACall) : VAReply :=
  match c with
  | VaCreateSurfaces _ _ _ attribs =>
      reply_of 0 7 (option_map grant32 (find_descriptor attribs)) good_image
  | _ => reply_of 0 7 None good_image
  end.

Definition granting_env : VAEnv :=
  double_env granting_reply (fun _ => None).

(** A driver whose derived image lacks the buffer id. *)
Definition bufferless_env : VAEnv :=
  double_env
    (fun _ => reply_of 0 7 None
                {| image_id := 5; buf := VA_INVALID_ID; va_image_rest := 0 |})
    (fun _ => None).

(** A driver that succeeds next to an image collaborator that cannot wrap. *)
Definition unwrapped_env : VAEnv :=
  double_env (fun _ => reply_of 0 7 None good_image) (fun _ => None).

(** * Properties *)

Section Properties.

Context {E : VAEnv}.

Ltac run :=
  unfold with_display, gst_vaapi_object_ref, gst_vaapi_object_unref,
    GST_VAAPI_DISPLAY_LOCK, GST_VAAPI_DISPLAY_UNLOCK;
  unfold bind, ret, emit, collaborate, va_invoke; simpl.

Ltac fields :=
  unfold commit, set_object_id, set_extbuf_proxy, set_format, set_chroma_type,
    set_width, set_height, set_subpictures, set_parent_context; simpl.

(** C5. gst_vaapi_surface_set_parent_context stores NULL in the
    parent-context field whatever context it is given, so
    gst_vaapi_surface_get_parent_context returns NULL after any call of the
    setter. *)
Theorem set_parent_context_stores_null
    (s : GstVaapiSurface) (context : option GstVaapiContext) :
  parent_context (gst_vaapi_surface_set_parent_context s context) = None /\
  gst_vaapi_surface_get_parent_context
    (gst_vaapi_surface_set_parent_context s context) = None.
Proof. split; reflexivity. Qed.

(** *** The pointer array *)

Lemma remove_fast_absent (a : list N) (p : N) :
  ~ In p a -> g_ptr_array_remove_fast a p = None.
Proof.
  induction a as [|q t IH]; simpl; intros Hn; [reflexivity|].
  destruct (N.eqb_spec q p) as [->|Hqp].
  - exfalso. apply Hn. now left.
  - rewrite IH; [reflexivity|]. intros Hin. apply Hn. now right.
Qed.

Lemma remove_fast_present (a : list N) (p : N) :
  In p a -> exists a', g_ptr_array_remove_fast a p = Some a'.
Proof.
  induction a as [|q t IH]; simpl; intros Hin; [contradiction|].
  destruct (N.eqb_spec q p) as [->|Hqp]; [eauto|].
  destruct Hin as [Heq|Hin]; [congruence|].
  destruct (IH Hin) as [a' ->]. eauto.
Qed.

Lemma last_removelast_perm (t : list N) (q : N) :
  t <> [] -> Permutation (last t q :: removelast t) t.
Proof.
  intros Hne.
  destruct (exists_last Hne) as [l [z ->]].
  rewrite last_last, removelast_last.
  apply Permutation_cons_append.
Qed.

(** Removal takes out exactly one occurrence of the pointer. *)
Lemma remove_fast_perm (a a' : list N) (p : N) :
  g_ptr_array_remove_fast a p = Some a' -> Permutation a (p :: a').
Proof.
  revert a'. induction a as [|q t IH]; simpl; intros a' H; [discriminate|].
  destruct (N.eqb_spec q p) as [->|Hqp].
  - injection H as <-. constructor.
    destruct t as [|z t']; [constructor|].
    symmetry. apply last_removelast_perm. discriminate.
  - destruct (g_ptr_array_remove_fast t p) as [t'|] eqn:Ht; [|discriminate].
    injection H as <-.
    rewrite (IH t' eq_refl). apply perm_swap.
Qed.

Lemma remove_fast_length (a a' : list N) (p : N) :
  g_ptr_array_remove_fast a p = Some a' -> length a = S (length a').
Proof.
  intros H. apply remove_fast_perm in H.
  apply Permutation_length in H. exact H.
Qed.

Lemma remove_fast_nodup (a a' : list N) (p : N) :
  NoDup a -> g_ptr_array_remove_fast a p = Some a' -> NoDup a' /\ ~ In p a'.
Proof.
  intros Hnd H. apply remove_fast_perm in H.
  assert (Hnd' : NoDup (p :: a')) by (eapply Permutation_NoDup; eassumption).
  inversion Hnd'; subst. split; assumption.
Qed.

Lemma nodup_add (a : list N) (p : N) :
  NoDup a -> ~ In p a -> NoDup (g_ptr_array_add a p).
Proof.
  intros Hnd Hn. unfold g_ptr_array_add.
  apply (Permutation_NoDup (l := p :: a)).
  - apply Permutation_cons_append.
  - constructor; assumption.
Qed.

(** *** Overlay manager *)

(** C6. Deassociating a subpicture when the surface has no overlay set, or
    when the subpicture is not a member of it, succeeds without a driver
    call and leaves the surface, hence the size of the overlay set,
    unchanged; doing it again gives the same result. *)
Theorem deassociate_absent_is_noop
    (s : GstVaapiSurface) (sp : GstVaapiSubpicture) (w : World) :
  subpictures s = None \/ ~ In sp (overlays s) ->
  gst_vaapi_surface_deassociate_subpicture s sp w = Some ((true, s), w) /\
  (forall r s' w',
      gst_vaapi_surface_deassociate_subpicture s sp w = Some ((r, s'), w') ->
      r = true /\ trace w' = trace w /\ va w' = va w /\
      length (overlays s') = length (overlays s) /\
      gst_vaapi_surface_deassociate_subpicture s' sp w' = Some ((true, s'), w')).
Proof.
  intros H.
  assert (Hrun : gst_vaapi_surface_deassociate_subpicture s sp w
                 = Some ((true, s), w)).
  { unfold gst_vaapi_surface_deassociate_subpicture, overlays in *.
    destruct (subpictures s) as [a|]; [|reflexivity].
    destruct H as [H|H]; [discriminate|].
    rewrite (remove_fast_absent _ _ H). reflexivity. }
  split; [exact Hrun|].
  intros r s' w' Hr. rewrite Hrun in Hr.
  injection Hr as <- <- <-. repeat split; try reflexivity. exact Hrun.
Qed.

(** *** Running the monad *)

Lemma bind_some {A B} (m : M A) (k : A -> M B) (w w' : World) (a : A) :
  m w = Some (a, w') -> bind m k w = k a w'.
Proof. intros H. unfold bind. rewrite H. reflexivity. Qed.

(** *** Creation *)

Ltac returned H :=
  unfold ret in H; injection H as <- <- <-.

Lemma create_outcome (s s' : GstVaapiSurface) (chroma w_ h_ : Z)
    (W W' : World) (r : bool) :
  gst_vaapi_surface_create s chroma w_ h_ W = Some ((r, s'), W') ->
  (r = false -> s' = s) /\
  (r = true ->
   format s' = GST_VIDEO_FORMAT_UNKNOWN /\ chroma_type s' = chroma /\
   width s' = w_ /\ height s' = h_).
Proof.
  unfold gst_vaapi_surface_create. intros H.
  destruct (from_GstVaapiChromaType chroma =? 0).
  - returned H. split; [reflexivity|discriminate].
  - destruct (display s) as [d|]; [|discriminate]. revert H. run.
    destruct (va_call (va W) _) as [st rp]; simpl.
    destruct (vaapi_check_status (reply_status rp)); simpl; intros H;
      injection H as <- <- <-.
    + split; [discriminate|]. intros _. repeat split.
    + split; [reflexivity|discriminate].
Qed.

Lemma create_full_outcome (s s' : GstVaapiSurface) (vip : GstVideoInfo)
    (flags : Z) (W W' : World) (r : bool) :
  gst_vaapi_surface_create_full s vip flags W = Some ((r, s'), W') ->
  (r = false -> s' = s) /\
  (r = true ->
   format s' = vi_format vip /\
   chroma_type s' = gst_vaapi_video_format_get_chroma_type (vi_format vip) /\
   exists attribs,
     let rp :=
       snd (va_call (va W)
              (VaCreateSurfaces
                 (from_GstVaapiChromaType
                    (gst_vaapi_video_format_get_chroma_type (vi_format vip)))
                 (as_guint32 (vi_width vip)) (as_guint32 (vi_height vip))
                 attribs)) in
     match find_descriptor attribs, reply_extbuf rp with
     | Some _, Some e => width s' = eb_width e /\ height s' = eb_height e
     | _, _ => width s' = as_guint32 (vi_width vip) /\
               height s' = as_guint32 (vi_height vip)
     end).
Proof.
  unfold gst_vaapi_surface_create_full. intros H.
  destruct (VA_CHECK_VERSION 0 34 0);
    [|returned H; split; [reflexivity|discriminate]].
  destruct (gst_vaapi_video_format_to_va_format (vi_format vip)) as [vf|];
    [|returned H; split; [reflexivity|discriminate]].
  destruct (gst_vaapi_video_format_get_chroma_type (vi_format vip) =? 0);
    [returned H; split; [reflexivity|discriminate]|].
  destruct (from_GstVaapiChromaType _ =? 0);
    [returned H; split; [reflexivity|discriminate]|].
  destruct (display s) as [d|]; [|discriminate]. revert H. run.
  match goal with
  | |- context [va_call (va W) (VaCreateSurfaces ?f ?a ?b ?l)] =>
      set (attribs := l)
  end.
  destruct (va_call (va W) _) as [st rp] eqn:Hcall; simpl.
  destruct (vaapi_check_status (reply_status rp)); simpl; intros H;
    injection H as <- <- <-;
    [|split; [reflexivity|discriminate]].
  split; [discriminate|]. intros _. split; [reflexivity|].
  split; [reflexivity|]. exists attribs. rewrite Hcall. subst attribs.
  fields. unfold descriptor_after.
  destruct (_ || _); simpl; [|split; reflexivity].
  destruct (reply_extbuf rp) as [e|]; split; reflexivity.
Qed.

Lemma create_from_buffer_proxy_outcome (s s' : GstVaapiSurface)
    (proxy : GstVaapiBufferProxy) (vip : GstVideoInfo)
    (W W' : World) (r : bool) :
  gst_vaapi_surface_create_from_buffer_proxy s proxy vip W
    = Some ((r, s'), W') ->
  (r = false ->
   format s' = format s /\ chroma_type s' = chroma_type s /\
   width s' = width s /\ height s' = height s) /\
  (r = true ->
   format s' = vi_format vip /\
   chroma_type s' = gst_vaapi_video_format_get_chroma_type (vi_format vip) /\
   width s' = as_guint32 (vi_width vip) /\
   height s' = as_guint32 (vi_height vip)).
Proof.
  unfold gst_vaapi_surface_create_from_buffer_proxy. intros H.
  destruct (VA_CHECK_VERSION 0 36 0);
    [|returned H; split; [repeat split|discriminate]].
  assert (Hrep : exists p W1,
             gst_vaapi_buffer_proxy_replace (extbuf_proxy s) (Some proxy) W
             = Some (p, W1)).
  { unfold gst_vaapi_buffer_proxy_replace.
    destruct (extbuf_proxy s) as [o|]; [destruct (N.eqb o proxy)|]; run;
      do 2 eexists; reflexivity. }
  destruct Hrep as (p & W1 & Hrep).
  rewrite (bind_some _ _ _ _ _ Hrep) in H.
  destruct (gst_vaapi_video_format_to_va_format (vi_format vip)) as [vf|];
    [|returned H; split; [repeat split|discriminate]].
  destruct (gst_vaapi_video_format_get_chroma_type (vi_format vip) =? 0);
    [returned H; split; [repeat split|discriminate]|].
  destruct (from_GstVaapiChromaType _ =? 0);
    [returned H; split; [repeat split|discriminate]|].
  revert H. fields.
  destruct (display s) as [d|]; [|discriminate]. run.
  destruct (va_call (va W1) _) as [st rp]; simpl.
  destruct (vaapi_check_status (reply_status rp)); simpl; intros H;
    injection H as <- <- <-.
  - split; [discriminate|]. intros _. repeat split.
  - split; [repeat split|discriminate].
Qed.

(** The replacement of the proxy slot always returns; it leaves the state
    behind the display alone. *)
Lemma proxy_replace_runs (old new : option GstVaapiBufferProxy) (W : World) :
  exists p evs,
    gst_vaapi_buffer_proxy_replace old new W
      = Some (p, {| va := va W; trace := trace W ++ evs |}) /\
    (forall n, new = Some n -> p = Some n) /\
    (new = None -> p = None) /\
    Forall (fun e => is_call e = false) evs.
Proof.
  unfold gst_vaapi_buffer_proxy_replace.
  destruct old as [o|], new as [n|]; simpl.
  - destruct (N.eqb_spec o n) as [->|Hne]; run.
    + exists (Some n), []. rewrite app_nil_r. destruct W.
      repeat split; auto; intros; congruence.
    + exists (Some n), [EvProxyRef n; EvProxyUnref o].
      rewrite <- app_assoc.
      repeat split; auto; intros; congruence.
  - run. exists None, [EvProxyUnref o].
    repeat split; auto; intros; congruence.
  - run. exists (Some n), [EvProxyRef n].
    repeat split; auto; intros; congruence.
  - run. exists None, []. rewrite app_nil_r. destruct W.
    repeat split; auto; intros; congruence.
Qed.

(** C1, as the source has it.  In each of the three creation strategies,
    once the format negotiation has passed, the driver's allocation call is
    made under the display lock and its status decides: on failure format,
    chroma type, width and height stay as they were, on success all four
    are committed.  The committed width and height are the requested ones
    in the implicit-format and in the external-buffer strategy, whatever
    the driver wrote to the descriptor.  The explicit-format strategy reads
    them from its local descriptor after the call: the attribute list
    points to that descriptor exactly when an allocation flag is set, the
    descriptor then holds the requested size, and the committed size is
    what the driver wrote to it, or the requested size when the driver
    left it alone or was not handed it. *)
Theorem creation_commits_on_success_only :
  (forall (s : GstVaapiSurface) (d : GstVaapiDisplay) (chroma w_ h_ : Z)
          (W : World),
      display s = Some d ->
      from_GstVaapiChromaType chroma <> 0 ->
      let c := VaCreateSurfaces (from_GstVaapiChromaType chroma) w_ h_ [] in
      let ok := vaapi_check_status (reply_status (snd (va_call (va W) c))) in
      exists s' W',
        gst_vaapi_surface_create s chroma w_ h_ W = Some ((ok, s'), W') /\
        trace W' = trace W ++ [EvLock d; EvCall c; EvUnlock d] /\
        (ok = false -> s' = s) /\
        (ok = true ->
         format s' = GST_VIDEO_FORMAT_UNKNOWN /\ chroma_type s' = chroma /\
         width s' = w_ /\ height s' = h_)) /\
  (forall (s : GstVaapiSurface) (d : GstVaapiDisplay) (vip : GstVideoInfo)
          (flags : Z) (vf : VAImageFormat) (W : World),
      display s = Some d ->
      VA_CHECK_VERSION 0 34 0 = true ->
      gst_vaapi_video_format_to_va_format (vi_format vip) = Some vf ->
      let chroma := gst_vaapi_video_format_get_chroma_type (vi_format vip) in
      chroma <> 0 ->
      from_GstVaapiChromaType chroma <> 0 ->
      let requested_width := as_guint32 (vi_width vip) in
      let requested_height := as_guint32 (vi_height vip) in
      let needed :=
        flag_set flags GST_VAAPI_SURFACE_ALLOC_FLAG_LINEAR_STORAGE
        || flag_set flags GST_VAAPI_SURFACE_ALLOC_FLAG_FIXED_STRIDES
        || flag_set flags GST_VAAPI_SURFACE_ALLOC_FLAG_FIXED_OFFSETS in
      exists attribs,
        let c := VaCreateSurfaces (from_GstVaapiChromaType chroma)
                   requested_width requested_height attribs in
        let rp := snd (va_call (va W) c) in
        let ok := vaapi_check_status (reply_status rp) in
        (needed = false -> find_descriptor attribs = None) /\
        (needed = true ->
         exists e0, find_descriptor attribs = Some e0 /\
                    eb_width e0 = requested_width /\
                    eb_height e0 = requested_height) /\
        exists s' W',
          gst_vaapi_surface_create_full s vip flags W = Some ((ok, s'), W') /\
          trace W' = trace W ++ [EvLock d; EvCall c; EvUnlock d] /\
          (ok = false -> s' = s) /\
          (ok = true ->
           format s' = vi_format vip /\ chroma_type s' = chroma /\
           (needed = false ->
            width s' = requested_width /\ height s' = requested_height) /\
           (needed = true -> reply_extbuf rp = None ->
            width s' = requested_width /\ height s' = requested_height) /\
           (forall e, needed = true -> reply_extbuf rp = Some e ->
            width s' = eb_width e /\ height s' = eb_height e))) /\
  (forall (s : GstVaapiSurface) (d : GstVaapiDisplay)
          (proxy : GstVaapiBufferProxy) (vip : GstVideoInfo)
          (vf : VAImageFormat) (W : World),
      display s = Some d ->
      VA_CHECK_VERSION 0 36 0 = true ->
      gst_vaapi_video_format_to_va_format (vi_format vip) = Some vf ->
      let chroma := gst_vaapi_video_format_get_chroma_type (vi_format vip) in
      chroma <> 0 ->
      from_GstVaapiChromaType chroma <> 0 ->
      let requested_width := as_guint32 (vi_width vip) in
      let requested_height := as_guint32 (vi_height vip) in
      exists attribs evs,
        let c := VaCreateSurfaces (from_GstVaapiChromaType chroma)
                   requested_width requested_height attribs in
        let ok := vaapi_check_status (reply_status (snd (va_call (va W) c))) in
        (exists e0, find_descriptor attribs = Some e0 /\
                    eb_width e0 = requested_width /\
                    eb_height e0 = requested_height) /\
        exists s' W',
          gst_vaapi_surface_create_from_buffer_proxy s proxy vip W
            = Some ((ok, s'), W') /\
          trace W' = trace W ++ evs ++ [EvLock d; EvCall c; EvUnlock d] /\
          Forall (fun e => is_call e = false) evs /\
          (ok = false ->
           format s' = format s /\ chroma_type s' = chroma_type s /\
           width s' = width s /\ height s' = height s) /\
          (ok = true ->
           format s' = vi_format vip /\ chroma_type s' = chroma /\
           width s' = requested_width /\ height s' = requested_height)).
Proof.
  split; [|split].
  - intros s d chroma w_ h_ W Hd Hc c ok. subst c ok.
    unfold gst_vaapi_surface_create.
    destruct (Z.eqb_spec (from_GstVaapiChromaType chroma) 0); [contradiction|].
    rewrite Hd. run.
    destruct (va_call (va W) _) as [st rp]; simpl.
    rewrite <- !app_assoc; simpl.
    destruct (vaapi_check_status (reply_status rp)); simpl;
      do 2 eexists; (split; [reflexivity|]); (split; [reflexivity|]);
      split; try discriminate; intros _; repeat split.
  - intros s d vip flags vf W Hd Hv Hvf chroma Hc Hfc. subst chroma.
    cbv zeta.
    unfold gst_vaapi_surface_create_full. rewrite Hv, Hvf.
    destruct (Z.eqb_spec
                (gst_vaapi_video_format_get_chroma_type (vi_format vip)) 0);
      [contradiction|].
    destruct (Z.eqb_spec
                (from_GstVaapiChromaType
                   (gst_vaapi_video_format_get_chroma_type (vi_format vip))) 0);
      [contradiction|].
    rewrite Hd. run.
    remember (flag_set flags GST_VAAPI_SURFACE_ALLOC_FLAG_LINEAR_STORAGE) as lin.
    remember (flag_set flags GST_VAAPI_SURFACE_ALLOC_FLAG_FIXED_STRIDES) as str.
    remember (flag_set flags GST_VAAPI_SURFACE_ALLOC_FLAG_FIXED_OFFSETS) as off.
    clear Heqlin Heqstr Heqoff.
    match goal with
    | |- context [va_call (va W) (VaCreateSurfaces ?f ?a ?b ?l)] =>
        exists l
    end.
    split; [intros Hn; rewrite Hn; reflexivity|].
    split; [intros Hn; rewrite Hn; eexists; simpl; repeat split|].
    destruct (va_call (va W) _) as [st rp]; simpl.
    rewrite <- !app_assoc; simpl.
    unfold descriptor_after.
    destruct (vaapi_check_status (reply_status rp)); simpl;
      do 2 eexists; (split; [reflexivity|]); (split; [reflexivity|]);
      (split; [try discriminate; intros _|try discriminate; intros _]);
      try reflexivity.
    split; [reflexivity|]. split; [reflexivity|]. fields.
    split; [intros Hn; rewrite Hn; split; reflexivity|].
    split.
    + intros Hn Hr. rewrite Hn, Hr. split; reflexivity.
    + intros e Hn Hr. rewrite Hn, Hr. split; reflexivity.
  - intros s d proxy vip vf W Hd Hv Hvf chroma Hc Hfc. subst chroma.
    cbv zeta.
    unfold gst_vaapi_surface_create_from_buffer_proxy. rewrite Hv.
    destruct (proxy_replace_runs (extbuf_proxy s) (Some proxy) W)
      as (p & evs & Hrep & _ & _ & Hevs).
    rewrite (bind_some _ _ _ _ _ Hrep), Hvf.
    destruct (Z.eqb_spec
                (gst_vaapi_video_format_get_chroma_type (vi_format vip)) 0);
      [contradiction|].
    destruct (Z.eqb_spec
                (from_GstVaapiChromaType
                   (gst_vaapi_video_format_get_chroma_type (vi_format vip))) 0);
      [contradiction|].
    fields. rewrite Hd. run.
    match goal with
    | |- context [va_call (va W) (VaCreateSurfaces ?f ?a ?b ?l)] =>
        exists l, evs
    end.
    split; [eexists; simpl; repeat split|].
    destruct (va_call (va W) _) as [st rp]; simpl.
    rewrite <- !app_assoc; simpl.
    destruct (vaapi_check_status (reply_status rp)); simpl;
      do 2 eexists; (split; [reflexivity|]); (split; [reflexivity|]);
      (split; [exact Hevs|]);
      split; try discriminate; intros _; repeat split.
Qed.

(** *** Teardown *)

Lemma deassociate_live (s : GstVaapiSurface) (d : GstVaapiDisplay)
    (p : GstVaapiSubpicture) (w : World) :
  display s = Some d -> object_id s <> VA_INVALID_SURFACE ->
  let c := VaDeassociateSubpicture (subpicture_object_id p) (object_id s) in
  _gst_vaapi_surface_deassociate_subpicture s p w =
    Some (vaapi_check_status (reply_status (snd (va_call (va w) c))),
          {| va := fst (va_call (va w) c);
             trace := trace w ++ [EvLock d; EvCall c; EvUnlock d] |}).
Proof.
  intros Hd Hid c. subst c.
  unfold _gst_vaapi_surface_deassociate_subpicture. rewrite Hd.
  destruct (Z.eqb_spec (object_id s) VA_INVALID_SURFACE); [contradiction|].
  run. destruct (va_call (va w) _) as [st r]; simpl.
  rewrite <- !app_assoc; simpl.
  destruct (vaapi_check_status (reply_status r)); reflexivity.
Qed.

Lemma foreach_destroy_subpicture (s : GstVaapiSurface) (d : GstVaapiDisplay)
    (a : list GstVaapiSubpicture) :
  display s = Some d -> object_id s <> VA_INVALID_SURFACE ->
  forall w, exists st,
    g_ptr_array_foreach a (fun p => destroy_subpicture_cb p s) w =
      Some (tt, {| va := st;
                   trace := trace w ++ flat_map (member_teardown d s) a |}).
Proof.
  intros Hd Hid. induction a as [|p t IH]; intros w; simpl.
  - exists (va w). unfold ret. rewrite app_nil_r. destruct w; reflexivity.
  - unfold bind at 1. unfold destroy_subpicture_cb at 1. unfold bind at 1.
    rewrite (deassociate_live s d p w Hd Hid). run.
    match goal with
    | |- context [g_ptr_array_foreach t ?f ?w1] => destruct (IH w1) as [st ->]
    end.
    exists st. simpl. rewrite <- !app_assoc. reflexivity.
Qed.

Lemma count_member_teardown (d : GstVaapiDisplay) (s : GstVaapiSurface)
    (a : list GstVaapiSubpicture) :
  count_events is_deassociation (flat_map (member_teardown d s) a) = length a /\
  count_events is_unref (flat_map (member_teardown d s) a) = length a /\
  count_events is_destroy_surfaces (flat_map (member_teardown d s) a) = 0%nat.
Proof.
  unfold count_events.
  induction a as [|p t [IH1 [IH2 IH3]]]; simpl; [repeat split|].
  rewrite IH1, IH2, IH3. repeat split.
Qed.

(** C4. Destroying a surface that holds N overlays: N driver
    deassociations and N subpicture reference releases, member by member
    and before the driver's surface destruction; the parent context is
    cleared; a live handle is destroyed in the driver under the display
    lock and becomes the sentinel; the reference to the external buffer
    memory is released last.  No driver status changes this course. *)
Theorem destroy_order
    (s : GstVaapiSurface) (d : GstVaapiDisplay) (w : World) :
  display s = Some d ->
  (object_id s = VA_INVALID_SURFACE -> overlays s = []) ->
  (exists st,
      gst_vaapi_surface_destroy s w =
        Some ({| display := Some d; object_id := VA_INVALID_SURFACE;
                 extbuf_proxy := None; format := format s; width := width s;
                 height := height s; subpictures := None;
                 parent_context := None; chroma_type := chroma_type s |},
              {| va := st;
                 trace := trace w ++ overlay_teardown d s
                            ++ handle_teardown d s ++ proxy_teardown s |})) /\
  count_events is_deassociation (overlay_teardown d s) = length (overlays s) /\
  count_events is_unref (overlay_teardown d s) = length (overlays s) /\
  count_events is_destroy_surfaces (overlay_teardown d s) = 0%nat.
Proof.
  intros Hd Hinv. split; [|apply count_member_teardown].
  unfold gst_vaapi_surface_destroy, gst_vaapi_surface_destroy_subpictures,
    overlay_teardown, handle_teardown, proxy_teardown, overlays in *.
  unfold gst_vaapi_surface_set_parent_context, gst_vaapi_buffer_proxy_replace.
  rewrite Hd.
  destruct (Z.eqb_spec (object_id s) VA_INVALID_SURFACE) as [Hid|Hid].
  - specialize (Hinv Hid).
    exists (va w).
    destruct (subpictures s) as [a|] eqn:Hsub; [subst a|]; run;
      destruct (extbuf_proxy s); simpl; fields;
      rewrite ?Hd, ?Hid, ?Hsub, ?app_nil_r; destruct w; reflexivity.
  - destruct (subpictures s) as [a|] eqn:Hsub.
    + unfold bind at 1. unfold bind at 1.
      destruct (foreach_destroy_subpicture s d a Hd Hid w) as [st ->].
      run. destruct (va_call st _) as [st' r]; simpl.
      exists st'. destruct (extbuf_proxy s); simpl; fields;
        rewrite <- ?app_assoc, ?Hd, ?Hsub; simpl; rewrite ?app_nil_r;
        reflexivity.
    + run. destruct (va_call (va w) _) as [st' r]; simpl.
      exists st'. destruct (extbuf_proxy s); simpl; fields;
        rewrite <- ?app_assoc, ?Hd, ?Hsub; simpl; rewrite ?app_nil_r;
        reflexivity.
Qed.

(** *** The reference to the external buffer *)

Lemma proxy_refs_app (p : GstVaapiBufferProxy) (t1 t2 : list Event) :
  proxy_refs p (t1 ++ t2) = proxy_refs p t1 + proxy_refs p t2.
Proof.
  induction t1 as [|e t IH]; simpl; [reflexivity|].
  destruct e; rewrite ?IH; lia.
Qed.

Lemma proxy_refs_quiet (p : GstVaapiBufferProxy) (t : list Event) :
  Forall (fun e => is_proxy_event e = false) t -> proxy_refs p t = 0.
Proof.
  induction 1 as [|e t He _ IH]; simpl; [reflexivity|].
  destruct e; simpl in He; try discriminate; exact IH.
Qed.

Lemma deassociate_backend_quiet (s : GstVaapiSurface)
    (p : GstVaapiSubpicture) (W : World) :
  exists r st evs,
    _gst_vaapi_surface_deassociate_subpicture s p W
      = Some (r, {| va := st; trace := trace W ++ evs |}) /\
    Forall (fun e => is_proxy_event e = false) evs.
Proof.
  unfold _gst_vaapi_surface_deassociate_subpicture.
  destruct (display s) as [d|].
  - destruct (object_id s =? VA_INVALID_SURFACE).
    + exists false, (va W), []. rewrite app_nil_r. destruct W. split; auto.
    + run. destruct (va_call (va W) _) as [st r]; simpl.
      rewrite <- !app_assoc; simpl.
      destruct (vaapi_check_status (reply_status r)); simpl;
        do 3 eexists; (split; [reflexivity|]); repeat constructor.
  - exists false, (va W), []. rewrite app_nil_r. destruct W. split; auto.
Qed.

Lemma foreach_destroy_quiet (s : GstVaapiSurface)
    (a : list GstVaapiSubpicture) :
  forall W, exists st evs,
    g_ptr_array_foreach a (fun p => destroy_subpicture_cb p s) W
      = Some (tt, {| va := st; trace := trace W ++ evs |}) /\
    Forall (fun e => is_proxy_event e = false) evs.
Proof.
  induction a as [|p t IH]; intros W; simpl.
  - exists (va W), []. unfold ret. rewrite app_nil_r. destruct W. split; auto.
  - unfold bind at 1. unfold destroy_subpicture_cb at 1. unfold bind at 1.
    destruct (deassociate_backend_quiet s p W) as (r & st & evs & -> & Hq).
    run.
    match goal with
    | |- context [g_ptr_array_foreach t ?f ?w1] =>
        destruct (IH w1) as (st' & evs' & -> & Hq')
    end.
    exists st', (evs ++ [EvUnref p] ++ evs'). simpl.
    rewrite <- !app_assoc. split; [reflexivity|].
    apply Forall_app. split; [exact Hq|]. constructor; [reflexivity|exact Hq'].
Qed.

(** Teardown gives up the reference to the external buffer, as its last
    step, on any surface that has a display. *)
Lemma destroy_releases_proxy (s : GstVaapiSurface) (d : GstVaapiDisplay)
    (W : World) :
  display s = Some d ->
  exists s' W' evs,
    gst_vaapi_surface_destroy s W = Some (s', W') /\
    extbuf_proxy s' = None /\
    trace W' = trace W ++ evs ++ proxy_teardown s /\
    Forall (fun e => is_proxy_event e = false) evs.
Proof.
  intros Hd.
  unfold gst_vaapi_surface_destroy, gst_vaapi_surface_destroy_subpictures,
    gst_vaapi_surface_set_parent_context, gst_vaapi_buffer_proxy_replace,
    proxy_teardown.
  rewrite Hd.
  assert (Hsub : exists st evs,
             (match subpictures s with
              | Some a =>
                  bind (g_ptr_array_foreach a
                          (fun p => destroy_subpicture_cb p s))
                    (fun _ => ret (set_subpictures s None))
              | None => ret s
              end) W
             = Some (set_subpictures s None,
                     {| va := st; trace := trace W ++ evs |}) /\
             Forall (fun e => is_proxy_event e = false) evs).
  { destruct (subpictures s) as [a|] eqn:Hs.
    - destruct (foreach_destroy_quiet s a W) as (st & evs & Hrun & Hq).
      exists st, evs. rewrite (bind_some _ _ _ _ _ Hrun). split; auto.
    - exists (va W), []. unfold ret. rewrite app_nil_r. destruct W.
      split; auto. simpl. do 2 f_equal. destruct s; simpl in *.
      subst. reflexivity. }
  destruct Hsub as (st & evs & Hrun & Hq).
  rewrite (bind_some _ _ _ _ _ Hrun). fields.
  destruct (object_id s =? VA_INVALID_SURFACE); run.
  - destruct (extbuf_proxy s) as [o|]; simpl;
      do 2 eexists; exists evs;
      (split; [reflexivity|]); (split; [reflexivity|]);
      (split; [|exact Hq]); simpl;
      rewrite <- ?app_assoc, ?app_nil_r; reflexivity.
  - destruct (va_call st _) as [st' r]; simpl.
    destruct (extbuf_proxy s) as [o|]; simpl;
      do 2 eexists;
      exists (evs ++ [EvLock d; EvCall (VaDestroySurfaces (object_id s));
                      EvUnlock d]);
      (split; [reflexivity|]); (split; [reflexivity|]);
      (split; [|apply Forall_app; split; [exact Hq|repeat constructor]]);
      simpl; rewrite <- ?app_assoc, ?app_nil_r; reflexivity.
Qed.

Lemma proxy_replace_some (old : option GstVaapiBufferProxy)
    (n : GstVaapiBufferProxy) (W : World) :
  gst_vaapi_buffer_proxy_replace old (Some n) W
    = Some (Some n, {| va := va W; trace := trace W ++ replacement old n |}).
Proof.
  unfold gst_vaapi_buffer_proxy_replace, replacement.
  destruct old as [o|]; simpl.
  - destruct (N.eqb_spec o n) as [->|Hne]; run.
    + rewrite app_nil_r. destruct W. reflexivity.
    + rewrite <- app_assoc. reflexivity.
  - run. reflexivity.
Qed.

(** C8. External-buffer creation takes the reference to the caller's
    buffer proxy first, whatever the video format: the surface holds the
    proxy on return from every path, nothing in creation gives the
    reference up again, and after a failure the teardown of the surface
    releases it as its last step. *)
Theorem buffer_proxy_reference_taken_first
    (s : GstVaapiSurface) (d : GstVaapiDisplay) (proxy : GstVaapiBufferProxy)
    (vip : GstVideoInfo) (W : World) :
  display s = Some d ->
  VA_CHECK_VERSION 0 36 0 = true ->
  exists r s' W' rest,
    gst_vaapi_surface_create_from_buffer_proxy s proxy vip W
      = Some ((r, s'), W') /\
    extbuf_proxy s' = Some proxy /\
    trace W' = trace W ++ replacement (extbuf_proxy s) proxy ++ rest /\
    Forall (fun e => is_proxy_event e = false) rest /\
    (gst_vaapi_video_format_to_va_format (vi_format vip) = None ->
     r = false /\ rest = []) /\
    (r = false ->
     exists s'' W'' evs,
       gst_vaapi_surface_destroy s' W' = Some (s'', W'') /\
       extbuf_proxy s'' = None /\
       trace W'' = trace W' ++ evs ++ [EvProxyUnref proxy] /\
       Forall (fun e => is_proxy_event e = false) evs /\
       proxy_refs proxy (trace W'') = proxy_refs proxy (trace W') - 1).
Proof.
  intros Hd Hv.
  assert (Hdestroy : forall s' W',
             display s' = Some d -> extbuf_proxy s' = Some proxy ->
             exists s'' W'' evs,
               gst_vaapi_surface_destroy s' W' = Some (s'', W'') /\
               extbuf_proxy s'' = None /\
               trace W'' = trace W' ++ evs ++ [EvProxyUnref proxy] /\
               Forall (fun e => is_proxy_event e = false) evs /\
               proxy_refs proxy (trace W'') = proxy_refs proxy (trace W') - 1).
  { intros s' W' Hd' Hp'.
    destruct (destroy_releases_proxy s' d W' Hd')
      as (s'' & W'' & evs & Hrun & Hnone & Ht & Hq).
    unfold proxy_teardown in Ht. rewrite Hp' in Ht.
    exists s'', W'', evs. repeat (split; [assumption|]).
    rewrite Ht, !proxy_refs_app, (proxy_refs_quiet _ _ Hq). simpl.
    rewrite N.eqb_refl. lia. }
  unfold gst_vaapi_surface_create_from_buffer_proxy. rewrite Hv.
  rewrite (bind_some _ _ _ _ _ (proxy_replace_some (extbuf_proxy s) proxy W)).
  set (s1 := set_extbuf_proxy s (Some proxy)).
  set (W1 := {| va := va W;
                trace := trace W ++ replacement (extbuf_proxy s) proxy |}).
  assert (Hfail : exists r s' W' rest,
             ret (false, s1) W1 = Some ((r, s'), W') /\
             extbuf_proxy s' = Some proxy /\
             trace W' = trace W ++ replacement (extbuf_proxy s) proxy ++ rest /\
             Forall (fun e => is_proxy_event e = false) rest /\
             (r = false /\ rest = []) /\
             (r = false ->
              exists s'' W'' evs,
                gst_vaapi_surface_destroy s' W' = Some (s'', W'') /\
                extbuf_proxy s'' = None /\
                trace W'' = trace W' ++ evs ++ [EvProxyUnref proxy] /\
                Forall (fun e => is_proxy_event e = false) evs /\
                proxy_refs proxy (trace W'')
                  = proxy_refs proxy (trace W') - 1)).
  { exists false, s1, W1, []. split; [reflexivity|]. split; [reflexivity|].
    split; [simpl; now rewrite app_nil_r|]. split; [constructor|].
    split; [split; reflexivity|]. intros _. apply Hdestroy; [exact Hd|reflexivity]. }
  destruct (gst_vaapi_video_format_to_va_format (vi_format vip)) as [vf|].
  2:{ destruct Hfail as (r & s' & W' & rest & H1 & H2 & H3 & H4 & H5 & H6).
      exists r, s', W', rest. repeat (split; [assumption|]).
      split; [intros _; exact H5|exact H6]. }
  destruct (gst_vaapi_video_format_get_chroma_type (vi_format vip) =? 0).
  1:{ destruct Hfail as (r & s' & W' & rest & H1 & H2 & H3 & H4 & H5 & H6).
      exists r, s', W', rest. repeat (split; [assumption|]).
      split; [discriminate|exact H6]. }
  destruct (from_GstVaapiChromaType _ =? 0).
  1:{ destruct Hfail as (r & s' & W' & rest & H1 & H2 & H3 & H4 & H5 & H6).
      exists r, s', W', rest. repeat (split; [assumption|]).
      split; [discriminate|exact H6]. }
  clear Hfail. subst s1 W1. fields. rewrite Hd. run.
  match goal with
  | |- context [va_call (va W) ?c0] => set (c := c0)
  end.
  destruct (va_call (va W) c) as [st rp]; simpl.
  destruct (vaapi_check_status (reply_status rp)); simpl;
    do 3 eexists; exists [EvLock d; EvCall c; EvUnlock d];
    (split; [reflexivity|]); (split; [reflexivity|]);
    (split; [simpl; rewrite <- !app_assoc; reflexivity|]);
    (split; [repeat constructor|]);
    (split; [discriminate|]).
  - discriminate.
  - intros _. apply Hdestroy; reflexivity.
Qed.

(** *** Association *)

Lemma remove_fast_none (a : list N) (p : N) :
  g_ptr_array_remove_fast a p = None -> ~ In p a.
Proof.
  intros H Hin. destruct (remove_fast_present a p Hin) as [a' Ha'].
  congruence.
Qed.

(** The driver-facing half of deassociation always returns; when it
    returns TRUE the surface is live and the call was made under the lock. *)
Lemma deassociate_backend (s : GstVaapiSurface) (p : GstVaapiSubpicture)
    (w : World) :
  exists r w',
    _gst_vaapi_surface_deassociate_subpicture s p w = Some (r, w') /\
    (r = true ->
     exists d, display s = Some d /\ object_id s <> VA_INVALID_SURFACE /\
       trace w' = trace w ++
         [EvLock d;
          EvCall (VaDeassociateSubpicture (subpicture_object_id p) (object_id s));
          EvUnlock d]).
Proof.
  destruct (display s) as [d|] eqn:Hd.
  - destruct (Z.eq_dec (object_id s) VA_INVALID_SURFACE) as [Hid|Hid].
    + exists false, w. split; [|discriminate].
      unfold _gst_vaapi_surface_deassociate_subpicture.
      rewrite Hd, Hid, Z.eqb_refl. reflexivity.
    + do 2 eexists. split; [apply (deassociate_live s d p w Hd Hid)|].
      intros _. exists d. simpl. auto.
  - exists false, w. split; [|discriminate].
    unfold _gst_vaapi_surface_deassociate_subpicture. rewrite Hd. reflexivity.
Qed.

(** The driver-facing half of association always returns; when it returns
    TRUE the surface is live, the source rectangle could be resolved and
    the call was made under the lock with the resolved rectangles. *)
Lemma associate_backend (s : GstVaapiSurface) (p : GstVaapiSubpicture)
    (src dst : option GstVaapiRectangle) (w : World) :
  exists r w',
    _gst_vaapi_surface_associate_subpicture s p src dst w = Some (r, w') /\
    (r = true ->
     exists d src',
       display s = Some d /\ object_id s <> VA_INVALID_SURFACE /\
       source_rectangle p src = Some src' /\
       trace w' = trace w ++
         [EvLock d;
          EvCall (association_call s p src' (destination_rectangle s dst));
          EvUnlock d]).
Proof.
  unfold _gst_vaapi_surface_associate_subpicture.
  destruct (display s) as [d|] eqn:Hd;
    [|exists false, w; split; [reflexivity|discriminate]].
  destruct (Z.eqb_spec (object_id s) VA_INVALID_SURFACE) as [Hid|Hid];
    [exists false, w; split; [reflexivity|discriminate]|].
  fold (source_rectangle p src). fold (destination_rectangle s dst).
  destruct (source_rectangle p src) as [src'|] eqn:Hsrc;
    [|exists false, w; split; [reflexivity|discriminate]].
  run. fold (association_call s p src' (destination_rectangle s dst)).
  destruct (va_call (va w) _) as [st r]; simpl.
  rewrite <- !app_assoc; simpl.
  destruct (vaapi_check_status (reply_status r)); simpl;
    do 2 eexists; (split; [reflexivity|]); [|discriminate].
  intros _. exists d, src'. auto.
Qed.

(** The tail of the association: the overlay set grows by the subpicture
    exactly when the driver accepted the association. *)
Lemma associate_new_outcome (s : GstVaapiSurface) (p : GstVaapiSubpicture)
    (src dst : option GstVaapiRectangle) (w : World) :
  exists (r : bool) w',
    associate_new s p src dst w =
      Some ((r, if r then set_subpictures s (Some (overlays s ++ [p])) else s),
            w') /\
    (r = true ->
     exists d src',
       display s = Some d /\ object_id s <> VA_INVALID_SURFACE /\
       source_rectangle p src = Some src' /\
       trace w' = trace w ++
         member_association d s p src' (destination_rectangle s dst)).
Proof.
  destruct (associate_backend s p src dst w) as (r & w1 & Hrun & Hr).
  unfold associate_new. rewrite (bind_some _ _ _ _ _ Hrun).
  destruct r; simpl.
  - run. exists true; eexists. split; [reflexivity|]. intros _.
    destruct (Hr eq_refl) as (d & src' & Hd & Hid & Hsrc & Ht).
    exists d, src'. simpl. rewrite Ht, <- app_assoc. auto.
  - exists false, w1. split; [reflexivity|discriminate].
Qed.

(** The overlay set stays duplicate-free through an association, whatever
    its outcome, and the association always returns. *)
Lemma associate_nodup (s : GstVaapiSurface) (sp : option GstVaapiSubpicture)
    (src dst : option GstVaapiRectangle) (w : World) :
  NoDup (overlays s) ->
  exists r s' w',
    gst_vaapi_surface_associate_subpicture s sp src dst w = Some ((r, s'), w') /\
    NoDup (overlays s').
Proof.
  intros Hnd. unfold gst_vaapi_surface_associate_subpicture.
  destruct sp as [p|]; [|exists false, s, w; split; [reflexivity|assumption]].
  set (s0 := match subpictures s with
             | Some _ => s
             | None => set_subpictures s (Some [])
             end).
  assert (Hov : overlays s0 = overlays s).
  { unfold s0, overlays. destruct (subpictures s) eqn:Hs; [now rewrite Hs|].
    reflexivity. }
  rewrite Hov.
  destruct (g_ptr_array_remove_fast (overlays s) p) as [a|] eqn:Hrm.
  - destruct (remove_fast_nodup _ _ _ Hnd Hrm) as [Hnda Hnin].
    destruct (deassociate_backend (set_subpictures s0 (Some a)) p w)
      as (r & w1 & Hrun & _).
    rewrite (bind_some _ _ _ _ _ Hrun). run.
    destruct r; simpl.
    + match goal with
      | |- context [associate_new ?s1 p src dst ?w2] =>
          destruct (associate_new_outcome s1 p src dst w2) as (r & w3 & -> & _)
      end.
      do 3 eexists. split; [reflexivity|].
      destruct r; simpl; [apply nodup_add|]; assumption.
    + do 3 eexists. split; [reflexivity|]. exact Hnda.
  - destruct (associate_new_outcome s0 p src dst w) as (r & w3 & -> & _).
    do 3 eexists. split; [reflexivity|].
    destruct r; simpl; rewrite ?Hov; [apply nodup_add|]; try assumption.
    now apply remove_fast_none.
Qed.

Lemma same_handle_array (s : GstVaapiSurface)
    (a : option (list GstVaapiSubpicture)) :
  same_handle s (set_subpictures s a).
Proof. repeat split. Qed.

Lemma same_handle_made (s : GstVaapiSurface) :
  same_handle s (match subpictures s with
                 | Some _ => s
                 | None => set_subpictures s (Some [])
                 end).
Proof. destruct (subpictures s); repeat split. Qed.

Lemma same_handle_trans (s s' s'' : GstVaapiSurface) :
  same_handle s s' -> same_handle s' s'' -> same_handle s s''.
Proof.
  unfold same_handle. intros (H1 & H2 & H3 & H4) (K1 & K2 & K3 & K4).
  repeat split; congruence.
Qed.

Lemma same_handle_events (s s' : GstVaapiSurface) (d : GstVaapiDisplay)
    (p : GstVaapiSubpicture) (src : GstVaapiRectangle)
    (dst : option GstVaapiRectangle) :
  same_handle s s' ->
  member_teardown d s' p = member_teardown d s p /\
  member_association d s' p src (destination_rectangle s' dst)
    = member_association d s p src (destination_rectangle s dst).
Proof.
  intros (H1 & H2 & H3 & H4).
  unfold member_teardown, member_association, association_call,
    destination_rectangle.
  rewrite H2, H3, H4. split; reflexivity.
Qed.

(** A successful association, read off its result. *)
Lemma associate_success (s s' : GstVaapiSurface) (p : GstVaapiSubpicture)
    (src dst : option GstVaapiRectangle) (w w' : World) :
  gst_vaapi_surface_associate_subpicture s (Some p) src dst w
    = Some ((true, s'), w') ->
  exists d src',
    display s = Some d /\ source_rectangle p src = Some src' /\
    same_handle s s' /\
    match g_ptr_array_remove_fast (overlays s) p with
    | Some a =>
        overlays s' = a ++ [p] /\
        trace w' = trace w ++ member_teardown d s p
                     ++ member_association d s p src'
                          (destination_rectangle s dst)
    | None =>
        overlays s' = overlays s ++ [p] /\
        trace w' = trace w
                     ++ member_association d s p src'
                          (destination_rectangle s dst)
    end.
Proof.
  unfold gst_vaapi_surface_associate_subpicture.
  pose proof (same_handle_made s) as Hsame.
  set (s0 := match subpictures s with
             | Some _ => s
             | None => set_subpictures s (Some [])
             end) in *.
  assert (Hov : overlays s0 = overlays s).
  { unfold s0, overlays. destruct (subpictures s) eqn:Hs; [now rewrite Hs|].
    reflexivity. }
  rewrite Hov.
  destruct (g_ptr_array_remove_fast (overlays s) p) as [a|] eqn:Hrm.
  - set (s1 := set_subpictures s0 (Some a)).
    assert (Hs1 : same_handle s s1).
    { eapply same_handle_trans; [exact Hsame|apply same_handle_array]. }
    destruct (deassociate_backend s1 p w) as (r & w1 & Hrun & Hr).
    rewrite (bind_some _ _ _ _ _ Hrun). run.
    destruct r; simpl; [|discriminate].
    destruct (Hr eq_refl) as (d & Hd & _ & Ht1).
    match goal with
    | |- context [associate_new s1 p src dst ?w2] =>
        destruct (associate_new_outcome s1 p src dst w2)
          as (r & w3 & -> & Hr3)
    end.
    intros Heq. destruct r; [|discriminate].
    injection Heq as <- <-.
    destruct (Hr3 eq_refl) as (d' & src' & Hd' & _ & Hsrc & Ht3).
    assert (d' = d) by congruence. subst d'.
    destruct (same_handle_events s s1 d p src' dst Hs1) as [Hm1 Hm2].
    destruct Hs1 as (Hsd & Hsi & Hsw & Hsh).
    exists d, src'. split; [congruence|]. split; [exact Hsrc|].
    split; [repeat split; simpl; assumption|].
    split; [reflexivity|].
    rewrite Ht3, Hm2. simpl trace. rewrite Ht1.
    unfold member_teardown. rewrite Hsi, <- !app_assoc. reflexivity.
  - destruct (associate_new_outcome s0 p src dst w) as (r & w3 & -> & Hr3).
    intros Heq. destruct r; [|discriminate].
    injection Heq as <- <-.
    destruct (Hr3 eq_refl) as (d & src' & Hd & _ & Hsrc & Ht3).
    destruct (same_handle_events s s0 d p src' dst Hsame) as [_ Hm2].
    destruct Hsame as (Hsd & Hsi & Hsw & Hsh).
    exists d, src'. split; [congruence|]. split; [exact Hsrc|].
    split; [repeat split; simpl; assumption|].
    split; [simpl; now rewrite Hov|].
    rewrite Ht3, Hm2. reflexivity.
Qed.

(** The overlay set of a surface without a live handle is empty, and an
    association keeps it so: the driver-facing half refuses a surface whose
    handle is the sentinel. *)
Lemma associate_keeps_dead_surface_empty
    (s s' : GstVaapiSurface) (sp : option GstVaapiSubpicture)
    (src dst : option GstVaapiRectangle) (w w' : World) (r : bool) :
  (object_id s = VA_INVALID_SURFACE -> overlays s = []) ->
  gst_vaapi_surface_associate_subpicture s sp src dst w = Some ((r, s'), w') ->
  object_id s' = VA_INVALID_SURFACE -> overlays s' = [].
Proof.
  intros Hinv. unfold gst_vaapi_surface_associate_subpicture.
  destruct sp as [p|]; [|intros H; injection H as <- <- <-; exact Hinv].
  pose proof (same_handle_made s) as Hsame.
  set (s0 := match subpictures s with
             | Some _ => s
             | None => set_subpictures s (Some [])
             end) in *.
  assert (Hov : overlays s0 = overlays s).
  { unfold s0, overlays. destruct (subpictures s) eqn:Hs; [now rewrite Hs|].
    reflexivity. }
  destruct Hsame as (_ & Hid0 & _ & _).
  rewrite Hov.
  destruct (g_ptr_array_remove_fast (overlays s) p) as [a|] eqn:Hrm.
  - assert (Hlive : object_id s <> VA_INVALID_SURFACE).
    { intros Hdead. rewrite (Hinv Hdead) in Hrm. discriminate. }
    destruct (deassociate_backend (set_subpictures s0 (Some a)) p w)
      as (r1 & w1 & Hrun & _).
    rewrite (bind_some _ _ _ _ _ Hrun). run.
    destruct r1; simpl.
    + match goal with
      | |- context [associate_new ?s1 p src dst ?w2] =>
          destruct (associate_new_outcome s1 p src dst w2) as (r2 & w3 & -> & _)
      end.
      intros H. injection H as <- <- <-.
      destruct r2; simpl; intros Hdead; congruence.
    + intros H. injection H as <- <- <-. simpl. intros Hdead. congruence.
  - destruct (associate_new_outcome s0 p src dst w) as (r2 & w3 & -> & Hr2).
    intros H. injection H as <- <- <-.
    destruct r2; simpl.
    + destruct (Hr2 eq_refl) as (d & src' & _ & Hlive & _). congruence.
    + rewrite Hov, Hid0. exact Hinv.
Qed.

Lemma deassociate_nodup (s s' : GstVaapiSurface) (sp : GstVaapiSubpicture)
    (w w' : World) (r : bool) :
  NoDup (overlays s) ->
  gst_vaapi_surface_deassociate_subpicture s sp w = Some ((r, s'), w') ->
  NoDup (overlays s') /\ ~ In sp (overlays s').
Proof.
  intros Hnd. unfold gst_vaapi_surface_deassociate_subpicture, overlays in *.
  destruct (subpictures s) as [a|] eqn:Hs.
  - destruct (g_ptr_array_remove_fast a sp) as [a'|] eqn:Hrm.
    + destruct (deassociate_backend (set_subpictures s (Some a')) sp w)
        as (r1 & w1 & Hrun & _).
      rewrite (bind_some _ _ _ _ _ Hrun). run.
      intros H. injection H as <- <- <-. simpl.
      eapply remove_fast_nodup; eassumption.
    + intros H. injection H as <- <- <-. rewrite Hs.
      split; [assumption|]. now apply remove_fast_none.
  - intros H. injection H as <- <- <-. rewrite Hs.
    split; [constructor|]. intros [].
Qed.


(** *** Bulk rebuild *)

(** What the loop over the composition clamps: the y-origin against the
    surface height and the width against the surface width; the x-origin
    and the height pass through. *)
Lemma sub_rect_of_clamps (s : GstVaapiSurface)
    (rect : GstVideoOverlayRectangle) :
  rect_x (sub_rect_of s rect) = as_guint32 (render_x rect) /\
  rect_y (sub_rect_of s rect) = Z.min (as_guint32 (render_y rect)) (height s) /\
  rect_width (sub_rect_of s rect) = Z.min (render_width rect) (width s) /\
  rect_height (sub_rect_of s rect) = render_height rect.
Proof.
  unfold sub_rect_of, MIN; simpl. repeat split.
  - destruct (Z.ltb_spec (as_guint32 (render_y rect)) (height s)); lia.
  - destruct (Z.ltb_spec (render_width rect) (width s)); lia.
Qed.

Lemma overlay_rectangles_nodup (d : GstVaapiDisplay)
    (rects : list GstVideoOverlayRectangle) :
  forall (s s' : GstVaapiSurface) (w w' : World) (r : bool),
    NoDup (overlays s) ->
    overlay_rectangles s d rects w = Some ((r, s'), w') ->
    NoDup (overlays s').
Proof.
  induction rects as [|rect rest IH]; intros s s' w w' r Hnd; simpl.
  - intros H. injection H as <- <- <-. exact Hnd.
  - unfold bind at 1. unfold collaborate at 1.
    destruct (gst_vaapi_subpicture_new_from_overlay_rectangle (va w) d rect)
      as [st sp].
    destruct (associate_nodup s sp None (Some (sub_rect_of s rect))
                {| va := st; trace := trace w |} Hnd)
      as (r1 & s1 & w1' & Hrun & Hnd1).
    rewrite (bind_some _ _ _ _ _ Hrun).
    destruct r1; simpl.
    + unfold bind at 1.
      destruct sp as [p|]; simpl; run; intros H; eapply IH; eassumption.
    + destruct sp as [p|]; simpl; run; intros H; injection H as <- <- <-;
        exact Hnd1.
Qed.

(** The bulk rebuild leaves a duplicate-free overlay set, or hands the
    composition to the parent context and leaves the set alone. *)
Lemma set_subpictures_from_composition_nodup
    (s s' : GstVaapiSurface)
    (composition : option (list GstVideoOverlayRectangle))
    (propagate_context : bool) (w w' : World) (r : bool) :
  NoDup (overlays s) ->
  gst_vaapi_surface_set_subpictures_from_composition s composition
    propagate_context w = Some ((r, s'), w') ->
  NoDup (overlays s').
Proof.
  intros Hnd. unfold gst_vaapi_surface_set_subpictures_from_composition.
  destruct (if propagate_context then parent_context s else None) as [ctx|].
  - unfold bind, collaborate.
    destruct (gst_vaapi_context_apply_composition (va w) ctx composition).
    intros H. injection H as <- <- <-. exact Hnd.
  - destruct (display s) as [d|];
      [|intros H; injection H as <- <- <-; exact Hnd].
    unfold gst_vaapi_surface_destroy_subpictures.
    destruct (subpictures s) as [a|] eqn:Hs.
    + destruct (foreach_destroy_quiet s a w) as (st & evs & Hrun & _).
      rewrite (bind_some _ _ _ _ _ (bind_some _ _ _ _ _ Hrun)).
      destruct composition as [rects|].
      * intros H. eapply overlay_rectangles_nodup; [|exact H]. constructor.
      * intros H. injection H as <- <- <-. constructor.
    + unfold bind at 1. unfold ret at 1.
      destruct composition as [rects|].
      * intros H. eapply overlay_rectangles_nodup; [|exact H]. exact Hnd.
      * intros H. injection H as <- <- <-. exact Hnd.
Qed.

(** *** Snapshot access *)

(** C7. gst_vaapi_surface_get_image and gst_vaapi_surface_put_image fail
    without a driver call when the width or the height of the image differs
    from the surface's or the image has the invalid id; when the sizes
    agree and the id is valid, the transfer call is issued under the
    display lock and the result is the driver's verdict. *)
Theorem image_transfer_preconditions
    (s : GstVaapiSurface) (image : GstVaapiImage) (w : World) :
  (image_width image <> width s \/ image_height image <> height s \/
   image_object_id image = VA_INVALID_ID ->
   gst_vaapi_surface_get_image s image w = Some (false, w) /\
   gst_vaapi_surface_put_image s image w = Some (false, w)) /\
  (forall d,
      display s = Some d ->
      image_width image = width s -> image_height image = height s ->
      image_object_id image <> VA_INVALID_ID ->
      let get := VaGetImage (object_id s) 0 0 (width s) (height s)
                   (image_object_id image) in
      let put := VaPutImage (object_id s) (image_object_id image)
                   0 0 (width s) (height s) 0 0 (width s) (height s) in
      gst_vaapi_surface_get_image s image w =
        Some (vaapi_check_status (reply_status (snd (va_call (va w) get))),
              {| va := fst (va_call (va w) get);
                 trace := trace w ++ [EvLock d; EvCall get; EvUnlock d] |}) /\
      gst_vaapi_surface_put_image s image w =
        Some (vaapi_check_status (reply_status (snd (va_call (va w) put))),
              {| va := fst (va_call (va w) put);
                 trace := trace w ++ [EvLock d; EvCall put; EvUnlock d] |})).
Proof.
  split.
  - intros H.
    unfold gst_vaapi_surface_get_image, gst_vaapi_surface_put_image.
    destruct (display s) as [d|]; [|split; reflexivity].
    destruct (Z.eqb_spec (image_width image) (width s)) as [Hw|Hw];
      [|split; reflexivity].
    destruct (Z.eqb_spec (image_height image) (height s)) as [Hh|Hh];
      [|split; reflexivity].
    destruct (Z.eqb_spec (image_object_id image) VA_INVALID_ID) as [Hi|Hi];
      [split; reflexivity|].
    exfalso. destruct H as [H|[H|H]]; contradiction.
  - intros d Hd Hw Hh Hi get put. subst get put.
    unfold gst_vaapi_surface_get_image, gst_vaapi_surface_put_image.
    rewrite Hd, Hw, Hh, !Z.eqb_refl. simpl.
    destruct (Z.eqb_spec (image_object_id image) VA_INVALID_ID) as [Hi'|_];
      [contradiction|].
    run. split.
    + destruct (va_call (va w) _) as [st r]; simpl.
      rewrite <- !app_assoc; simpl.
      destruct (vaapi_check_status (reply_status r)); reflexivity.
    + destruct (va_call (va w) _) as [st r]; simpl.
      rewrite <- !app_assoc; simpl.
      destruct (vaapi_check_status (reply_status r)); reflexivity.
Qed.

(** C9. In gst_vaapi_surface_derive_image, when the driver reports success
    but the descriptor lacks the image id or the buffer id, the result is
    NULL and no wrapper is made; when the descriptor is valid but the
    wrapper cannot be made, the derived image is destroyed in the driver
    and the result is NULL. *)
Theorem derive_image_invalid_descriptor
    (s : GstVaapiSurface) (d : GstVaapiDisplay) (w : World) :
  display s = Some d ->
  let derive :=
    VaDeriveImage (object_id s)
      {| image_id := VA_INVALID_ID; buf := VA_INVALID_ID;
         va_image_rest := va_image_rest uninitialized_va_image |} in
  let st := fst (va_call (va w) derive) in
  let va_image := reply_image (snd (va_call (va w) derive)) in
  let derived := trace w ++ [EvLock d; EvCall derive; EvUnlock d] in
  vaapi_check_status (reply_status (snd (va_call (va w) derive))) = true ->
  (image_id va_image = VA_INVALID_ID \/ buf va_image = VA_INVALID_ID ->
   gst_vaapi_surface_derive_image s w =
     Some (None, {| va := st; trace := derived |})) /\
  (image_id va_image <> VA_INVALID_ID -> buf va_image <> VA_INVALID_ID ->
   snd (gst_vaapi_image_new_with_image st d va_image) = None ->
   let destroy := VaDestroyImage (image_id va_image) in
   gst_vaapi_surface_derive_image s w =
     Some (None,
           {| va := fst (va_call
                           (fst (gst_vaapi_image_new_with_image st d va_image))
                           destroy);
              trace := derived ++ [EvCall destroy] |})).
Proof.
  intros Hd derive st va_image derived Hok.
  subst derive st va_image derived.
  unfold gst_vaapi_surface_derive_image. rewrite Hd. run.
  destruct (va_call (va w) _) as [st r]; simpl in *.
  rewrite Hok; simpl. rewrite <- !app_assoc; simpl.
  split.
  - intros [H|H]; rewrite H, ?Z.eqb_refl, ?orb_true_r; reflexivity.
  - intros Hi Hb Hwrap.
    destruct (Z.eqb_spec (image_id (reply_image r)) VA_INVALID_ID);
      [contradiction|].
    destruct (Z.eqb_spec (buf (reply_image r)) VA_INVALID_ID);
      [contradiction|].
    simpl.
    destruct (gst_vaapi_image_new_with_image st d (reply_image r))
      as [st' o]; simpl in *.
    subst o. run.
    destruct (va_call st' _) as [st'' r']; simpl.
    rewrite <- ?app_assoc; reflexivity.
Qed.

(** *** Status *)

(** C10. gst_vaapi_surface_query_status with a NULL out-pointer still
    queries the driver and returns TRUE when the driver succeeds, writing
    nothing; with a non-NULL out-pointer the translated status is stored;
    when the driver fails the location is left as it was. *)
Theorem query_status_null_out
    (s : GstVaapiSurface) (d : GstVaapiDisplay) (w : World) :
  display s = Some d ->
  let query := VaQuerySurfaceStatus (object_id s) in
  let r := snd (va_call (va w) query) in
  let w' := {| va := fst (va_call (va w) query);
               trace := trace w ++ [EvLock d; EvCall query; EvUnlock d] |} in
  (vaapi_check_status (reply_status r) = true ->
   gst_vaapi_surface_query_status s None w = Some ((true, None), w') /\
   forall old,
     gst_vaapi_surface_query_status s (Some old) w =
       Some ((true, Some (to_GstVaapiSurfaceStatus (reply_surface_status r))), w')) /\
  (vaapi_check_status (reply_status r) = false ->
   forall pstatus,
     gst_vaapi_surface_query_status s pstatus w = Some ((false, pstatus), w')).
Proof.
  intros Hd query r w'. subst query r w'.
  unfold gst_vaapi_surface_query_status. rewrite Hd. run.
  destruct (va_call (va w) _) as [st r]; simpl.
  rewrite <- !app_assoc; simpl.
  split; intros ->; simpl.
  - split; [reflexivity|]. intros old. reflexivity.
  - intros pstatus. reflexivity.
Qed.

End Properties.

(** * Concrete runs *)

Lemma creation_commits_on_success_only_witness :
  (exists s' W',
      @gst_vaapi_surface_create ok_env (fresh_surface (Some 1%N)) 1 64 48
        (world0 ok_env tt) = Some ((true, s'), W') /\
      format s' = GST_VIDEO_FORMAT_UNKNOWN /\ chroma_type s' = 1 /\
      width s' = 64 /\ height s' = 48) /\
  (exists s' W',
      @gst_vaapi_surface_create failing_env (fresh_surface (Some 1%N)) 1 64 48
        (world0 failing_env tt) = Some ((false, s'), W') /\
      s' = fresh_surface (Some 1%N)) /\
  (exists s' W',
      @gst_vaapi_surface_create_from_buffer_proxy ok_env
        (fresh_surface (Some 1%N)) 5%N (video64 2) (world0 ok_env tt)
        = Some ((true, s'), W') /\
      format s' = 2 /\ width s' = 64 /\ height s' = 64) /\
  (exists attribs s' W',
      @gst_vaapi_surface_create_full ok_env (fresh_surface (Some 1%N))
        (video64 2) 0 (world0 ok_env tt) = Some ((true, s'), W') /\
      trace W' = [EvLock 1%N; EvCall (VaCreateSurfaces 1 64 64 attribs);
                  EvUnlock 1%N] /\
      find_descriptor attribs = None /\
      format s' = 2 /\ chroma_type s' = 1 /\
      width s' = 64 /\ height s' = 64) /\
  (exists attribs e0 s' W',
      @gst_vaapi_surface_create_full granting_env (fresh_surface (Some 1%N))
        (video64 2) 2 (world0 granting_env tt) = Some ((true, s'), W') /\
      trace W' = [EvLock 1%N; EvCall (VaCreateSurfaces 1 64 64 attribs);
                  EvUnlock 1%N] /\
      find_descriptor attribs = Some e0 /\
      eb_width e0 = 64 /\ eb_height e0 = 64 /\
      format s' = 2 /\ chroma_type s' = 1 /\
      width s' = 32 /\ height s' = 32).
Proof.
  split; [|split; [|split; [|split]]].
  - destruct (proj1 (@creation_commits_on_success_only ok_env)
                (fresh_surface (Some 1%N)) 1%N 1 64 48 (world0 ok_env tt)
                eq_refl ltac:(discriminate))
      as (s' & W' & Hrun & _ & _ & Hok).
    exists s', W'. split; [exact Hrun|]. exact (Hok eq_refl).
  - destruct (proj1 (@creation_commits_on_success_only failing_env)
                (fresh_surface (Some 1%N)) 1%N 1 64 48 (world0 failing_env tt)
                eq_refl ltac:(discriminate))
      as (s' & W' & Hrun & _ & Hfail & _).
    exists s', W'. split; [exact Hrun|]. exact (Hfail eq_refl).
  - destruct (proj2 (proj2 (@creation_commits_on_success_only ok_env))
                (fresh_surface (Some 1%N)) 1%N 5%N (video64 2)
                {| fourcc := 2 |} (world0 ok_env tt)
                eq_refl eq_refl eq_refl ltac:(discriminate) ltac:(discriminate))
      as (attribs & evs & _ & s' & W' & Hrun & _ & _ & _ & Hok).
    exists s', W'. split; [exact Hrun|].
    destruct (Hok eq_refl) as (Hf & _ & Hw & Hh). auto.
  - destruct (proj1 (proj2 (@creation_commits_on_success_only ok_env))
                (fresh_surface (Some 1%N)) 1%N (video64 2) 0
                {| fourcc := 2 |} (world0 ok_env tt)
                eq_refl eq_refl eq_refl ltac:(discriminate)
                ltac:(discriminate))
      as (attribs & Hnone & _ & s' & W' & Hrun & Ht & _ & Hok).
    exists attribs, s', W'. split; [exact Hrun|]. split; [exact Ht|].
    split; [exact (Hnone eq_refl)|].
    destruct (Hok eq_refl) as (Hf & Hc & Hplain & _).
    destruct (Hplain eq_refl) as [Hw Hh]. auto.
  - destruct (proj1 (proj2 (@creation_commits_on_success_only granting_env))
                (fresh_surface (Some 1%N)) 1%N (video64 2) 2
                {| fourcc := 2 |} (world0 granting_env tt)
                eq_refl eq_refl eq_refl ltac:(discriminate)
                ltac:(discriminate))
      as (attribs & _ & Hsome & s' & W' & Hrun & Ht & _ & Hok).
    destruct (Hsome eq_refl) as (e0 & He0 & Hw0 & Hh0).
    exists attribs, e0, s', W'. split; [exact Hrun|]. split; [exact Ht|].
    split; [exact He0|]. split; [exact Hw0|]. split; [exact Hh0|].
    destruct (Hok eq_refl) as (Hf & Hc & _ & _ & Hread).
    assert (Hr : reply_extbuf
                   (snd (@va_call granting_env tt
                           (VaCreateSurfaces 1 64 64 attribs)))
                 = Some (grant32 e0)).
    { cbn. rewrite He0. reflexivity. }
    destruct (Hread (grant32 e0) eq_refl Hr) as [Hw Hh].
    split; [exact Hf|]. split; [exact Hc|].
    rewrite Hw, Hh. cbn [grant32 eb_width eb_height].
    rewrite Hw0, Hh0. split; reflexivity.
Defined.

(** C1, as the specification words it, fails: in the external-buffer
    strategy the driver is handed the descriptor, grants 32x32 and records
    that in the descriptor, and the surface still commits the requested
    64x64. *)
Lemma external_buffer_commits_request_not_descriptor :
  exists s' W' c e,
    @gst_vaapi_surface_create_from_buffer_proxy granting_env
      (fresh_surface (Some 1%N)) 5%N (video64 2) (world0 granting_env tt)
      = Some ((true, s'), W') /\
    trace W' = [EvProxyRef 5%N; EvLock 1%N; EvCall c; EvUnlock 1%N] /\
    reply_extbuf (snd (@va_call granting_env tt c)) = Some e /\
    eb_width e = 32 /\ eb_height e = 32 /\
    width s' = 64 /\ height s' = 64 /\
    width s' <> eb_width e /\ height s' <> eb_height e.
Proof.
  do 4 eexists.
  split; [lazy; reflexivity|]. split; [reflexivity|].
  split; [lazy; reflexivity|].
  repeat split; discriminate.
Qed.


Lemma destroy_order_witness :
  let s := {| display := Some 1%N; object_id := 7; extbuf_proxy := Some 5%N;
              format := 2; width := 64; height := 64;
              subpictures := Some [11%N; 12%N];
              parent_context := None; chroma_type := 1 |} in
  exists s' st,
    @gst_vaapi_surface_destroy failing_env s (world0 failing_env tt)
      = Some (s', world_at failing_env st
                    [EvLock 1%N; EvCall (VaDeassociateSubpicture 11 7);
                     EvUnlock 1%N; EvUnref 11%N;
                     EvLock 1%N; EvCall (VaDeassociateSubpicture 12 7);
                     EvUnlock 1%N; EvUnref 12%N;
                     EvLock 1%N; EvCall (VaDestroySurfaces 7); EvUnlock 1%N;
                     EvProxyUnref 5%N]) /\
    object_id s' = VA_INVALID_SURFACE /\ subpictures s' = None /\
    parent_context s' = None /\ extbuf_proxy s' = None.
Proof.
  intros s.
  destruct (@destroy_order failing_env s 1%N (world0 failing_env tt) eq_refl)
    as ((st & Hrun) & _).
  - intros H. discriminate H.
  - eexists. exists st. split; [exact Hrun|]. repeat split.
Defined.

Lemma deassociate_absent_is_noop_witness :
  @gst_vaapi_surface_deassociate_subpicture ok_env (surface64 (Some [11%N]))
    12%N (world0 ok_env tt)
  = Some ((true, surface64 (Some [11%N])), world0 ok_env tt) /\
  @gst_vaapi_surface_deassociate_subpicture ok_env (surface64 None)
    12%N (world0 ok_env tt)
  = Some ((true, surface64 None), world0 ok_env tt).
Proof.
  split.
  - apply (@deassociate_absent_is_noop ok_env (surface64 (Some [11%N])) 12%N
             (world0 ok_env tt)).
    right. simpl. intros [H|[]]. discriminate H.
  - apply (@deassociate_absent_is_noop ok_env (surface64 None) 12%N
             (world0 ok_env tt)).
    left. reflexivity.
Defined.

Lemma image_transfer_preconditions_witness :
  let small := {| image_addr := 900%N; image_object_id := 5;
                  image_width := 32; image_height := 64; image_format := 2 |} in
  let fitting := {| image_addr := 901%N; image_object_id := 5;
                    image_width := 64; image_height := 64; image_format := 2 |} in
  (@gst_vaapi_surface_get_image ok_env (surface64 None) small
     (world0 ok_env tt) = Some (false, world0 ok_env tt) /\
   @gst_vaapi_surface_put_image ok_env (surface64 None) small
     (world0 ok_env tt) = Some (false, world0 ok_env tt)) /\
  @gst_vaapi_surface_get_image ok_env (surface64 None) fitting
    (world0 ok_env tt)
  = Some (true,
          world_at ok_env tt
            [EvLock 1%N; EvCall (VaGetImage 7 0 0 64 64 5); EvUnlock 1%N]).
Proof.
  intros small fitting. split.
  - apply (proj1 (@image_transfer_preconditions ok_env (surface64 None) small
                    (world0 ok_env tt))).
    left. discriminate.
  - apply (proj1 (proj2 (@image_transfer_preconditions ok_env (surface64 None)
                           fitting (world0 ok_env tt))
                    1%N eq_refl eq_refl eq_refl ltac:(discriminate))).
Defined.

Lemma buffer_proxy_reference_taken_first_witness :
  exists s' W' s'' W'',
    @gst_vaapi_surface_create_from_buffer_proxy ok_env
      (fresh_surface (Some 1%N)) 5%N (video64 1) (world0 ok_env tt)
      = Some ((false, s'), W') /\
    extbuf_proxy s' = Some 5%N /\
    trace W' = [EvProxyRef 5%N] /\
    @gst_vaapi_surface_destroy ok_env s' W' = Some (s'', W'') /\
    extbuf_proxy s'' = None /\
    proxy_refs 5%N (trace W'') = 0.
Proof.
  destruct (@buffer_proxy_reference_taken_first ok_env
              (fresh_surface (Some 1%N)) 1%N 5%N (video64 1)
              (world0 ok_env tt) eq_refl eq_refl)
    as (r & s' & W' & rest & Hrun & Hheld & Ht & _ & Hfmt & Hfail).
  destruct (Hfmt eq_refl) as [-> ->].
  destruct (Hfail eq_refl) as (s'' & W'' & evs & Hd & Hnone & _ & _ & Hrefs).
  exists s', W', s'', W''.
  split; [exact Hrun|]. split; [exact Hheld|]. split; [exact Ht|].
  split; [exact Hd|]. split; [exact Hnone|].
  rewrite Hrefs, Ht. reflexivity.
Defined.

Lemma derive_image_invalid_descriptor_witness :
  @gst_vaapi_surface_derive_image bufferless_env (surface64 None)
    (world0 bufferless_env tt)
  = Some (None,
          world_at bufferless_env tt
            [EvLock 1%N;
             EvCall (VaDeriveImage 7
                       {| image_id := VA_INVALID_ID; buf := VA_INVALID_ID;
                          va_image_rest := 0 |});
             EvUnlock 1%N]) /\
  @gst_vaapi_surface_derive_image unwrapped_env (surface64 None)
    (world0 unwrapped_env tt)
  = Some (None,
          world_at unwrapped_env tt
            [EvLock 1%N;
             EvCall (VaDeriveImage 7
                       {| image_id := VA_INVALID_ID; buf := VA_INVALID_ID;
                          va_image_rest := 0 |});
             EvUnlock 1%N;
             EvCall (VaDestroyImage 5)]).
Proof.
  split.
  - apply (proj1 (@derive_image_invalid_descriptor bufferless_env
                    (surface64 None) 1%N (world0 bufferless_env tt)
                    eq_refl eq_refl)).
    right. reflexivity.
  - apply (proj2 (@derive_image_invalid_descriptor unwrapped_env
                    (surface64 None) 1%N (world0 unwrapped_env tt)
                    eq_refl eq_refl)).
    + discriminate.
    + discriminate.
    + reflexivity.
Defined.

Lemma query_status_null_out_witness :
  let queried := [EvLock 1%N; EvCall (VaQuerySurfaceStatus 7); EvUnlock 1%N] in
  @gst_vaapi_surface_query_status ok_env (surface64 None) None
    (world0 ok_env tt) = Some ((true, None), world_at ok_env tt queried) /\
  @gst_vaapi_surface_query_status ok_env (surface64 None) (Some 0)
    (world0 ok_env tt) = Some ((true, Some 4), world_at ok_env tt queried) /\
  @gst_vaapi_surface_query_status failing_env (surface64 None) (Some 0)
    (world0 failing_env tt)
  = Some ((false, Some 0), world_at failing_env tt queried).
Proof.
  intros queried.
  destruct (proj1 (@query_status_null_out ok_env (surface64 None) 1%N
                     (world0 ok_env tt) eq_refl) eq_refl) as [Hnull Hset].
  split; [exact Hnull|]. split; [exact (Hset 0)|].
  exact (proj2 (@query_status_null_out failing_env (surface64 None) 1%N
                  (world0 failing_env tt) eq_refl) eq_refl (Some 0)).
Defined.

(** C2, on the source.  A composition with one rectangle of render
    geometry (0, 0, 32, 100) on a 64x64 surface: the destination rectangle
    handed to the association keeps the height 100; the loop clamps the
    y-origin against the surface height and the width against the surface
    width, and nothing clamps the height. *)
Theorem composition_height_not_clamped :
  let rect := {| overlay_addr := 11%N; render_x := 0; render_y := 0;
                 render_width := 32; render_height := 100 |} in
  let src := {| rect_x := 0; rect_y := 0; rect_width := 16; rect_height := 16 |} in
  let dst := {| rect_x := 0; rect_y := 0; rect_width := 32; rect_height := 100 |} in
  sub_rect_of (surface64 None) rect = dst /\
  height (surface64 None) < rect_height dst /\
  exists s' w',
    @gst_vaapi_surface_set_subpictures_from_composition ok_env
      (surface64 None) (Some [rect]) false (world0 ok_env tt)
      = Some ((true, s'), w') /\
    trace w' = [EvLock 1%N; EvCall (VaAssociateSubpicture 11 7 src dst 0);
                EvUnlock 1%N; EvRef 11%N; EvUnref 11%N].
Proof.
  intros rect src dst.
  split; [reflexivity|]. split; [reflexivity|].
  do 2 eexists. split; [lazy; reflexivity|reflexivity].
Qed.

(** * Further properties of the surface code *)

Section Further.

Context {E : VAEnv}.

Ltac run :=
  unfold with_display, gst_vaapi_object_ref, gst_vaapi_object_unref,
    GST_VAAPI_DISPLAY_LOCK, GST_VAAPI_DISPLAY_UNLOCK;
  unfold bind, ret, emit, collaborate, va_invoke; simpl.

Ltac fields :=
  unfold commit, set_object_id, set_extbuf_proxy, set_format, set_chroma_type,
    set_width, set_height, set_subpictures, set_parent_context; simpl.

(** *** Lazy resolution of the format *)

(** Image derivation returns on every surface that has a display. *)
Lemma derive_image_runs (s : GstVaapiSurface) (d : GstVaapiDisplay)
    (w : World) :
  display s = Some d ->
  exists o w', gst_vaapi_surface_derive_image s w = Some (o, w').
Proof.
  intros Hd. unfold gst_vaapi_surface_derive_image. rewrite Hd. run.
  destruct (va_call (va w) _) as [st r]; simpl.
  destruct (vaapi_check_status (reply_status r)); simpl; [|eauto].
  destruct (_ || _); simpl; [eauto|].
  destruct (gst_vaapi_image_new_with_image st d (reply_image r)) as [st' o].
  destruct o as [i|]; simpl; [eauto|].
  destruct (va_call st' _) as [st'' r']; simpl. eauto.
Qed.

(** X1. gst_vaapi_surface_get_format never answers "unknown", and it
    resolves the format at most once.  A surface whose format is known is
    answered from the field, surface and world unchanged.  On a surface
    with a display whose format is unknown, the call derives an image: when
    that gives an image of a known format, this format is the answer and
    the image is released; when it gives an image of unknown format
    (released as well) or no image, the answer is "encoded".  The answer is
    stored, so the next call is answered from the field. *)
Theorem get_format_resolves_once (s : GstVaapiSurface) (w : World) :
  (format s <> GST_VIDEO_FORMAT_UNKNOWN ->
   gst_vaapi_surface_get_format s w = Some ((format s, s), w)) /\
  (forall d, display s = Some d -> format s = GST_VIDEO_FORMAT_UNKNOWN ->
     exists image w1 f w',
       gst_vaapi_surface_derive_image s w = Some (image, w1) /\
       gst_vaapi_surface_get_format s w = Some ((f, set_format s f), w') /\
       match image with
       | Some i =>
           f = (if image_format i =? GST_VIDEO_FORMAT_UNKNOWN
                then GST_VIDEO_FORMAT_ENCODED else image_format i) /\
           w' = {| va := va w1;
                   trace := trace w1 ++ [EvUnref (image_addr i)] |}
       | None => f = GST_VIDEO_FORMAT_ENCODED /\ w' = w1
       end /\
       f <> GST_VIDEO_FORMAT_UNKNOWN /\
       gst_vaapi_surface_get_format (set_format s f) w'
         = Some ((f, set_format s f), w')).
Proof.
  assert (Hknown : forall s0 w0, format s0 <> GST_VIDEO_FORMAT_UNKNOWN ->
             gst_vaapi_surface_get_format s0 w0 = Some ((format s0, s0), w0)).
  { intros s0 w0 H. unfold gst_vaapi_surface_get_format.
    destruct (Z.eqb_spec (format s0) GST_VIDEO_FORMAT_UNKNOWN);
      [contradiction|reflexivity]. }
  split; [apply Hknown|].
  intros d Hd Hu.
  assert (Hstored : forall f w', f <> GST_VIDEO_FORMAT_UNKNOWN ->
             gst_vaapi_surface_get_format (set_format s f) w'
             = Some ((f, set_format s f), w')).
  { intros f w' Hf. apply (Hknown (set_format s f) w'). exact Hf. }
  destruct (derive_image_runs s d w Hd) as (o & w1 & Hrun).
  exists o, w1.
  destruct o as [i|].
  - exists (if image_format i =? GST_VIDEO_FORMAT_UNKNOWN
            then GST_VIDEO_FORMAT_ENCODED else image_format i),
           {| va := va w1; trace := trace w1 ++ [EvUnref (image_addr i)] |}.
    assert (Hf : (if image_format i =? GST_VIDEO_FORMAT_UNKNOWN
                  then GST_VIDEO_FORMAT_ENCODED else image_format i)
                 <> GST_VIDEO_FORMAT_UNKNOWN).
    { destruct (Z.eqb_spec (image_format i) GST_VIDEO_FORMAT_UNKNOWN);
        [discriminate|assumption]. }
    split; [exact Hrun|]. split.
    + unfold gst_vaapi_surface_get_format. rewrite Hu. simpl.
      rewrite (bind_some _ _ _ _ _ Hrun). run.
      destruct (image_format i =? GST_VIDEO_FORMAT_UNKNOWN); reflexivity.
    + split; [split; reflexivity|]. split; [exact Hf|].
      apply Hstored. exact Hf.
  - exists GST_VIDEO_FORMAT_ENCODED, w1.
    split; [exact Hrun|]. split.
    + unfold gst_vaapi_surface_get_format. rewrite Hu. simpl.
      rewrite (bind_some _ _ _ _ _ Hrun). run. rewrite Hu. reflexivity.
    + split; [split; reflexivity|]. split; [discriminate|].
      apply Hstored. discriminate.
Qed.

(** *** Creation: rejections and constructors *)

(** X2. A creation strategy whose format negotiation fails returns FALSE
    before the display is locked or the driver called: the implicit-format
    and the explicit-format strategy leave surface and world as they were;
    the external-buffer strategy has by then taken the buffer proxy and
    done nothing else.  A build without the explicit-format or the
    external-buffer strategy rejects every request the same way. *)
Theorem creation_rejects_before_driver (s : GstVaapiSurface) (W : World) :
  (forall chroma w_ h_,
      from_GstVaapiChromaType chroma = 0 ->
      gst_vaapi_surface_create s chroma w_ h_ W = Some ((false, s), W)) /\
  (forall vip flags,
      VA_CHECK_VERSION 0 34 0 = false \/
      gst_vaapi_video_format_to_va_format (vi_format vip) = None \/
      gst_vaapi_video_format_get_chroma_type (vi_format vip) = 0 \/
      from_GstVaapiChromaType
        (gst_vaapi_video_format_get_chroma_type (vi_format vip)) = 0 ->
      gst_vaapi_surface_create_full s vip flags W = Some ((false, s), W)) /\
  (forall proxy vip,
      VA_CHECK_VERSION 0 36 0 = false ->
      gst_vaapi_surface_create_from_buffer_proxy s proxy vip W
        = Some ((false, s), W)) /\
  (forall proxy vip,
      VA_CHECK_VERSION 0 36 0 = true ->
      gst_vaapi_video_format_to_va_format (vi_format vip) = None \/
      gst_vaapi_video_format_get_chroma_type (vi_format vip) = 0 \/
      from_GstVaapiChromaType
        (gst_vaapi_video_format_get_chroma_type (vi_format vip)) = 0 ->
      gst_vaapi_surface_create_from_buffer_proxy s proxy vip W
        = Some ((false, set_extbuf_proxy s (Some proxy)),
                {| va := va W;
                   trace := trace W ++ replacement (extbuf_proxy s) proxy |})).
Proof.
  split; [|split; [|split]].
  - intros chroma w_ h_ H. unfold gst_vaapi_surface_create.
    rewrite H. reflexivity.
  - intros vip flags H. unfold gst_vaapi_surface_create_full.
    destruct (VA_CHECK_VERSION 0 34 0); [|reflexivity].
    destruct (gst_vaapi_video_format_to_va_format (vi_format vip)) as [vf|];
      [|reflexivity].
    destruct (Z.eqb_spec
                (gst_vaapi_video_format_get_chroma_type (vi_format vip)) 0);
      [reflexivity|].
    destruct (Z.eqb_spec
                (from_GstVaapiChromaType
                   (gst_vaapi_video_format_get_chroma_type (vi_format vip))) 0);
      [reflexivity|].
    destruct H as [H|[H|[H|H]]]; congruence.
  - intros proxy vip H. unfold gst_vaapi_surface_create_from_buffer_proxy.
    rewrite H. reflexivity.
  - intros proxy vip Hv H. unfold gst_vaapi_surface_create_from_buffer_proxy.
    rewrite Hv.
    rewrite (bind_some _ _ _ _ _ (proxy_replace_some (extbuf_proxy s) proxy W)).
    destruct (gst_vaapi_video_format_to_va_format (vi_format vip)) as [vf|];
      [|reflexivity].
    destruct (Z.eqb_spec
                (gst_vaapi_video_format_get_chroma_type (vi_format vip)) 0);
      [reflexivity|].
    destruct (Z.eqb_spec
                (from_GstVaapiChromaType
                   (gst_vaapi_video_format_get_chroma_type (vi_format vip))) 0);
      [reflexivity|].
    destruct H as [H|[H|H]]; congruence.
Qed.

(** The teardown of a surface object that never got a handle, an overlay
    array or a buffer proxy touches nothing outside the object. *)
Lemma destroy_unborn (s : GstVaapiSurface) (W : World) :
  unborn s -> exists s', gst_vaapi_surface_destroy s W = Some (s', W).
Proof.
  intros (Hid & Hsub & Hp).
  unfold gst_vaapi_surface_destroy, gst_vaapi_surface_destroy_subpictures,
    gst_vaapi_surface_set_parent_context, gst_vaapi_buffer_proxy_replace.
  rewrite Hsub, Hid. simpl. unfold bind, ret. simpl. rewrite Hp. simpl.
  eauto.
Qed.

(** The implicit-format strategy once the chroma type is supported. *)
Lemma create_runs (s : GstVaapiSurface) (d : GstVaapiDisplay)
    (chroma w_ h_ : Z) (W : World) :
  display s = Some d -> from_GstVaapiChromaType chroma <> 0 ->
  let c := VaCreateSurfaces (from_GstVaapiChromaType chroma) w_ h_ [] in
  let rp := snd (va_call (va W) c) in
  gst_vaapi_surface_create s chroma w_ h_ W
    = Some ((vaapi_check_status (reply_status rp),
             if vaapi_check_status (reply_status rp)
             then commit s GST_VIDEO_FORMAT_UNKNOWN chroma w_ h_
                    (reply_surface rp)
             else s),
            {| va := fst (va_call (va W) c);
               trace := trace W ++ [EvLock d; EvCall c; EvUnlock d] |}).
Proof.
  intros Hd Hc c rp. subst c rp. unfold gst_vaapi_surface_create.
  destruct (Z.eqb_spec (from_GstVaapiChromaType chroma) 0); [contradiction|].
  rewrite Hd. run.
  destruct (va_call (va W) _) as [st r]; simpl.
  rewrite <- !app_assoc; simpl.
  destruct (vaapi_check_status (reply_status r)); reflexivity.
Qed.

(** X3. gst_vaapi_surface_new: without an object there is no surface; an
    unsupported chroma type gives no surface and no driver call; otherwise
    exactly one allocation call is made under the display lock, and the
    caller gets a surface, with the driver's id and the requested chroma
    type and size, exactly when the driver accepted.  A refused allocation
    is followed by no driver call at all: the object that is dropped has
    no handle to destroy. *)
Theorem surface_new_outcome
    (dpy : option GstVaapiDisplay) (chroma w_ h_ : Z) (W : World) :
  (forall st,
      gst_vaapi_object_new (va W) dpy = (st, None) ->
      gst_vaapi_surface_new dpy chroma w_ h_ W
        = Some (None, {| va := st; trace := trace W |})) /\
  (forall st s0 d,
      gst_vaapi_object_new (va W) dpy = (st, Some s0) ->
      display s0 = Some d -> unborn s0 ->
      (from_GstVaapiChromaType chroma = 0 ->
       gst_vaapi_surface_new dpy chroma w_ h_ W
         = Some (None, {| va := st; trace := trace W |})) /\
      (from_GstVaapiChromaType chroma <> 0 ->
       let c := VaCreateSurfaces (from_GstVaapiChromaType chroma) w_ h_ [] in
       let rp := snd (va_call st c) in
       let W' := {| va := fst (va_call st c);
                    trace := trace W ++ [EvLock d; EvCall c; EvUnlock d] |} in
       (vaapi_check_status (reply_status rp) = false ->
        gst_vaapi_surface_new dpy chroma w_ h_ W = Some (None, W')) /\
       (vaapi_check_status (reply_status rp) = true ->
        exists s',
          gst_vaapi_surface_new dpy chroma w_ h_ W = Some (Some s', W') /\
          gst_vaapi_surface_get_id s' = reply_surface rp /\
          gst_vaapi_surface_get_chroma_type s' = chroma /\
          gst_vaapi_surface_get_width s' = w_ /\
          gst_vaapi_surface_get_height s' = h_ /\
          gst_vaapi_surface_get_size s' (Some 0) (Some 0)
            = (Some w_, Some h_) /\
          format s' = GST_VIDEO_FORMAT_UNKNOWN))).
Proof.
  split.
  - intros st Hnew. unfold gst_vaapi_surface_new, new_surface.
    unfold bind, collaborate. rewrite Hnew. reflexivity.
  - intros st s0 d Hnew Hd Hborn.
    assert (Hshape :
              gst_vaapi_surface_new dpy chroma w_ h_ W
              = bind (gst_vaapi_surface_create s0 chroma w_ h_)
                  (fun x : bool * GstVaapiSurface =>
                     let (ok, surface) := x in
                     if negb ok
                     then bind (gst_vaapi_surface_unref_last surface)
                            (fun _ => ret None)
                     else ret (Some surface))
                  {| va := st; trace := trace W |}).
    { unfold gst_vaapi_surface_new, new_surface.
      unfold bind at 1. unfold collaborate. rewrite Hnew. reflexivity. }
    rewrite Hshape. clear Hshape.
    assert (Hdrop : forall w1,
               bind (gst_vaapi_surface_unref_last s0)
                 (fun _ => ret (@None GstVaapiSurface)) w1 = Some (None, w1)).
    { intros w1. unfold gst_vaapi_surface_unref_last.
      destruct (destroy_unborn s0 w1 Hborn) as [s' Hrun].
      unfold bind. rewrite Hrun. reflexivity. }
    split.
    + intros Hc. unfold gst_vaapi_surface_create. rewrite Hc. simpl.
      unfold bind at 1. unfold ret at 1. simpl. apply Hdrop.
    + intros Hc c rp W'. subst c rp W'.
      rewrite (bind_some _ _ _ _ _
                 (create_runs s0 d chroma w_ h_
                    {| va := st; trace := trace W |} Hd Hc)).
      simpl. split; intros Hok; rewrite Hok; simpl.
      * apply Hdrop.
      * eexists. split; [reflexivity|]. repeat split.
Qed.

(** The external-buffer strategy, read off its result: either the build
    lacks the strategy and nothing happened, or the surface holds the proxy
    and the trace starts with the replacement of the proxy slot, followed by
    events that leave proxy references alone. *)
Lemma buffer_proxy_create_shape (s0 s1 : GstVaapiSurface)
    (proxy : GstVaapiBufferProxy) (vip : GstVideoInfo) (W0 W1 : World)
    (r : bool) :
  gst_vaapi_surface_create_from_buffer_proxy s0 proxy vip W0
    = Some ((r, s1), W1) ->
  (r = false /\ s1 = s0 /\ W1 = W0) \/
  (extbuf_proxy s1 = Some proxy /\
   (r = false -> s1 = set_extbuf_proxy s0 (Some proxy)) /\
   exists rest,
     trace W1 = trace W0 ++ replacement (extbuf_proxy s0) proxy ++ rest /\
     Forall (fun e => is_proxy_event e = false) rest).
Proof.
  unfold gst_vaapi_surface_create_from_buffer_proxy.
  destruct (VA_CHECK_VERSION 0 36 0);
    [|intros H; injection H as <- <- <-; left; auto].
  rewrite (bind_some _ _ _ _ _ (proxy_replace_some (extbuf_proxy s0) proxy W0)).
  assert (Hrej : forall r s1 W1,
             ret (false, set_extbuf_proxy s0 (Some proxy))
               {| va := va W0;
                  trace := trace W0 ++ replacement (extbuf_proxy s0) proxy |}
             = Some ((r, s1), W1) ->
             (r = false /\ s1 = s0 /\ W1 = W0) \/
             (extbuf_proxy s1 = Some proxy /\
              (r = false -> s1 = set_extbuf_proxy s0 (Some proxy)) /\
              exists rest,
                trace W1 = trace W0 ++ replacement (extbuf_proxy s0) proxy
                             ++ rest /\
                Forall (fun e => is_proxy_event e = false) rest)).
  { intros r' s' W' H. injection H as <- <- <-. right.
    split; [reflexivity|]. split; [reflexivity|].
    exists []. simpl. rewrite app_nil_r. split; [reflexivity|constructor]. }
  destruct (gst_vaapi_video_format_to_va_format (vi_format vip)) as [vf|];
    [|apply Hrej].
  destruct (_ =? 0); [apply Hrej|].
  destruct (_ =? 0); [apply Hrej|].
  clear Hrej. fields.
  destruct (display s0) as [d|]; [|discriminate]. run.
  match goal with
  | |- context [va_call (va W0) ?c0] => set (c := c0)
  end.
  destruct (va_call (va W0) c) as [st rp]; simpl.
  destruct (vaapi_check_status (reply_status rp)); simpl;
    intros H; injection H as <- <- <-; right;
    (split; [reflexivity|]);
    (split; [try discriminate; intros _; reflexivity|]);
    exists [EvLock d; EvCall c; EvUnlock d]; simpl;
    rewrite <- !app_assoc; (split; [reflexivity|repeat constructor]).
Qed.

(** The teardown of a surface object that holds nothing but a buffer
    proxy gives that reference up and does nothing else. *)
Lemma destroy_proxy_only (s : GstVaapiSurface) (proxy : GstVaapiBufferProxy)
    (W : World) :
  unborn s ->
  exists s',
    gst_vaapi_surface_destroy (set_extbuf_proxy s (Some proxy)) W
      = Some (s', {| va := va W; trace := trace W ++ [EvProxyUnref proxy] |}).
Proof.
  intros (Hid & Hsub & Hp).
  unfold gst_vaapi_surface_destroy, gst_vaapi_surface_destroy_subpictures,
    gst_vaapi_surface_set_parent_context, gst_vaapi_buffer_proxy_replace.
  simpl. rewrite Hsub, Hid. simpl. unfold bind, ret, emit. simpl. eauto.
Qed.

(** X4. gst_vaapi_surface_new_from_buffer_proxy: a NULL proxy or a NULL
    video description gives no surface and touches nothing, not even the
    object allocator.  Otherwise the proxy's reference count is balanced
    when no surface is returned (the reference taken by the creation is
    given up by the drop of the object), and is up by one, with the surface
    holding the proxy, when a surface is returned. *)
Theorem surface_new_from_buffer_proxy_balance
    (dpy : option GstVaapiDisplay) (W : World) :
  (forall info,
      gst_vaapi_surface_new_from_buffer_proxy dpy None info W
        = Some (None, W)) /\
  (forall proxy,
      gst_vaapi_surface_new_from_buffer_proxy dpy proxy None W
        = Some (None, W)) /\
  (forall proxy info result W',
      (forall st s0, gst_vaapi_object_new (va W) dpy = (st, Some s0) ->
                     unborn s0) ->
      gst_vaapi_surface_new_from_buffer_proxy dpy (Some proxy) (Some info) W
        = Some (result, W') ->
      match result with
      | None => proxy_refs proxy (trace W') = proxy_refs proxy (trace W)
      | Some s =>
          extbuf_proxy s = Some proxy /\
          proxy_refs proxy (trace W') = proxy_refs proxy (trace W) + 1
      end).
Proof.
  split; [reflexivity|]. split; [intros [p|]; reflexivity|].
  intros proxy info result W' Halloc.
  unfold gst_vaapi_surface_new_from_buffer_proxy, new_surface.
  unfold bind at 1. unfold collaborate.
  destruct (gst_vaapi_object_new (va W) dpy) as [st o] eqn:Hnew.
  destruct o as [s0|]; [|intros H; injection H as <- <-; reflexivity].
  specialize (Halloc st s0 eq_refl).
  set (W0 := {| va := st; trace := trace W |}).
  destruct (gst_vaapi_surface_create_from_buffer_proxy s0 proxy info W0)
    as [[[r s1] W1]|] eqn:Hcreate;
    [|unfold bind; rewrite Hcreate; discriminate].
  rewrite (bind_some _ _ _ _ _ Hcreate).
  pose proof Halloc as (_ & _ & Hp0).
  destruct (buffer_proxy_create_shape _ _ _ _ _ _ _ Hcreate)
    as [(-> & -> & ->)|(Hheld & Hfail & rest & Ht & Hq)].
  - simpl. unfold gst_vaapi_surface_unref_last.
    destruct (destroy_unborn s0 W0 Halloc) as [s' Hrun].
    unfold bind. rewrite Hrun. intros H. injection H as <- <-. reflexivity.
  - rewrite Hp0 in Ht. simpl in Ht.
    assert (Hrefs : proxy_refs proxy (trace W1)
                    = proxy_refs proxy (trace W) + 1).
    { rewrite Ht. change (trace W ++ EvProxyRef proxy :: rest)
        with (trace W ++ [EvProxyRef proxy] ++ rest).
      rewrite !proxy_refs_app, (proxy_refs_quiet _ _ Hq). simpl.
      rewrite N.eqb_refl. lia. }
    destruct r; simpl.
    + intros H. injection H as <- <-. split; assumption.
    + rewrite (Hfail eq_refl). unfold gst_vaapi_surface_unref_last.
      destruct (destroy_proxy_only s0 proxy W1 Halloc) as [s' Hrun].
      unfold bind. rewrite Hrun. intros H. injection H as <- <-. simpl.
      rewrite proxy_refs_app, Hrefs. simpl. rewrite N.eqb_refl. lia.
Qed.

(** *** Overlay manager: membership *)

Lemma remove_fast_others (a a' : list N) (p q : N) :
  g_ptr_array_remove_fast a p = Some a' -> q <> p -> (In q a' <-> In q a).
Proof.
  intros H Hq. apply remove_fast_perm in H. split; intros Hin.
  - eapply Permutation_in; [symmetry; exact H|]. now right.
  - apply (Permutation_in _ H) in Hin. destruct Hin; [congruence|assumption].
Qed.

Lemma remove_fast_last (a : list N) (p : N) :
  ~ In p a -> g_ptr_array_remove_fast (a ++ [p]) p = Some a.
Proof.
  induction a as [|q t IH]; simpl; intros Hn.
  - rewrite N.eqb_refl. reflexivity.
  - destruct (N.eqb_spec q p) as [->|Hqp]; [exfalso; apply Hn; now left|].
    rewrite IH; [reflexivity|]. intros Hin. apply Hn. now right.
Qed.

Lemma same_but_overlays_array (s : GstVaapiSurface)
    (a : option (list GstVaapiSubpicture)) :
  same_but_overlays s (set_subpictures s a).
Proof. repeat split. Qed.

Lemma same_but_overlays_trans (s s' s'' : GstVaapiSurface) :
  same_but_overlays s s' -> same_but_overlays s' s'' ->
  same_but_overlays s s''.
Proof.
  unfold same_but_overlays.
  intros (H1 & H2 & H3 & H4 & H5 & H6 & H7 & H8)
         (K1 & K2 & K3 & K4 & K5 & K6 & K7 & K8).
  repeat split; congruence.
Qed.

Lemma same_but_overlays_refl (s : GstVaapiSurface) : same_but_overlays s s.
Proof. repeat split. Qed.

(** An association, read off its result: only the overlay array changes;
    the subpicture is taken out of the array if it was there and is put at
    its end exactly when the call returns TRUE, which takes a live
    surface. *)
Lemma associate_shape (s s' : GstVaapiSurface) (p : GstVaapiSubpicture)
    (src dst : option GstVaapiRectangle) (w w' : World) (r : bool) :
  gst_vaapi_surface_associate_subpicture s (Some p) src dst w
    = Some ((r, s'), w') ->
  same_but_overlays s s' /\
  overlays s' =
    (let a0 := match g_ptr_array_remove_fast (overlays s) p with
               | Some a => a
               | None => overlays s
               end in
     if r then a0 ++ [p] else a0) /\
  (r = true ->
   object_id s <> VA_INVALID_SURFACE /\ exists d, display s = Some d).
Proof.
  unfold gst_vaapi_surface_associate_subpicture.
  set (s0 := match subpictures s with
             | Some _ => s
             | None => set_subpictures s (Some [])
             end).
  assert (Hov : overlays s0 = overlays s).
  { unfold s0, overlays. destruct (subpictures s) eqn:Hs; [now rewrite Hs|].
    reflexivity. }
  assert (Hs0 : same_but_overlays s s0).
  { unfold s0. destruct (subpictures s); repeat split. }
  rewrite Hov.
  destruct (g_ptr_array_remove_fast (overlays s) p) as [a|] eqn:Hrm.
  - set (s1 := set_subpictures s0 (Some a)).
    assert (Hs1 : same_but_overlays s s1).
    { eapply same_but_overlays_trans;
        [exact Hs0|apply same_but_overlays_array]. }
    destruct (deassociate_backend s1 p w) as (r1 & w1 & Hrun & _).
    rewrite (bind_some _ _ _ _ _ Hrun). run.
    destruct r1; simpl.
    + match goal with
      | |- context [associate_new s1 p src dst ?w2] =>
          destruct (associate_new_outcome s1 p src dst w2)
            as (r2 & w3 & -> & Hr2)
      end.
      intros H. injection H as <- <- <-.
      destruct r2; simpl.
      * split; [eapply same_but_overlays_trans;
                  [exact Hs1|apply same_but_overlays_array]|].
        split; [reflexivity|]. intros _.
        destruct (Hr2 eq_refl) as (d & _ & Hd & Hid & _).
        destruct Hs1 as (Hsd & Hsi & _). split; [congruence|].
        exists d. congruence.
      * split; [exact Hs1|]. split; [reflexivity|discriminate].
    + intros H. injection H as <- <- <-.
      split; [exact Hs1|]. split; [reflexivity|discriminate].
  - destruct (associate_new_outcome s0 p src dst w) as (r2 & w3 & -> & Hr2).
    intros H. injection H as <- <- <-.
    destruct r2; simpl.
    + split; [eapply same_but_overlays_trans;
                [exact Hs0|apply same_but_overlays_array]|].
      split; [now rewrite Hov|]. intros _.
      destruct (Hr2 eq_refl) as (d & _ & Hd & Hid & _).
      destruct Hs0 as (Hsd & Hsi & _). split; [congruence|].
      exists d. congruence.
    + split; [exact Hs0|]. split; [exact Hov|discriminate].
Qed.

(** X5. The result of gst_vaapi_surface_associate_subpicture tells the
    membership: on a duplicate-free overlay set the subpicture is the last
    member after TRUE and no member after FALSE, so a failed
    re-association drops the prior binding; the other members are
    untouched either way. *)
Theorem associate_result_is_membership
    (s s' : GstVaapiSurface) (sp : GstVaapiSubpicture)
    (src dst : option GstVaapiRectangle) (w w' : World) (r : bool) :
  NoDup (overlays s) ->
  gst_vaapi_surface_associate_subpicture s (Some sp) src dst w
    = Some ((r, s'), w') ->
  (r = true -> exists a, overlays s' = a ++ [sp] /\ ~ In sp a) /\
  (r = false -> ~ In sp (overlays s')) /\
  (forall q, q <> sp -> (In q (overlays s') <-> In q (overlays s))).
Proof.
  intros Hnd Hrun.
  destruct (associate_shape _ _ _ _ _ _ _ _ Hrun) as (_ & Hov & _).
  set (a0 := match g_ptr_array_remove_fast (overlays s) sp with
             | Some a => a
             | None => overlays s
             end) in *.
  assert (Hout : ~ In sp a0).
  { unfold a0.
    destruct (g_ptr_array_remove_fast (overlays s) sp) as [a|] eqn:Hrm.
    - eapply remove_fast_nodup; eassumption.
    - now apply remove_fast_none. }
  assert (Hothers : forall q, q <> sp -> (In q a0 <-> In q (overlays s))).
  { intros q Hq. unfold a0.
    destruct (g_ptr_array_remove_fast (overlays s) sp) as [a|] eqn:Hrm.
    - eapply remove_fast_others; eassumption.
    - reflexivity. }
  simpl in Hov. split; [|split].
  - intros ->. exists a0. split; assumption.
  - intros ->. rewrite Hov. exact Hout.
  - intros q Hq. rewrite Hov, <- (Hothers q Hq).
    destruct r; [|reflexivity].
    rewrite in_app_iff. simpl. split; [|now left].
    intros [H|[H|[]]]; [exact H|congruence].
Qed.

(** X6. gst_vaapi_surface_deassociate_subpicture on a member of a live
    surface: the member leaves the overlay set first, then the driver is
    asked once under the display lock and the reference is released; the
    result is the driver's verdict, and the membership is gone whatever the
    verdict.  The other members stay. *)
Theorem deassociate_member_drops_membership
    (s : GstVaapiSurface) (d : GstVaapiDisplay) (sp : GstVaapiSubpicture)
    (w : World) :
  display s = Some d -> object_id s <> VA_INVALID_SURFACE ->
  NoDup (overlays s) -> In sp (overlays s) ->
  let c := VaDeassociateSubpicture (subpicture_object_id sp) (object_id s) in
  exists a',
    gst_vaapi_surface_deassociate_subpicture s sp w
      = Some ((vaapi_check_status (reply_status (snd (va_call (va w) c))),
               set_subpictures s (Some a')),
              {| va := fst (va_call (va w) c);
                 trace := trace w ++ member_teardown d s sp |}) /\
    ~ In sp a' /\ length (overlays s) = S (length a') /\
    (forall q, q <> sp -> (In q a' <-> In q (overlays s))).
Proof.
  intros Hd Hid Hnd Hin c. subst c.
  unfold gst_vaapi_surface_deassociate_subpicture, overlays in *.
  destruct (subpictures s) as [a|] eqn:Hs; [|contradiction].
  destruct (remove_fast_present a sp Hin) as [a' Hrm]. rewrite Hrm.
  exists a'.
  rewrite (bind_some _ _ _ _ _
             (deassociate_live (set_subpictures s (Some a')) d sp w Hd Hid)).
  run. unfold member_teardown. rewrite <- app_assoc. simpl.
  split; [reflexivity|].
  split; [eapply remove_fast_nodup; eassumption|].
  split; [eapply remove_fast_length; eassumption|].
  intros q Hq. eapply remove_fast_others; eassumption.
Qed.

(** *** Overlay manager: association of a new member *)

Lemma associate_backend_live (s : GstVaapiSurface) (d : GstVaapiDisplay)
    (p : GstVaapiSubpicture) (src dst : option GstVaapiRectangle)
    (src' : GstVaapiRectangle) (w : World) :
  display s = Some d -> object_id s <> VA_INVALID_SURFACE ->
  source_rectangle p src = Some src' ->
  let c := association_call s p src' (destination_rectangle s dst) in
  _gst_vaapi_surface_associate_subpicture s p src dst w
    = Some (vaapi_check_status (reply_status (snd (va_call (va w) c))),
            {| va := fst (va_call (va w) c);
               trace := trace w ++ [EvLock d; EvCall c; EvUnlock d] |}).
Proof.
  intros Hd Hid Hsrc c. subst c.
  unfold _gst_vaapi_surface_associate_subpicture. rewrite Hd.
  destruct (Z.eqb_spec (object_id s) VA_INVALID_SURFACE); [contradiction|].
  fold (source_rectangle p src). fold (destination_rectangle s dst).
  rewrite Hsrc. run.
  fold (association_call s p src' (destination_rectangle s dst)).
  destruct (va_call (va w) _) as [st r]; simpl.
  rewrite <- !app_assoc; simpl.
  destruct (vaapi_check_status (reply_status r)); reflexivity.
Qed.

Lemma associate_backend_refuses (s : GstVaapiSurface)
    (p : GstVaapiSubpicture) (src dst : option GstVaapiRectangle) (w : World) :
  display s = None \/ object_id s = VA_INVALID_SURFACE \/
  source_rectangle p src = None ->
  _gst_vaapi_surface_associate_subpicture s p src dst w = Some (false, w).
Proof.
  intros H. unfold _gst_vaapi_surface_associate_subpicture.
  destruct (display s) as [d|]; [|reflexivity].
  destruct (Z.eqb_spec (object_id s) VA_INVALID_SURFACE); [reflexivity|].
  fold (source_rectangle p src).
  destruct (source_rectangle p src); [|reflexivity].
  destruct H as [H|[H|H]]; congruence.
Qed.

(** The surface as the association leaves it when it has made sure that
    the overlay array exists. *)
Lemma array_made (s : GstVaapiSurface) :
  let s0 := match subpictures s with
            | Some _ => s
            | None => set_subpictures s (Some [])
            end in
  overlays s0 = overlays s /\ same_but_overlays s s0 /\
  subpictures s0 = Some (overlays s).
Proof.
  unfold overlays. destruct (subpictures s) eqn:Hs; simpl;
    rewrite ?Hs; repeat split.
Qed.

(** X7. gst_vaapi_surface_associate_subpicture refuses, without locking
    the display or calling the driver and without touching the world, a
    NULL subpicture, and a subpicture that is not yet a member when the
    surface has no display, when its handle is the sentinel, or when no
    source rectangle is given and the subpicture has no image.  The
    members of the overlay set stay as they were. *)
Theorem associate_refused_without_driver
    (s : GstVaapiSurface) (src dst : option GstVaapiRectangle) (w : World) :
  gst_vaapi_surface_associate_subpicture s None src dst w
    = Some ((false, s), w) /\
  (forall sp,
      ~ In sp (overlays s) ->
      display s = None \/ object_id s = VA_INVALID_SURFACE \/
      (src = None /\ gst_vaapi_subpicture_get_image sp = None) ->
      exists s',
        gst_vaapi_surface_associate_subpicture s (Some sp) src dst w
          = Some ((false, s'), w) /\
        overlays s' = overlays s /\ same_but_overlays s s').
Proof.
  split; [reflexivity|].
  intros sp Hn H. unfold gst_vaapi_surface_associate_subpicture.
  destruct (array_made s) as (Hov & Hsame & _).
  set (s0 := match subpictures s with
             | Some _ => s
             | None => set_subpictures s (Some [])
             end) in *.
  rewrite Hov, (remove_fast_absent _ _ Hn).
  assert (Href : display s0 = None \/ object_id s0 = VA_INVALID_SURFACE \/
                 source_rectangle sp src = None).
  { pose proof Hsame as (Hd & Hi & _).
    destruct H as [H|[H|[-> H]]]; [left; congruence|right; left; congruence|].
    right. right. simpl. rewrite H. reflexivity. }
  exists s0. unfold associate_new.
  rewrite (bind_some _ _ _ _ _
             (associate_backend_refuses s0 sp src dst w Href)).
  simpl. auto.
Qed.

(** X8. Associating a subpicture that is not yet a member, on a live
    surface, with both rectangles NULL: the driver is called once, under
    the display lock, with the whole image of the subpicture as source and
    the whole surface as destination.  When the driver accepts, a reference
    is taken and the subpicture becomes the last member; when it refuses,
    no reference is taken and the members are as before. *)
Theorem associate_new_member_defaults
    (s : GstVaapiSurface) (d : GstVaapiDisplay) (sp : GstVaapiSubpicture)
    (image : GstVaapiImage) (w : World) :
  display s = Some d -> object_id s <> VA_INVALID_SURFACE ->
  ~ In sp (overlays s) ->
  gst_vaapi_subpicture_get_image sp = Some image ->
  let src := {| rect_x := 0; rect_y := 0;
                rect_width := image_width image;
                rect_height := image_height image |} in
  let dst := {| rect_x := 0; rect_y := 0;
                rect_width := width s; rect_height := height s |} in
  let c := VaAssociateSubpicture (subpicture_object_id sp) (object_id s)
             src dst
             (from_GstVaapiSubpictureFlags (gst_vaapi_subpicture_get_flags sp)) in
  let ok := vaapi_check_status (reply_status (snd (va_call (va w) c))) in
  exists s',
    gst_vaapi_surface_associate_subpicture s (Some sp) None None w
      = Some ((ok, s'),
              {| va := fst (va_call (va w) c);
                 trace := trace w ++ [EvLock d; EvCall c; EvUnlock d]
                            ++ (if ok then [EvRef sp] else []) |}) /\
    overlays s' = (if ok then overlays s ++ [sp] else overlays s) /\
    same_but_overlays s s'.
Proof.
  intros Hd Hid Hn Himg src dst c ok.
  unfold gst_vaapi_surface_associate_subpicture.
  destruct (array_made s) as (Hov & Hsame & _).
  set (s0 := match subpictures s with
             | Some _ => s
             | None => set_subpictures s (Some [])
             end) in *.
  rewrite Hov, (remove_fast_absent _ _ Hn).
  pose proof Hsame as (Hsd & Hsi & _ & _ & Hsw & Hsh & _).
  assert (Hd0 : display s0 = Some d) by congruence.
  assert (Hid0 : object_id s0 <> VA_INVALID_SURFACE) by congruence.
  assert (Hsrc : source_rectangle sp None = Some src).
  { simpl. rewrite Himg. reflexivity. }
  unfold associate_new.
  rewrite (bind_some _ _ _ _ _
             (associate_backend_live s0 d sp None None src w Hd0 Hid0 Hsrc)).
  unfold association_call, destination_rectangle. rewrite Hsi, Hsw, Hsh.
  fold dst. fold c. fold ok.
  destruct ok; simpl.
  - run. eexists. split; [rewrite <- app_assoc; reflexivity|].
    split; [simpl; now rewrite Hov|].
    eapply same_but_overlays_trans; [exact Hsame|].
    apply same_but_overlays_array.
  - exists s0. auto.
Qed.

(** *** Overlay manager: round trip and frame *)

Lemma object_refs_app (o : N) (t1 t2 : list Event) :
  object_refs o (t1 ++ t2) = object_refs o t1 + object_refs o t2.
Proof.
  induction t1 as [|e t IH]; simpl; [reflexivity|].
  destruct e; rewrite ?IH; lia.
Qed.

(** X9. Association followed by deassociation is a round trip: when a
    subpicture that was no member has been associated with success, its
    deassociation asks the driver once, gives the overlay set its former
    members in their former order, and leaves the number of references the
    surface holds on the subpicture where it was before the association. *)
Theorem associate_deassociate_round_trip
    (s s1 : GstVaapiSurface) (sp : GstVaapiSubpicture)
    (src dst : option GstVaapiRectangle) (w w1 : World) :
  ~ In sp (overlays s) ->
  gst_vaapi_surface_associate_subpicture s (Some sp) src dst w
    = Some ((true, s1), w1) ->
  exists d s2,
    display s = Some d /\
    let c := VaDeassociateSubpicture (subpicture_object_id sp) (object_id s) in
    let w2 := {| va := fst (va_call (va w1) c);
                 trace := trace w1 ++ member_teardown d s sp |} in
    gst_vaapi_surface_deassociate_subpicture s1 sp w1
      = Some ((vaapi_check_status (reply_status (snd (va_call (va w1) c))), s2),
              w2) /\
    overlays s2 = overlays s /\ same_but_overlays s s2 /\
    object_refs sp (trace w2) = object_refs sp (trace w).
Proof.
  intros Hn Hrun.
  destruct (associate_shape _ _ _ _ _ _ _ _ Hrun)
    as (Hsame & Hov & Hlive).
  destruct (Hlive eq_refl) as (Hid & d & Hd).
  rewrite (remove_fast_absent _ _ Hn) in Hov. simpl in Hov.
  destruct (associate_success _ _ _ _ _ _ _ Hrun)
    as (d' & src' & Hd' & _ & _ & Hcase).
  rewrite (remove_fast_absent _ _ Hn) in Hcase. destruct Hcase as [_ Ht].
  assert (d' = d) by congruence. subst d'.
  pose proof Hsame as (Hsd & Hsi & _).
  assert (Hsub : subpictures s1 = Some (overlays s ++ [sp])).
  { pose proof Hov as Hov'. unfold overlays at 1 in Hov'.
    destruct (subpictures s1) as [a1|]; [now rewrite Hov'|].
    symmetry in Hov'. apply app_eq_nil in Hov'.
    destruct Hov' as [_ Hnil]. discriminate Hnil. }
  exists d, (set_subpictures s1 (Some (overlays s))).
  split; [exact Hd|]. intros c w2. subst c w2.
  unfold gst_vaapi_surface_deassociate_subpicture.
  assert (Hlast : g_ptr_array_remove_fast (overlays s ++ [sp]) sp
                  = Some (overlays s)) by exact (remove_fast_last _ _ Hn).
  rewrite Hsub. cbv beta iota. rewrite Hlast.
  assert (Hd1 : display (set_subpictures s1 (Some (overlays s))) = Some d)
    by (simpl; congruence).
  assert (Hid1 : object_id (set_subpictures s1 (Some (overlays s)))
                 <> VA_INVALID_SURFACE) by (simpl; congruence).
  rewrite (bind_some _ _ _ _ _
             (deassociate_live _ d sp w1 Hd1 Hid1)).
  run. unfold member_teardown. rewrite Hsi, <- !app_assoc. simpl.
  split; [reflexivity|]. split; [reflexivity|].
  split; [eapply same_but_overlays_trans;
            [exact Hsame|apply same_but_overlays_array]|].
  rewrite Ht, !object_refs_app. unfold member_association. simpl.
  rewrite N.eqb_refl. lia.
Qed.

(** *** Bulk rebuild *)

Lemma overlay_rectangles_frame (d : GstVaapiDisplay)
    (rects : list GstVideoOverlayRectangle) :
  forall (s s' : GstVaapiSurface) (w w' : World) (r : bool),
    overlay_rectangles s d rects w = Some ((r, s'), w') ->
    same_but_overlays s s'.
Proof.
  induction rects as [|rect rest IH]; intros s s' w w' r; simpl.
  - intros H. injection H as <- <- <-. apply same_but_overlays_refl.
  - unfold bind at 1. unfold collaborate at 1.
    destruct (gst_vaapi_subpicture_new_from_overlay_rectangle (va w) d rect)
      as [st sp].
    destruct (gst_vaapi_surface_associate_subpicture s sp None
                (Some (sub_rect_of s rect)) {| va := st; trace := trace w |})
      as [[[ok s1] w1]|] eqn:Hrun;
      [|unfold bind; rewrite Hrun; discriminate].
    rewrite (bind_some _ _ _ _ _ Hrun).
    assert (Hs1 : same_but_overlays s s1).
    { destruct sp as [p|].
      - eapply associate_shape; exact Hrun.
      - injection Hrun as <- <- <-. apply same_but_overlays_refl. }
    destruct ok; simpl.
    + destruct sp as [p|]; simpl; run; intros H;
        (eapply same_but_overlays_trans; [exact Hs1|eapply IH; exact H]).
    + destruct sp as [p|]; simpl; run; intros H; injection H as <- <- <-;
        exact Hs1.
Qed.

(** The clearing of the overlay set always returns, leaves no array and
    changes nothing else of the surface. *)
Lemma destroy_subpictures_runs (s : GstVaapiSurface) (w : World) :
  exists s' w',
    gst_vaapi_surface_destroy_subpictures s w = Some (s', w') /\
    subpictures s' = None /\ same_but_overlays s s' /\
    (subpictures s = None -> s' = s /\ w' = w).
Proof.
  unfold gst_vaapi_surface_destroy_subpictures.
  destruct (subpictures s) as [a|] eqn:Hs.
  - destruct (foreach_destroy_quiet s a w) as (st & evs & Hrun & _).
    rewrite (bind_some _ _ _ _ _ Hrun).
    do 2 eexists. split; [reflexivity|]. split; [reflexivity|].
    split; [apply same_but_overlays_array|discriminate].
  - exists s, w. split; [reflexivity|]. split; [exact Hs|].
    split; [apply same_but_overlays_refl|auto].
Qed.

Lemma overlay_frame (s : GstVaapiSurface) :
  (forall sp src dst w r s' w',
      gst_vaapi_surface_associate_subpicture s sp src dst w
        = Some ((r, s'), w') ->
      same_but_overlays s s') /\
  (forall sp w r s' w',
      gst_vaapi_surface_deassociate_subpicture s sp w = Some ((r, s'), w') ->
      same_but_overlays s s') /\
  (forall composition propagate_context w r s' w',
      gst_vaapi_surface_set_subpictures_from_composition s composition
        propagate_context w = Some ((r, s'), w') ->
      same_but_overlays s s').
Proof.
  split; [|split].
  - intros [p|] src dst w r s' w' H.
    + eapply associate_shape; exact H.
    + injection H as <- <- <-. apply same_but_overlays_refl.
  - intros sp w r s' w'. unfold gst_vaapi_surface_deassociate_subpicture.
    destruct (subpictures s) as [a|];
      [|intros H; injection H as <- <- <-; apply same_but_overlays_refl].
    destruct (g_ptr_array_remove_fast a sp) as [a'|];
      [|intros H; injection H as <- <- <-; apply same_but_overlays_refl].
    destruct (deassociate_backend (set_subpictures s (Some a')) sp w)
      as (r1 & w1 & Hrun & _).
    rewrite (bind_some _ _ _ _ _ Hrun). run.
    intros H. injection H as <- <- <-. apply same_but_overlays_array.
  - intros composition propagate_context w r s' w'.
    unfold gst_vaapi_surface_set_subpictures_from_composition.
    destruct (if propagate_context then parent_context s else None) as [ctx|].
    + unfold bind, collaborate.
      destruct (gst_vaapi_context_apply_composition (va w) ctx composition).
      intros H. injection H as <- <- <-. apply same_but_overlays_refl.
    + destruct (display s) as [d|];
        [|intros H; injection H as <- <- <-; apply same_but_overlays_refl].
      destruct (destroy_subpictures_runs s w)
        as (s1 & w1 & Hrun & _ & Hs1 & _).
      rewrite (bind_some _ _ _ _ _ Hrun).
      destruct composition as [rects|].
      * intros H. eapply same_but_overlays_trans; [exact Hs1|].
        eapply overlay_rectangles_frame; exact H.
      * intros H. injection H as <- <- <-. exact Hs1.
Qed.

(** X10. The overlay manager never touches anything of a surface but the
    overlay array: display, handle, buffer proxy, format, size, parent
    context and chroma type are the same after an association, a
    deassociation or a bulk rebuild, whatever the outcome. *)
Theorem overlay_operations_frame (s : GstVaapiSurface) :
  (forall sp src dst w r s' w',
      gst_vaapi_surface_associate_subpicture s sp src dst w
        = Some ((r, s'), w') ->
      same_but_overlays s s') /\
  (forall sp w r s' w',
      gst_vaapi_surface_deassociate_subpicture s sp w = Some ((r, s'), w') ->
      same_but_overlays s s') /\
  (forall composition propagate_context w r s' w',
      gst_vaapi_surface_set_subpictures_from_composition s composition
        propagate_context w = Some ((r, s'), w') ->
      same_but_overlays s s').
Proof. exact (overlay_frame s). Qed.

(** X11. gst_vaapi_surface_set_subpictures_from_composition with a NULL
    composition, on a surface with a display and without delegation to a
    parent context, returns TRUE and leaves the surface without overlay
    array; on a live surface every former member has been deassociated in
    the driver and released, in array order.  Doing it again returns TRUE
    and changes neither the surface nor the world. *)
Theorem clear_overlays_idempotent
    (s : GstVaapiSurface) (d : GstVaapiDisplay) (propagate_context : bool)
    (w : World) :
  display s = Some d ->
  propagate_context = false \/ parent_context s = None ->
  exists s' w',
    gst_vaapi_surface_set_subpictures_from_composition s None
      propagate_context w = Some ((true, s'), w') /\
    subpictures s' = None /\ same_but_overlays s s' /\
    (object_id s <> VA_INVALID_SURFACE ->
     trace w' = trace w ++ overlay_teardown d s) /\
    gst_vaapi_surface_set_subpictures_from_composition s' None
      propagate_context w' = Some ((true, s'), w').
Proof.
  intros Hd Hnodel.
  assert (Hgate : forall s0, parent_context s0 = parent_context s ->
             (if propagate_context then parent_context s0 else None) = None).
  { intros s0 Hp. destruct Hnodel as [->|Hnone]; [reflexivity|].
    rewrite Hp, Hnone. now destruct propagate_context. }
  unfold gst_vaapi_surface_set_subpictures_from_composition at 1.
  rewrite (Hgate s eq_refl), Hd.
  destruct (destroy_subpictures_runs s w)
    as (s1 & w1 & Hrun & Hnone1 & Hs1 & _).
  rewrite (bind_some _ _ _ _ _ Hrun).
  exists s1, w1. split; [reflexivity|]. split; [exact Hnone1|].
  split; [exact Hs1|]. split.
  - intros Hid. revert Hrun.
    unfold gst_vaapi_surface_destroy_subpictures, overlay_teardown, overlays.
    destruct (subpictures s) as [a|].
    + destruct (foreach_destroy_subpicture s d a Hd Hid w) as [st Hfe].
      rewrite (bind_some _ _ _ _ _ Hfe).
      intros H. injection H as <- <-. reflexivity.
    + intros H. injection H as <- <-. simpl. now rewrite app_nil_r.
  - unfold gst_vaapi_surface_set_subpictures_from_composition.
    pose proof Hs1 as (Hsd & _ & _ & _ & _ & _ & Hsp & _).
    rewrite (Hgate s1 Hsp), Hsd, Hd.
    destruct (destroy_subpictures_runs s1 w1) as (s2 & w2 & Hrun2 & _ & _ & Hsame).
    destruct (Hsame Hnone1) as [-> ->].
    rewrite (bind_some _ _ _ _ _ Hrun2). reflexivity.
Qed.

(** One turn of the loop over the rectangles. *)
Lemma overlay_rectangles_cons (s : GstVaapiSurface) (d : GstVaapiDisplay)
    (rect : GstVideoOverlayRectangle)
    (rest : list GstVideoOverlayRectangle) (w : World) :
  overlay_rectangles s d (rect :: rest) w
  = let (st, sp) :=
      gst_vaapi_subpicture_new_from_overlay_rectangle (va w) d rect in
    match gst_vaapi_surface_associate_subpicture s sp None
            (Some (sub_rect_of s rect)) {| va := st; trace := trace w |} with
    | Some ((ok, s2), w2) =>
        let w3 := match sp with
                  | Some p => {| va := va w2; trace := trace w2 ++ [EvUnref p] |}
                  | None => w2
                  end in
        if ok then overlay_rectangles s2 d rest w3
        else Some ((false, s2), w3)
    | None => None
    end.
Proof.
  simpl. unfold bind at 1. unfold collaborate at 1.
  destruct (gst_vaapi_subpicture_new_from_overlay_rectangle (va w) d rect)
    as [st sp].
  unfold bind at 1.
  destruct (gst_vaapi_surface_associate_subpicture s sp None
              (Some (sub_rect_of s rect)) {| va := st; trace := trace w |})
    as [[[ok s2] w2]|]; [|reflexivity].
  destruct ok, sp as [p|]; simpl; run; reflexivity.
Qed.

Lemma overlay_rectangles_prefix (d : GstVaapiDisplay)
    (pre rest : list GstVideoOverlayRectangle) :
  forall (s s1 : GstVaapiSurface) (w w1 : World) (r : bool),
    overlay_rectangles s d pre w = Some ((r, s1), w1) ->
    overlay_rectangles s d (pre ++ rest) w
    = if r then overlay_rectangles s1 d rest w1 else Some ((false, s1), w1).
Proof.
  induction pre as [|rect t IH]; intros s s1 w w1 r.
  - simpl. intros H. injection H as <- <- <-. reflexivity.
  - rewrite <- app_comm_cons, !overlay_rectangles_cons.
    destruct (gst_vaapi_subpicture_new_from_overlay_rectangle (va w) d rect)
      as [st sp].
    destruct (gst_vaapi_surface_associate_subpicture s sp None
                (Some (sub_rect_of s rect)) {| va := st; trace := trace w |})
      as [[[ok s2] w2]|]; [|discriminate].
    destruct ok; simpl.
    + apply IH.
    + intros H. injection H as <- <- <-. reflexivity.
Qed.

(** X13. The bulk rebuild stops at the first rectangle whose association
    fails: when it returns FALSE on a composition, it returns the same
    FALSE, with the same surface and the same world, on every composition
    that continues it; the rectangles after the failing one are never
    looked at. *)
Theorem rebuild_stops_at_first_failure
    (s s1 : GstVaapiSurface) (pre rest : list GstVideoOverlayRectangle)
    (propagate_context : bool) (w w1 : World) :
  propagate_context = false \/ parent_context s = None ->
  gst_vaapi_surface_set_subpictures_from_composition s (Some pre)
    propagate_context w = Some ((false, s1), w1) ->
  gst_vaapi_surface_set_subpictures_from_composition s (Some (pre ++ rest))
    propagate_context w = Some ((false, s1), w1).
Proof.
  intros Hnodel.
  assert (Hgate : (if propagate_context then parent_context s else None)
                  = None).
  { destruct Hnodel as [->|Hnone]; [reflexivity|].
    rewrite Hnone. now destruct propagate_context. }
  unfold gst_vaapi_surface_set_subpictures_from_composition.
  rewrite Hgate.
  destruct (display s) as [d|]; [|auto].
  destruct (destroy_subpictures_runs s w) as (s0 & w0 & Hrun & _).
  rewrite !(bind_some _ _ _ _ _ Hrun).
  intros H. rewrite (overlay_rectangles_prefix d pre rest _ _ _ _ _ H).
  reflexivity.
Qed.

(** *** What the operations leave alone *)

Lemma creation_keeps (s : GstVaapiSurface) :
  (forall chroma w_ h_ W r s' W',
      gst_vaapi_surface_create s chroma w_ h_ W = Some ((r, s'), W') ->
      display s' = display s /\ subpictures s' = subpictures s /\
      parent_context s' = parent_context s /\
      extbuf_proxy s' = extbuf_proxy s) /\
  (forall vip flags W r s' W',
      gst_vaapi_surface_create_full s vip flags W = Some ((r, s'), W') ->
      display s' = display s /\ subpictures s' = subpictures s /\
      parent_context s' = parent_context s /\
      extbuf_proxy s' = extbuf_proxy s) /\
  (forall proxy vip W r s' W',
      gst_vaapi_surface_create_from_buffer_proxy s proxy vip W
        = Some ((r, s'), W') ->
      display s' = display s /\ subpictures s' = subpictures s /\
      parent_context s' = parent_context s).
Proof.
  split; [|split].
  - intros chroma w_ h_ W r s' W'. unfold gst_vaapi_surface_create.
    destruct (_ =? 0); [intros H; injection H as <- <- <-; auto|].
    destruct (display s) as [d|] eqn:Hd; [|discriminate]. run.
    destruct (va_call (va W) _) as [st rp]; simpl.
    destruct (vaapi_check_status (reply_status rp)); simpl; intros H;
      injection H as <- <- <-; simpl; auto.
  - intros vip flags W r s' W'. unfold gst_vaapi_surface_create_full.
    destruct (VA_CHECK_VERSION 0 34 0);
      [|intros H; injection H as <- <- <-; auto].
    destruct (gst_vaapi_video_format_to_va_format (vi_format vip)) as [vf|];
      [|intros H; injection H as <- <- <-; auto].
    destruct (_ =? 0); [intros H; injection H as <- <- <-; auto|].
    destruct (_ =? 0); [intros H; injection H as <- <- <-; auto|].
    destruct (display s) as [d|] eqn:Hd; [|discriminate]. run.
    destruct (va_call (va W) _) as [st rp]; simpl.
    destruct (vaapi_check_status (reply_status rp)); simpl; intros H;
      injection H as <- <- <-; simpl; auto.
  - intros proxy vip W r s' W'.
    unfold gst_vaapi_surface_create_from_buffer_proxy.
    destruct (VA_CHECK_VERSION 0 36 0);
      [|intros H; injection H as <- <- <-; auto].
    rewrite (bind_some _ _ _ _ _ (proxy_replace_some (extbuf_proxy s) proxy W)).
    destruct (gst_vaapi_video_format_to_va_format (vi_format vip)) as [vf|];
      [|intros H; injection H as <- <- <-; auto].
    destruct (_ =? 0); [intros H; injection H as <- <- <-; auto|].
    destruct (_ =? 0); [intros H; injection H as <- <- <-; auto|].
    fields.
    destruct (display s) as [d|] eqn:Hd; [|discriminate]. run.
    destruct (va_call (va W) _) as [st rp]; simpl.
    destruct (vaapi_check_status (reply_status rp)); simpl; intros H;
      injection H as <- <- <-; simpl; auto.
Qed.

(** X12. A creation strategy writes format, chroma type, size and handle
    only: display, overlay array and parent context are untouched by all
    three strategies, whatever the outcome, and the buffer proxy by the two
    that are not given one. *)
Theorem creation_frame (s : GstVaapiSurface) :
  (forall chroma w_ h_ W r s' W',
      gst_vaapi_surface_create s chroma w_ h_ W = Some ((r, s'), W') ->
      display s' = display s /\ subpictures s' = subpictures s /\
      parent_context s' = parent_context s /\
      extbuf_proxy s' = extbuf_proxy s) /\
  (forall vip flags W r s' W',
      gst_vaapi_surface_create_full s vip flags W = Some ((r, s'), W') ->
      display s' = display s /\ subpictures s' = subpictures s /\
      parent_context s' = parent_context s /\
      extbuf_proxy s' = extbuf_proxy s) /\
  (forall proxy vip W r s' W',
      gst_vaapi_surface_create_from_buffer_proxy s proxy vip W
        = Some ((r, s'), W') ->
      display s' = display s /\ subpictures s' = subpictures s /\
      parent_context s' = parent_context s).
Proof. exact (creation_keeps s). Qed.

(** *** Synchronization *)

(** X14. gst_vaapi_surface_sync fails without touching the driver on a
    surface without display; otherwise it makes exactly one vaSyncSurface
    call on the surface's handle under the display lock and returns the
    driver's verdict. *)
Theorem sync_outcome (s : GstVaapiSurface) (w : World) :
  (display s = None -> gst_vaapi_surface_sync s w = Some (false, w)) /\
  (forall d, display s = Some d ->
     let c := VaSyncSurface (object_id s) in
     gst_vaapi_surface_sync s w
       = Some (vaapi_check_status (reply_status (snd (va_call (va w) c))),
               {| va := fst (va_call (va w) c);
                  trace := trace w ++ [EvLock d; EvCall c; EvUnlock d] |})).
Proof.
  split.
  - intros Hd. unfold gst_vaapi_surface_sync. rewrite Hd. reflexivity.
  - intros d Hd c. subst c. unfold gst_vaapi_surface_sync. rewrite Hd. run.
    destruct (va_call (va w) _) as [st r]; simpl.
    rewrite <- !app_assoc; simpl.
    destruct (vaapi_check_status (reply_status r)); reflexivity.
Qed.

(** *** Teardown, again *)

(** Teardown of a surface with a display always returns, and the record it
    leaves has no handle, no overlay array, no parent context and no
    buffer proxy. *)
Lemma destroy_final_state (s : GstVaapiSurface) (d : GstVaapiDisplay)
    (W : World) :
  display s = Some d ->
  exists W',
    gst_vaapi_surface_destroy s W
      = Some ({| display := Some d; object_id := VA_INVALID_SURFACE;
                 extbuf_proxy := None; format := format s; width := width s;
                 height := height s; subpictures := None;
                 parent_context := None; chroma_type := chroma_type s |}, W').
Proof.
  intros Hd.
  unfold gst_vaapi_surface_destroy.
  destruct (destroy_subpictures_runs s W)
    as (s1 & W1 & Hrun & Hnone & Hsame & _).
  rewrite (bind_some _ _ _ _ _ Hrun).
  destruct Hsame as (H1 & H2 & H3 & H4 & H5 & H6 & H7 & H8).
  unfold gst_vaapi_surface_set_parent_context, gst_vaapi_buffer_proxy_replace.
  rewrite Hd. fields.
  destruct (Z.eqb_spec (object_id s) VA_INVALID_SURFACE) as [Hid|Hid]; run.
  - destruct (extbuf_proxy s1) as [o|]; simpl; eexists;
      rewrite H1, H4, H5, H6, H8, Hd, Hnone, ?H2, ?Hid; reflexivity.
  - destruct (va_call (va W1) _) as [st r]; simpl.
    destruct (extbuf_proxy s1) as [o|]; simpl; eexists;
      rewrite H1, H4, H5, H6, H8, Hd, Hnone; reflexivity.
Qed.

(** X15. Teardown is idempotent: after gst_vaapi_surface_destroy the
    surface has the sentinel handle, no overlay array, no parent context
    and no buffer proxy, and a second teardown changes neither the surface
    nor the world; in particular it makes no driver call and releases no
    reference. *)
Theorem destroy_twice (s : GstVaapiSurface) (d : GstVaapiDisplay) (W : World) :
  display s = Some d ->
  exists s' W',
    gst_vaapi_surface_destroy s W = Some (s', W') /\
    gst_vaapi_surface_get_id s' = VA_INVALID_SURFACE /\
    subpictures s' = None /\ parent_context s' = None /\
    extbuf_proxy s' = None /\
    gst_vaapi_surface_destroy s' W' = Some (s', W').
Proof.
  intros Hd. destruct (destroy_final_state s d W Hd) as [W' Hrun].
  do 2 eexists. split; [exact Hrun|]. repeat (split; [reflexivity|]).
  reflexivity.
Qed.

(** *** The parent context *)

Lemma get_format_keeps (s s' : GstVaapiSurface) (w w' : World)
    (f : GstVideoFormat) :
  gst_vaapi_surface_get_format s w = Some ((f, s'), w') ->
  f = format s' /\ exists f', s' = set_format s f'.
Proof.
  assert (Hs : s = set_format s (format s)) by (destruct s; reflexivity).
  unfold gst_vaapi_surface_get_format.
  destruct (format s =? GST_VIDEO_FORMAT_UNKNOWN) eqn:Hu.
  - destruct (gst_vaapi_surface_derive_image s w) as [[o w1]|] eqn:Hrun;
      [|unfold bind; rewrite Hrun; discriminate].
    rewrite (bind_some _ _ _ _ _ Hrun).
    destruct o as [i|]; run.
    + destruct (image_format i =? GST_VIDEO_FORMAT_UNKNOWN);
        intros H; injection H as <- <- <-; split; try reflexivity;
        eexists; reflexivity.
    + rewrite Hu. intros H; injection H as <- <- <-; split; try reflexivity.
      eexists; reflexivity.
  - intros H. injection H as <- <- <-. split; [reflexivity|].
    exists (format s). exact Hs.
Qed.

(** X16. No operation of the surface ever stores a parent context: a
    surface without one has none after any creation strategy, format
    query, association, deassociation or bulk rebuild, and the setter and
    the teardown leave none whatever they are given.  On such a surface
    the bulk rebuild with the propagation flag set does exactly what it
    does with the flag clear: the composition is never handed to a parent
    context. *)
Theorem parent_context_never_set (s : GstVaapiSurface) :
  parent_context s = None ->
  (forall chroma w_ h_ W r s' W',
      gst_vaapi_surface_create s chroma w_ h_ W = Some ((r, s'), W') ->
      parent_context s' = None) /\
  (forall vip flags W r s' W',
      gst_vaapi_surface_create_full s vip flags W = Some ((r, s'), W') ->
      parent_context s' = None) /\
  (forall proxy vip W r s' W',
      gst_vaapi_surface_create_from_buffer_proxy s proxy vip W
        = Some ((r, s'), W') ->
      parent_context s' = None) /\
  (forall w f s' w',
      gst_vaapi_surface_get_format s w = Some ((f, s'), w') ->
      parent_context s' = None) /\
  (forall sp src dst w r s' w',
      gst_vaapi_surface_associate_subpicture s sp src dst w
        = Some ((r, s'), w') ->
      parent_context s' = None) /\
  (forall sp w r s' w',
      gst_vaapi_surface_deassociate_subpicture s sp w = Some ((r, s'), w') ->
      parent_context s' = None) /\
  (forall composition propagate_context w r s' w',
      gst_vaapi_surface_set_subpictures_from_composition s composition
        propagate_context w = Some ((r, s'), w') ->
      parent_context s' = None) /\
  (forall context,
      gst_vaapi_surface_get_parent_context
        (gst_vaapi_surface_set_parent_context s context) = None) /\
  (forall d W, display s = Some d ->
     exists s' W',
       gst_vaapi_surface_destroy s W = Some (s', W') /\
       parent_context s' = None) /\
  (forall composition w,
      gst_vaapi_surface_set_subpictures_from_composition s composition true w
      = gst_vaapi_surface_set_subpictures_from_composition s composition
          false w).
Proof.
  intros Hnone.
  destruct (creation_keeps s) as (Hc1 & Hc2 & Hc3).
  destruct (overlay_frame s) as (Ho1 & Ho2 & Ho3).
  repeat split.
  - intros chroma w_ h_ W r s' W' H.
    destruct (Hc1 _ _ _ _ _ _ _ H) as (_ & _ & Hp & _). congruence.
  - intros vip flags W r s' W' H.
    destruct (Hc2 _ _ _ _ _ _ H) as (_ & _ & Hp & _). congruence.
  - intros proxy vip W r s' W' H.
    destruct (Hc3 _ _ _ _ _ _ H) as (_ & _ & Hp). congruence.
  - intros w f s' w' H.
    destruct (get_format_keeps _ _ _ _ _ H) as (_ & f' & ->). exact Hnone.
  - intros sp src dst w r s' w' H.
    destruct (Ho1 _ _ _ _ _ _ _ H) as (_ & _ & _ & _ & _ & _ & Hp & _).
    congruence.
  - intros sp w r s' w' H.
    destruct (Ho2 _ _ _ _ _ H) as (_ & _ & _ & _ & _ & _ & Hp & _).
    congruence.
  - intros composition propagate_context w r s' w' H.
    destruct (Ho3 _ _ _ _ _ _ H) as (_ & _ & _ & _ & _ & _ & Hp & _).
    congruence.
  - intros d W Hd. destruct (destroy_final_state s d W Hd) as [W' Hrun].
    do 2 eexists. split; [exact Hrun|reflexivity].
  - intros composition w.
    unfold gst_vaapi_surface_set_subpictures_from_composition.
    rewrite Hnone. reflexivity.
Qed.

(** *** The attributes of the explicit-format strategy *)

Lemma store_length (arr : list Z) (i : nat) (v : Z) :
  length (store arr i v) = length arr.
Proof.
  revert i. induction arr as [|a t IH]; intros [|i]; simpl; auto.
Qed.

Lemma nth_store (arr : list Z) (i j : nat) (v : Z) :
  (i < length arr)%nat ->
  nth j (store arr i v) 0 = if Nat.eqb j i then v else nth j arr 0.
Proof.
  revert i j. induction arr as [|a t IH]; intros i j Hi; simpl in Hi; [lia|].
  destruct i as [|i], j as [|j]; simpl; try reflexivity.
  apply IH. lia.
Qed.

(** The loop that fills a plane array writes the planes below the plane
    count and leaves the others. *)
Lemma store_planes_nth (f : nat -> Z) (arr : list Z) (n : nat) :
  (n <= length arr)%nat ->
  length (store_planes n f arr) = length arr /\
  forall j, nth j (store_planes n f arr) 0
            = if Nat.ltb j n then f j else nth j arr 0.
Proof.
  unfold store_planes. induction n as [|n IH]; intros Hn.
  - simpl. split; [reflexivity|]. intros j. reflexivity.
  - destruct IH as [Hlen Hnth]; [lia|].
    rewrite seq_S, fold_left_app. simpl.
    split; [rewrite store_length; exact Hlen|].
    intros j. rewrite nth_store by (rewrite Hlen; lia).
    rewrite Hnth.
    destruct (Nat.eqb_spec j n) as [->|Hne].
    + rewrite (proj2 (Nat.ltb_lt n (S n))) by lia. reflexivity.
    + destruct (Nat.ltb_spec j n), (Nat.ltb_spec j (S n));
        try reflexivity; lia.
Qed.

(** X17. The attribute list of the explicit-format strategy.  The call
    always carries the pixel-format attribute with the fourcc of the
    negotiated format (as the int32_t the attribute holds).  Without any of
    the three allocation flags it carries nothing else; with one of them it
    carries the memory type and a descriptor that has the requested size
    and plane count, no backing buffer and the tiling bit clear.  Its
    pitches hold the strides of the video description exactly when fixed
    strides are requested, its offsets the plane offsets exactly when fixed
    offsets are requested, each as the uint32_t the array element holds
    (so a negative stride or an offset beyond 32 bits is stored modulo
    2^32), and zeros otherwise. *)
Theorem create_full_attributes
    (s : GstVaapiSurface) (d : GstVaapiDisplay) (vip : GstVideoInfo)
    (flags : Z) (vf : VAImageFormat) (W : World) :
  display s = Some d ->
  VA_CHECK_VERSION 0 34 0 = true ->
  gst_vaapi_video_format_to_va_format (vi_format vip) = Some vf ->
  gst_vaapi_video_format_get_chroma_type (vi_format vip) <> 0 ->
  from_GstVaapiChromaType
    (gst_vaapi_video_format_get_chroma_type (vi_format vip)) <> 0 ->
  (vi_n_planes vip <= 4)%nat ->
  let strides := flag_set flags GST_VAAPI_SURFACE_ALLOC_FLAG_FIXED_STRIDES in
  let offs := flag_set flags GST_VAAPI_SURFACE_ALLOC_FLAG_FIXED_OFFSETS in
  let needed :=
    flag_set flags GST_VAAPI_SURFACE_ALLOC_FLAG_LINEAR_STORAGE
    || strides || offs in
  let pixel :=
    {| attrib_type := VASurfaceAttribPixelFormat;
       attrib_flags := VA_SURFACE_ATTRIB_SETTABLE;
       attrib_value := VAGenericValueTypeInteger (as_gint32 (fourcc vf)) |} in
  let memory :=
    {| attrib_type := VASurfaceAttribMemoryType;
       attrib_flags := VA_SURFACE_ATTRIB_SETTABLE;
       attrib_value :=
         VAGenericValueTypeInteger VA_SURFACE_ATTRIB_MEM_TYPE_VA |} in
  exists attribs r s' W',
    gst_vaapi_surface_create_full s vip flags W = Some ((r, s'), W') /\
    trace W' = trace W ++
      [EvLock d;
       EvCall (VaCreateSurfaces
                 (from_GstVaapiChromaType
                    (gst_vaapi_video_format_get_chroma_type (vi_format vip)))
                 (as_guint32 (vi_width vip)) (as_guint32 (vi_height vip))
                 attribs);
       EvUnlock d] /\
    (needed = false -> attribs = [pixel]) /\
    (needed = true ->
     exists e,
       attribs =
         [pixel; memory;
          {| attrib_type := VASurfaceAttribExternalBufferDescriptor;
             attrib_flags := VA_SURFACE_ATTRIB_SETTABLE;
             attrib_value := VAGenericValueTypePointer e |}] /\
       pixel_format e = fourcc vf /\
       eb_width e = as_guint32 (vi_width vip) /\
       eb_height e = as_guint32 (vi_height vip) /\
       num_planes e = vi_n_planes vip /\
       buffers e = [] /\ num_buffers e = 0 /\ eb_flags e = 0 /\
       length (pitches e) = 4%nat /\ length (offsets e) = 4%nat /\
       forall j,
         nth j (pitches e) 0
           = (if strides && Nat.ltb j (vi_n_planes vip)
              then as_guint32 (vi_stride vip j) else 0) /\
         nth j (offsets e) 0
           = (if offs && Nat.ltb j (vi_n_planes vip)
              then as_guint32 (vi_offset vip j) else 0)).
Proof.
  intros Hd Hv Hvf Hc Hfc Hn. cbv zeta.
  unfold gst_vaapi_surface_create_full. rewrite Hv, Hvf.
  destruct (Z.eqb_spec
              (gst_vaapi_video_format_get_chroma_type (vi_format vip)) 0);
    [contradiction|].
  destruct (Z.eqb_spec
              (from_GstVaapiChromaType
                 (gst_vaapi_video_format_get_chroma_type (vi_format vip))) 0);
    [contradiction|].
  rewrite Hd. run.
  destruct (store_planes_nth (fun i => as_guint32 (vi_stride vip i))
              [0; 0; 0; 0] (vi_n_planes vip) Hn) as [Hlp Hp].
  destruct (store_planes_nth (fun i => as_guint32 (vi_offset vip i))
              [0; 0; 0; 0] (vi_n_planes vip) Hn) as [Hlo Ho].
  simpl in Hlp, Hlo.
  assert (Hzero : forall j, nth j [0; 0; 0; 0] 0 = 0).
  { intros [|[|[|[|[|j]]]]]; reflexivity. }
  remember (flag_set flags GST_VAAPI_SURFACE_ALLOC_FLAG_LINEAR_STORAGE) as lin.
  remember (flag_set flags GST_VAAPI_SURFACE_ALLOC_FLAG_FIXED_STRIDES) as str.
  remember (flag_set flags GST_VAAPI_SURFACE_ALLOC_FLAG_FIXED_OFFSETS) as off.
  clear Heqlin Heqstr Heqoff.
  match goal with
  | |- context [va_call (va W) (VaCreateSurfaces ?f ?a ?b ?l)] =>
      exists l
  end.
  destruct (va_call (va W) _) as [st rp]; simpl.
  rewrite <- !app_assoc; simpl.
  destruct (vaapi_check_status (reply_status rp)); simpl;
    do 3 eexists; (split; [reflexivity|]); (split; [reflexivity|]);
    destruct lin, str, off; simpl;
    (split;
     [intros H; try discriminate H; reflexivity
     |intros H; try discriminate H;
      eexists; (split; [reflexivity|]); simpl;
      repeat (split; [first [reflexivity|assumption]|]);
      intros j; split; rewrite ?Hp, ?Ho, ?Hzero;
      first [reflexivity|destruct j as [|[|[|[|[|j]]]]]; reflexivity]]).
Qed.

(** *** Creation with an explicit format and no flags *)

(** Without allocation flags the explicit-format strategy hands the driver
    no descriptor, so a success commits the requested format and size. *)
Lemma create_full_plain (s s' : GstVaapiSurface) (vip : GstVideoInfo)
    (W W' : World) :
  gst_vaapi_surface_create_full s vip 0 W = Some ((true, s'), W') ->
  exists id,
    s' = commit s (vi_format vip)
           (gst_vaapi_video_format_get_chroma_type (vi_format vip))
           (as_guint32 (vi_width vip)) (as_guint32 (vi_height vip)) id.
Proof.
  unfold gst_vaapi_surface_create_full.
  destruct (VA_CHECK_VERSION 0 34 0); [|discriminate].
  destruct (gst_vaapi_video_format_to_va_format (vi_format vip)) as [vf|];
    [|discriminate].
  destruct (_ =? 0); [discriminate|].
  destruct (_ =? 0); [discriminate|].
  destruct (display s) as [d|]; [|discriminate].
  unfold flag_set. simpl. run.
  destruct (va_call (va W) _) as [st rp]; simpl.
  destruct (vaapi_check_status (reply_status rp)); simpl; [|discriminate].
  intros H. injection H as <- <-. eexists. reflexivity.
Qed.

(** X18. A surface returned by gst_vaapi_surface_new_with_format reports
    the requested size and chroma type of the format, and its format query
    answers the requested format from the field, without a driver call,
    provided gst_video_info_set_format records the format and the size it
    is given (the size is a guint that the video description keeps as a
    gint and the surface reads back as unsigned) and the format is not
    "unknown". *)
Theorem new_with_format_reports_request
    (gst_video_info_set_format : GstVideoFormat -> Z -> Z -> GstVideoInfo)
    (dpy : option GstVaapiDisplay) (fmt : GstVideoFormat) (w_ h_ : Z)
    (W W' : World) (s : GstVaapiSurface) :
  vi_format (gst_video_info_set_format fmt w_ h_) = fmt ->
  as_guint32 (vi_width (gst_video_info_set_format fmt w_ h_)) = w_ ->
  as_guint32 (vi_height (gst_video_info_set_format fmt w_ h_)) = h_ ->
  fmt <> GST_VIDEO_FORMAT_UNKNOWN ->
  gst_vaapi_surface_new_with_format gst_video_info_set_format dpy fmt w_ h_ W
    = Some (Some s, W') ->
  gst_vaapi_surface_get_width s = w_ /\
  gst_vaapi_surface_get_height s = h_ /\
  gst_vaapi_surface_get_size s (Some 0) None = (Some w_, None) /\
  gst_vaapi_surface_get_chroma_type s
    = gst_vaapi_video_format_get_chroma_type fmt /\
  forall w, gst_vaapi_surface_get_format s w = Some ((fmt, s), w).
Proof.
  intros Hf Hw Hh Hfmt.
  unfold gst_vaapi_surface_new_with_format, gst_vaapi_surface_new_full,
    new_surface.
  unfold bind at 1. unfold collaborate.
  destruct (gst_vaapi_object_new (va W) dpy) as [st o].
  destruct o as [s0|]; [|discriminate].
  destruct (gst_vaapi_surface_create_full s0
              (gst_video_info_set_format fmt w_ h_) 0
              {| va := st; trace := trace W |})
    as [[[r s1] W1]|] eqn:Hcreate;
    [|unfold bind; rewrite Hcreate; discriminate].
  rewrite (bind_some _ _ _ _ _ Hcreate).
  destruct r; simpl.
  - intros H. injection H as <- <-.
    destruct (create_full_plain _ _ _ _ _ Hcreate) as [id ->].
    rewrite Hf, Hw, Hh.
    repeat (split; [reflexivity|]).
    intros w. unfold gst_vaapi_surface_get_format. simpl.
    destruct (Z.eqb_spec fmt GST_VIDEO_FORMAT_UNKNOWN); [contradiction|].
    reflexivity.
  - unfold bind.
    destruct (gst_vaapi_surface_unref_last s1 W1) as [[u W2]|]; discriminate.
Qed.

End Further.

(** * Concrete runs of the further properties *)

Lemma get_format_resolves_once_witness :
  let known := surface64 None in
  let unknown := fresh_surface (Some 1%N) in
  @gst_vaapi_surface_get_format ok_env known (world0 ok_env tt)
    = Some ((2, known), world0 ok_env tt) /\
  (exists c w',
     @gst_vaapi_surface_get_format ok_env unknown (world0 ok_env tt)
       = Some ((2, set_format unknown 2), w') /\
     trace w' = [EvLock 1%N; EvCall c; EvUnlock 1%N; EvUnref 900%N] /\
     @gst_vaapi_surface_get_format ok_env (set_format unknown 2) w'
       = Some ((2, set_format unknown 2), w')) /\
  (exists c w',
     @gst_vaapi_surface_get_format failing_env unknown (world0 failing_env tt)
       = Some ((GST_VIDEO_FORMAT_ENCODED,
                set_format unknown GST_VIDEO_FORMAT_ENCODED), w') /\
     trace w' = [EvLock 1%N; EvCall c; EvUnlock 1%N]).
Proof.
  intros known unknown. split; [|split].
  - apply (proj1 (@get_format_resolves_once ok_env known (world0 ok_env tt))).
    discriminate.
  - destruct (proj2 (@get_format_resolves_once ok_env unknown
                       (world0 ok_env tt)) 1%N eq_refl eq_refl)
      as (image & w1 & f & w' & Hderive & Hget & Hcase & _ & Hagain).
    vm_compute in Hderive. injection Hderive as <- <-.
    cbn in Hcase. destruct Hcase as [-> ->].
    eexists. eexists. split; [exact Hget|].
    split; [reflexivity|exact Hagain].
  - destruct (proj2 (@get_format_resolves_once failing_env unknown
                       (world0 failing_env tt)) 1%N eq_refl eq_refl)
      as (image & w1 & f & w' & Hderive & Hget & Hcase & _ & _).
    vm_compute in Hderive. injection Hderive as <- <-.
    cbn in Hcase. destruct Hcase as [-> ->].
    eexists. eexists. split; [exact Hget|]. reflexivity.
Defined.

Lemma creation_rejects_before_driver_witness :
  let s := fresh_surface (Some 1%N) in
  @gst_vaapi_surface_create ok_env s 0 64 64 (world0 ok_env tt)
    = Some ((false, s), world0 ok_env tt) /\
  @gst_vaapi_surface_create_full ok_env s (video64 1) 0 (world0 ok_env tt)
    = Some ((false, s), world0 ok_env tt) /\
  @gst_vaapi_surface_create_from_buffer_proxy ok_env s 5%N (video64 1)
    (world0 ok_env tt)
    = Some ((false, set_extbuf_proxy s (Some 5%N)),
            world_at ok_env tt [EvProxyRef 5%N]).
Proof.
  intros s.
  destruct (@creation_rejects_before_driver ok_env s (world0 ok_env tt))
    as (H1 & H2 & _ & H4).
  split; [apply H1; reflexivity|].
  split; [apply H2; right; left; reflexivity|].
  apply (H4 5%N (video64 1) eq_refl). left. reflexivity.
Defined.

Lemma surface_new_outcome_witness :
  (exists s',
      @gst_vaapi_surface_new ok_env (Some 1%N) 1 64 48 (world0 ok_env tt)
        = Some (Some s',
                world_at ok_env tt
                  [EvLock 1%N; EvCall (VaCreateSurfaces 1 64 48 []);
                   EvUnlock 1%N]) /\
      gst_vaapi_surface_get_id s' = 7 /\
      gst_vaapi_surface_get_width s' = 64 /\
      gst_vaapi_surface_get_height s' = 48) /\
  @gst_vaapi_surface_new failing_env (Some 1%N) 1 64 48 (world0 failing_env tt)
    = Some (None,
            world_at failing_env tt
              [EvLock 1%N; EvCall (VaCreateSurfaces 1 64 48 []);
               EvUnlock 1%N]) /\
  @gst_vaapi_surface_new ok_env (Some 1%N) 0 64 48 (world0 ok_env tt)
    = Some (None, world0 ok_env tt).
Proof.
  assert (Hborn : forall d, unborn (fresh_surface d)) by (repeat split).
  split; [|split].
  - destruct (proj2 (@surface_new_outcome ok_env (Some 1%N) 1 64 48
                       (world0 ok_env tt))
                tt (fresh_surface (Some 1%N)) 1%N eq_refl eq_refl (Hborn _))
      as [_ Hcall].
    destruct (proj2 (Hcall ltac:(discriminate)) eq_refl)
      as (s' & Hrun & Hid & _ & Hw & Hh & _).
    exists s'. auto.
  - destruct (proj2 (@surface_new_outcome failing_env (Some 1%N) 1 64 48
                       (world0 failing_env tt))
                tt (fresh_surface (Some 1%N)) 1%N eq_refl eq_refl (Hborn _))
      as [_ Hcall].
    exact (proj1 (Hcall ltac:(discriminate)) eq_refl).
  - destruct (proj2 (@surface_new_outcome ok_env (Some 1%N) 0 64 48
                       (world0 ok_env tt))
                tt (fresh_surface (Some 1%N)) 1%N eq_refl eq_refl (Hborn _))
      as [Hrej _].
    exact (Hrej eq_refl).
Defined.

Lemma surface_new_from_buffer_proxy_balance_witness :
  @gst_vaapi_surface_new_from_buffer_proxy ok_env (Some 1%N) (Some 5%N)
    (Some (video64 1)) (world0 ok_env tt)
  = Some (None, world_at ok_env tt [EvProxyRef 5%N; EvProxyUnref 5%N]) /\
  proxy_refs 5%N [EvProxyRef 5%N; EvProxyUnref 5%N] = proxy_refs 5%N [].
Proof.
  assert (Hrun :
    @gst_vaapi_surface_new_from_buffer_proxy ok_env (Some 1%N) (Some 5%N)
      (Some (video64 1)) (world0 ok_env tt)
    = Some (None, world_at ok_env tt [EvProxyRef 5%N; EvProxyUnref 5%N]))
    by (vm_compute; reflexivity).
  split; [exact Hrun|].
  refine (proj2 (proj2 (@surface_new_from_buffer_proxy_balance ok_env
                          (Some 1%N) (world0 ok_env tt)))
            5%N (video64 1) None _ _ Hrun).
  intros st s0 H. injection H as _ <-. repeat split.
Defined.

Lemma associate_result_is_membership_witness :
  let s := surface64 None in
  let dst := {| rect_x := 0; rect_y := 0; rect_width := 32; rect_height := 32 |} in
  (exists s' w',
      @gst_vaapi_surface_associate_subpicture ok_env s (Some 11%N) None
        (Some dst) (world0 ok_env tt) = Some ((true, s'), w') /\
      exists a, overlays s' = a ++ [11%N] /\ ~ In 11%N a) /\
  (exists s' w',
      @gst_vaapi_surface_associate_subpicture failing_env
        (surface64 (Some [11%N; 12%N])) (Some 11%N) None (Some dst)
        (world0 failing_env tt) = Some ((false, s'), w') /\
      ~ In 11%N (overlays s') /\ In 12%N (overlays s')).
Proof.
  intros s dst. split.
  - do 2 eexists. split; [lazy; reflexivity|].
    refine (proj1 (@associate_result_is_membership ok_env s _ 11%N None
                     (Some dst) (world0 ok_env tt) _ true (NoDup_nil _) _)
              eq_refl).
    lazy. reflexivity.
  - do 2 eexists. split; [lazy; reflexivity|].
    assert (Hnd : NoDup (overlays (surface64 (Some [11%N; 12%N])))).
    { simpl. constructor; [intros [H|[]]; discriminate H|].
      constructor; [intros []|constructor]. }
    destruct (@associate_result_is_membership failing_env
                (surface64 (Some [11%N; 12%N])) _ 11%N None (Some dst)
                (world0 failing_env tt) _ false Hnd ltac:(lazy; reflexivity))
      as (_ & Hout & Hothers).
    split; [exact (Hout eq_refl)|].
    apply (Hothers 12%N); [discriminate|]. simpl. auto.
Defined.

Lemma deassociate_member_drops_membership_witness :
  let s := surface64 (Some [11%N; 12%N]) in
  exists a',
    @gst_vaapi_surface_deassociate_subpicture failing_env s 11%N
      (world0 failing_env tt)
    = Some ((false, set_subpictures s (Some a')),
            world_at failing_env tt
              [EvLock 1%N; EvCall (VaDeassociateSubpicture 11 7);
               EvUnlock 1%N; EvUnref 11%N]) /\
    ~ In 11%N a' /\ length (overlays s) = S (length a').
Proof.
  intros s.
  assert (Hnd : NoDup (overlays s)).
  { simpl. constructor; [intros [H|[]]; discriminate H|].
    constructor; [intros []|constructor]. }
  destruct (@deassociate_member_drops_membership failing_env s 1%N 11%N
              (world0 failing_env tt) eq_refl ltac:(discriminate) Hnd
              ltac:(simpl; auto))
    as (a' & Hrun & Hout & Hlen & _).
  exists a'. split; [exact Hrun|]. split; assumption.
Defined.

Lemma associate_refused_without_driver_witness :
  let dead := fresh_surface (Some 1%N) in
  exists s',
    @gst_vaapi_surface_associate_subpicture ok_env dead (Some 11%N) None None
      (world0 ok_env tt) = Some ((false, s'), world0 ok_env tt) /\
    overlays s' = [].
Proof.
  intros dead.
  destruct (proj2 (@associate_refused_without_driver ok_env dead None None
                     (world0 ok_env tt))
              11%N ltac:(intros [])
              ltac:(right; left; reflexivity))
    as (s' & Hrun & Hov & _).
  exists s'. split; assumption.
Defined.

Lemma associate_new_member_defaults_witness :
  let s := surface64 None in
  let src := {| rect_x := 0; rect_y := 0; rect_width := 16; rect_height := 16 |} in
  let dst := {| rect_x := 0; rect_y := 0; rect_width := 64; rect_height := 64 |} in
  exists s',
    @gst_vaapi_surface_associate_subpicture ok_env s (Some 11%N) None None
      (world0 ok_env tt)
    = Some ((true, s'),
            world_at ok_env tt
              [EvLock 1%N; EvCall (VaAssociateSubpicture 11 7 src dst 0);
               EvUnlock 1%N; EvRef 11%N]) /\
    overlays s' = [11%N].
Proof.
  intros s src dst.
  destruct (@associate_new_member_defaults ok_env s 1%N 11%N
              {| image_addr := 1011%N; image_object_id := 11;
                 image_width := 16; image_height := 16; image_format := 2 |}
              (world0 ok_env tt) eq_refl ltac:(discriminate)
              ltac:(intros []) eq_refl)
    as (s' & Hrun & Hov & _).
  exists s'. split; [exact Hrun|exact Hov].
Defined.

Lemma associate_deassociate_round_trip_witness :
  let s := surface64 (Some [12%N]) in
  exists s1 w1 s2 w2,
    @gst_vaapi_surface_associate_subpicture ok_env s (Some 11%N) None None
      (world0 ok_env tt) = Some ((true, s1), w1) /\
    @gst_vaapi_surface_deassociate_subpicture ok_env s1 11%N w1
      = Some ((true, s2), w2) /\
    overlays s2 = [12%N] /\
    object_refs 11%N (trace w2) = 0.
Proof.
  intros s. do 2 eexists.
  assert (Hrun : forall s1 w1,
            Some ((true, s1), w1)
            = @gst_vaapi_surface_associate_subpicture ok_env s (Some 11%N)
                None None (world0 ok_env tt) ->
            exists s2 w2,
              @gst_vaapi_surface_deassociate_subpicture ok_env s1 11%N w1
                = Some ((true, s2), w2) /\
              overlays s2 = [12%N] /\ object_refs 11%N (trace w2) = 0).
  { intros s1 w1 H. symmetry in H.
    destruct (@associate_deassociate_round_trip ok_env s s1 11%N None None
                (world0 ok_env tt) w1
                ltac:(simpl; intros [H0|[]]; discriminate H0) H)
      as (d & s2 & _ & Hde & Hov & _ & Hrefs).
    do 2 eexists. split; [exact Hde|]. split; [exact Hov|exact Hrefs]. }
  destruct (Hrun _ _ ltac:(lazy; reflexivity)) as (s2 & w2 & H1 & H2 & H3).
  exists s2, w2. split; [lazy; reflexivity|]. auto.
Defined.

Lemma overlay_operations_frame_witness :
  let s := surface64 (Some [12%N]) in
  let composition :=
    Some [ {| overlay_addr := 11%N; render_x := 0; render_y := 0;
              render_width := 32; render_height := 32 |} ] in
  exists s' w',
    @gst_vaapi_surface_set_subpictures_from_composition ok_env s composition
      false (world0 ok_env tt) = Some ((true, s'), w') /\
    same_but_overlays s s' /\
    overlays s' = [11%N].
Proof.
  intros s composition.
  destruct (@gst_vaapi_surface_set_subpictures_from_composition ok_env s
              composition false (world0 ok_env tt))
    as [[[r s'] w']|] eqn:Hrun; [|vm_compute in Hrun; discriminate Hrun].
  pose proof (proj2 (proj2 (@overlay_operations_frame ok_env s))
                composition false (world0 ok_env tt) r s' w' Hrun) as Hframe.
  vm_compute in Hrun. injection Hrun as <- <- <-.
  do 2 eexists. split; [reflexivity|]. split; [exact Hframe|reflexivity].
Defined.

Lemma clear_overlays_idempotent_witness :
  let s := surface64 (Some [11%N; 12%N]) in
  exists s' w',
    @gst_vaapi_surface_set_subpictures_from_composition ok_env s None true
      (world0 ok_env tt) = Some ((true, s'), w') /\
    subpictures s' = None /\
    trace w' = [EvLock 1%N; EvCall (VaDeassociateSubpicture 11 7);
                EvUnlock 1%N; EvUnref 11%N;
                EvLock 1%N; EvCall (VaDeassociateSubpicture 12 7);
                EvUnlock 1%N; EvUnref 12%N] /\
    @gst_vaapi_surface_set_subpictures_from_composition ok_env s' None true w'
      = Some ((true, s'), w').
Proof.
  intros s.
  destruct (@clear_overlays_idempotent ok_env s 1%N true (world0 ok_env tt)
              eq_refl ltac:(right; reflexivity))
    as (s' & w' & Hrun & Hnone & _ & Ht & Hagain).
  exists s', w'. split; [exact Hrun|]. split; [exact Hnone|].
  split; [exact (Ht ltac:(discriminate))|exact Hagain].
Defined.

Lemma creation_frame_witness :
  let s := surface64 (Some [12%N]) in
  exists s' W',
    @gst_vaapi_surface_create_from_buffer_proxy ok_env s 5%N (video64 2)
      (world0 ok_env tt) = Some ((true, s'), W') /\
    display s' = Some 1%N /\ subpictures s' = Some [12%N] /\
    parent_context s' = None.
Proof.
  intros s.
  destruct (@gst_vaapi_surface_create_from_buffer_proxy ok_env s 5%N
              (video64 2) (world0 ok_env tt))
    as [[[r s'] W']|] eqn:Hrun; [|vm_compute in Hrun; discriminate Hrun].
  pose proof (proj2 (proj2 (@creation_frame ok_env s))
                5%N (video64 2) (world0 ok_env tt) r s' W' Hrun) as Hframe.
  vm_compute in Hrun. injection Hrun as <- <- <-.
  do 2 eexists. split; [reflexivity|]. exact Hframe.
Defined.

Lemma rebuild_stops_at_first_failure_witness :
  let r1 := {| overlay_addr := 11%N; render_x := 0; render_y := 0;
               render_width := 32; render_height := 32 |} in
  let r2 := {| overlay_addr := 12%N; render_x := 8; render_y := 8;
               render_width := 16; render_height := 16 |} in
  exists s1 w1,
    @gst_vaapi_surface_set_subpictures_from_composition failing_env
      (surface64 None) (Some [r1]) false (world0 failing_env tt)
      = Some ((false, s1), w1) /\
    @gst_vaapi_surface_set_subpictures_from_composition failing_env
      (surface64 None) (Some ([r1] ++ [r2; r1])) false (world0 failing_env tt)
      = Some ((false, s1), w1).
Proof.
  intros r1 r2. do 2 eexists. split; [lazy; reflexivity|].
  apply (@rebuild_stops_at_first_failure failing_env (surface64 None) _
           [r1] [r2; r1] false (world0 failing_env tt) _).
  - left. reflexivity.
  - lazy. reflexivity.
Defined.

Lemma sync_outcome_witness :
  @gst_vaapi_surface_sync ok_env (fresh_surface None) (world0 ok_env tt)
    = Some (false, world0 ok_env tt) /\
  @gst_vaapi_surface_sync failing_env (surface64 None) (world0 failing_env tt)
    = Some (false,
            world_at failing_env tt
              [EvLock 1%N; EvCall (VaSyncSurface 7); EvUnlock 1%N]).
Proof.
  split.
  - apply (proj1 (@sync_outcome ok_env (fresh_surface None)
                    (world0 ok_env tt))).
    reflexivity.
  - apply (proj2 (@sync_outcome failing_env (surface64 None)
                    (world0 failing_env tt)) 1%N).
    reflexivity.
Defined.

Lemma destroy_twice_witness :
  exists s' W',
    @gst_vaapi_surface_destroy ok_env (surface64 (Some [11%N]))
      (world0 ok_env tt) = Some (s', W') /\
    gst_vaapi_surface_get_id s' = VA_INVALID_SURFACE /\
    @gst_vaapi_surface_destroy ok_env s' W' = Some (s', W').
Proof.
  destruct (@destroy_twice ok_env (surface64 (Some [11%N])) 1%N
              (world0 ok_env tt) eq_refl)
    as (s' & W' & Hrun & Hid & _ & _ & _ & Hagain).
  exists s', W'. auto.
Defined.

Lemma parent_context_never_set_witness :
  let s := surface64 (Some [11%N]) in
  gst_vaapi_surface_get_parent_context
    (gst_vaapi_surface_set_parent_context s (Some 3%N)) = None /\
  @gst_vaapi_surface_set_subpictures_from_composition ok_env s None true
    (world0 ok_env tt)
  = @gst_vaapi_surface_set_subpictures_from_composition ok_env s None false
      (world0 ok_env tt).
Proof.
  intros s.
  destruct (@parent_context_never_set ok_env s eq_refl)
    as (_ & _ & _ & _ & _ & _ & _ & Hset & _ & Hflag).
  split; [exact (Hset (Some 3%N))|exact (Hflag None (world0 ok_env tt))].
Defined.

Lemma create_full_attributes_witness :
  let vip :=
    {| vi_format := 2; vi_width := 64; vi_height := 64; vi_n_planes := 2%nat;
       vi_stride := fun _ => -64;
       vi_offset := fun i => Z.of_nat i * 4294967312 |} in
  exists attribs e r s' W',
    @gst_vaapi_surface_create_full ok_env (fresh_surface (Some 1%N))
      vip 6 (world0 ok_env tt) = Some ((r, s'), W') /\
    trace W' = [EvLock 1%N; EvCall (VaCreateSurfaces 1 64 64 attribs);
                EvUnlock 1%N] /\
    length attribs = 3%nat /\
    find_descriptor attribs = Some e /\
    nth 0 (pitches e) 0 = 4294967232 /\ nth 1 (pitches e) 0 = 4294967232 /\
    nth 2 (pitches e) 0 = 0 /\
    nth 0 (offsets e) 0 = 0 /\ nth 1 (offsets e) 0 = 16 /\
    nth 2 (offsets e) 0 = 0.
Proof.
  intros vip.
  destruct (@create_full_attributes ok_env (fresh_surface (Some 1%N)) 1%N
              vip 6 {| fourcc := 2 |} (world0 ok_env tt)
              eq_refl eq_refl eq_refl ltac:(discriminate) ltac:(discriminate)
              ltac:(simpl; repeat constructor))
    as (attribs & r & s' & W' & Hrun & Ht & _ & Hneeded).
  destruct (Hneeded eq_refl) as (e & -> & _ & _ & _ & _ & _ & _ & _ & _ & _ & Hnth).
  eexists. exists e, r, s', W'.
  split; [exact Hrun|]. split; [exact Ht|]. split; [reflexivity|].
  split; [reflexivity|].
  split; [exact (proj1 (Hnth 0%nat))|].
  split; [exact (proj1 (Hnth 1%nat))|].
  split; [exact (proj1 (Hnth 2%nat))|].
  split; [exact (proj2 (Hnth 0%nat))|].
  split; [exact (proj2 (Hnth 1%nat))|exact (proj2 (Hnth 2%nat))].
Defined.

Lemma new_with_format_reports_request_witness :
  let set_format_ := fun f a b =>
    {| vi_format := f; vi_width := a; vi_height := b; vi_n_planes := 2%nat;
       vi_stride := fun _ => a; vi_offset := fun i => Z.of_nat i * a * b |} in
  exists s W',
    @gst_vaapi_surface_new_with_format ok_env set_format_ (Some 1%N) 2 64 48
      (world0 ok_env tt) = Some (Some s, W') /\
    gst_vaapi_surface_get_width s = 64 /\
    gst_vaapi_surface_get_height s = 48 /\
    @gst_vaapi_surface_get_format ok_env s W' = Some ((2, s), W').
Proof.
  intros set_format_. do 2 eexists.
  assert (Hall : forall s W',
            Some (Some s, W')
            = @gst_vaapi_surface_new_with_format ok_env set_format_
                (Some 1%N) 2 64 48 (world0 ok_env tt) ->
            gst_vaapi_surface_get_width s = 64 /\
            gst_vaapi_surface_get_height s = 48 /\
            @gst_vaapi_surface_get_format ok_env s W' = Some ((2, s), W')).
  { intros s W' H. symmetry in H.
    destruct (@new_with_format_reports_request ok_env set_format_ (Some 1%N)
                2 64 48 (world0 ok_env tt) W' s
                eq_refl eq_refl eq_refl ltac:(discriminate) H)
      as (Hw & Hh & _ & _ & Hf).
    split; [exact Hw|]. split; [exact Hh|exact (Hf W')]. }
  split; [lazy; reflexivity|].
  apply Hall. lazy. reflexivity.
Defined.
